(** * Reconciliation logic of the [gc_dns] and [gke] Ansible modules

    A shallow embedding of [cloud/gc_dns.py] and [clustering/gke.py]:
    the provider SDK is an interface whose calls are answered by an
    arbitrary stateful implementation, every call is logged, and the
    control flow of [main] (early exits through [fail_json], exceptions,
    handlers, the polling loops) is written in a small state / exception
    monad. *)

From Stdlib Require Import ZArith Ascii String List Lia.
From stdpp Require Import base option strings list gmap.

Set Warnings "-register-all".
Open Scope string_scope.

(** ** Python values and string primitives *)

Module Py.

(** The values that travel through parameters, request bodies and result
    mappings. *)
Inductive pyval : Type :=
| VNone
| VBool (b : bool)
| VInt (n : Z)
| VStr (s : string)
| VList (l : list pyval)
| VDict (d : gmap string pyval).

(** [bool(v)]: what [if v] and [not v] test. *)
Definition truthy (v : pyval) : bool :=
  match v with
  | VNone => false
  | VBool b => b
  | VInt n => negb (n =? 0)%Z
  | VStr s => negb (String.eqb s "")
  | VList l => match l with [] => false | _ => true end
  | VDict d => negb (bool_decide (d = ∅))
  end.

(** A parameter that is a string or [None]. *)
Definition of_opt (o : option string) : pyval :=
  match o with Some s => VStr s | None => VNone end.

(** [if o] for a string-or-[None] parameter. *)
Definition str_truthy (o : option string) : bool :=
  match o with
  | Some (String _ _) => true
  | _ => false
  end.

(** The string held by a parameter already known to be truthy. *)
Definition the (o : option string) : string := default "" o.

(** ["%s" % o] for a string or [None]. *)
Definition py_str (o : option string) : string := default "None" o.

(** [s[-1]] on a non-empty string. *)
Fixpoint last_char (s : string) : option ascii :=
  match s with
  | EmptyString => None
  | String c EmptyString => Some c
  | String _ rest => last_char rest
  end.

(** [s.split(sep)] for a one-character separator. *)
Fixpoint split (sep : ascii) (s : string) : list string :=
  match s with
  | EmptyString => [EmptyString]
  | String c rest =>
      if Ascii.eqb c sep then EmptyString :: split sep rest
      else match split sep rest with
           | piece :: pieces => String c piece :: pieces
           | [] => [String c EmptyString]
           end
  end.

(** [sep.join(pieces)]. *)
Fixpoint join (sep : string) (pieces : list string) : string :=
  match pieces with
  | [] => EmptyString
  | [piece] => piece
  | piece :: rest => piece ++ sep ++ join sep rest
  end.

(** [c not in s]. *)
Fixpoint lacks (c : ascii) (s : string) : bool :=
  match s with
  | EmptyString => true
  | String c' rest => negb (Ascii.eqb c' c) && lacks c rest
  end.

End Py.

(** ** Control flow: state, exceptions and process exit *)

Module Eff.

Section Eff.
Context {W E X : Type}.

(** How a statement ends: normally, by a raised exception, or by leaving
    the process ([SystemExit], which [except Exception] does not catch). *)
Inductive res (A : Type) : Type :=
| Val (a : A)
| Exc (e : E)
| Halt (x : X).

Definition M (A : Type) : Type := W -> res A * W.

Definition ret {A} (a : A) : M A := fun w => (Val A a, w).

Definition bind {A B} (m : M A) (k : A -> M B) : M B :=
  fun w =>
    match m w with
    | (Val _ a, w') => k a w'
    | (Exc _ e, w') => (Exc B e, w')
    | (Halt _ x, w') => (Halt B x, w')
    end.

Definition raise {A} (e : E) : M A := fun w => (Exc A e, w).

Definition halt {A} (x : X) : M A := fun w => (Halt A x, w).

(** [try: body / except Exception, e: handler e]. *)
Definition try_except {A} (body : M A) (handler : E -> M A) : M A :=
  fun w =>
    match body w with
    | (Exc _ e, w') => handler e w'
    | r => r
    end.

Definition gets {A} (f : W -> A) : M A := fun w => (Val A (f w), w).

Definition modify (f : W -> W) : M unit := fun w => (Val unit tt, f w).

(** [if c: m]. *)
Definition when (c : bool) (m : M unit) : M unit :=
  if c then m else ret tt.

(** [while cond: body], unrolled at most [fuel] times; a loop that would
    go on past that ends the run with [stuck]. *)
Fixpoint while (stuck : X) (fuel : nat) (cond : W -> bool) (body : M unit)
  : M unit :=
  fun w =>
    if cond w then
      match fuel with
      | O => (Halt unit stuck, w)
      | S fuel' => bind body (fun _ => while stuck fuel' cond body) w
      end
    else (Val unit tt, w).

End Eff.

Arguments res : clear implicits.
Arguments M : clear implicits.
Arguments Val {E X A} a.
Arguments Exc {E X A} e.
Arguments Halt {E X A} x.

End Eff.

Notation "x <- m ;; k" := (Eff.bind m (fun x => k))
  (at level 100, m at next level, right associativity, only parsing).
Notation "m ;;; k" := (Eff.bind m (fun _ => k))
  (at level 100, right associativity, only parsing).

(** ** cloud/gc_dns.py *)

Module GcDns.
Import Py Eff.

(** libcloud's [Zone] and [Record] objects ([libcloud.dns.base]), by their
    attributes; the [driver] attribute, which [to_dict] pops, is left out. *)
Record Zone : Type := mkZone {
  zone_id : string;
  zone_domain : string;
  zone_type : string;
  zone_ttl : pyval;
  zone_extra : gmap string pyval
}.

Record Rec : Type := mkRec {
  rec_id : string;
  rec_name : string;
  rec_type : string;
  rec_data : gmap string pyval;
  rec_zone : Zone;
  rec_extra : gmap string pyval
}.

Inductive lc_obj : Type :=
| OZone (z : Zone)
| ORecord (r : Rec).

(** What [to_dict] is applied to: one object or a Python list of them. *)
Inductive lc_val : Type :=
| One (o : lc_obj)
| Many (os : list lc_obj).

(** [to_dict] on a zone: its [__dict__] without [driver]; a zone has no
    [zone] attribute. *)
Definition zone_dict (z : Zone) : gmap string pyval :=
  <["id" := VStr (zone_id z)]> (
  <["domain" := VStr (zone_domain z)]> (
  <["type" := VStr (zone_type z)]> (
  <["ttl" := zone_ttl z]> (
  <["extra" := VDict (zone_extra z)]> ∅)))).

(** The body shared by both branches of [to_dict]: copy [__dict__], pop
    [driver], and replace a [zone] attribute that is an object by its own
    dictionary. *)
Definition obj_dict (o : lc_obj) : gmap string pyval :=
  match o with
  | OZone z => zone_dict z
  | ORecord r =>
      <["zone" := VDict (zone_dict (rec_zone r))]> (
      <["id" := VStr (rec_id r)]> (
      <["name" := VStr (rec_name r)]> (
      <["type" := VStr (rec_type r)]> (
      <["data" := VDict (rec_data r)]> (
      <["extra" := VDict (rec_extra r)]> ∅)))))
  end.

Definition to_dict (lc : lc_val) : gmap string pyval :=
  match lc with
  | Many os => {[ "items" := VList ((fun o => VDict (obj_dict o)) <$> os) ]}
  | One o => obj_dict o
  end.

(** Exceptions the driver can raise, by what the handlers of [main] tell
    apart: the two libcloud "does not exist" errors, any other exception
    that has an [http_code] attribute (libcloud's [ProviderError] family),
    and any other exception, which has none.  [vars] is the rendering of
    the exception's attributes that [unexpected_error_msg] prints.
    [AttributeError] is what reading [e.http_code] raises on an exception
    without that attribute. *)
Inductive exn : Type :=
| ZoneDoesNotExistError (vars : string)
| RecordDoesNotExistError (vars : string)
| ProviderError (http_code : Z) (vars : string)
| PlainError (vars : string)
| AttributeError (attr : string).

Definition exn_vars (e : exn) : string :=
  match e with
  | ZoneDoesNotExistError v | RecordDoesNotExistError v
  | ProviderError _ v | PlainError v => v
  | AttributeError a => a
  end.

(** [ansible.module_utils.gce.unexpected_error_msg]: a fixed prefix and
    the rendering of the exception's attributes. *)
Definition unexpected_error_msg (e : exn) : string :=
  "Unexpected error: " ++ exn_vars e.

(** The driver calls [main] makes, with their arguments. *)
Inductive call : Type :=
| get_zone (zone_id : string)
| iterate_zones
| iterate_records (zone : Zone)
| get_record (zone_id record_id : string)
| create_zone (domain : option string) (extra : gmap string pyval)
| create_record (name : string) (zone : Zone) (type : string)
    (data : gmap string pyval)
| delete_zone (zone : Zone)
| delete_record (record : Rec).

Definition returns (c : call) : Type :=
  match c with
  | get_zone _ => Zone
  | iterate_zones => list Zone
  | iterate_records _ => list Rec
  | get_record _ _ => Rec
  | create_zone _ _ => Zone
  | create_record _ _ _ _ => Rec
  | delete_zone _ => bool
  | delete_record _ => bool
  end.

(** A driver connection: every call either returns or raises, and moves
    the provider to a new state. *)
Definition Driver (St : Type) : Type :=
  forall c : call, St -> (returns c + exn) * St.

(** What a call answered, for the log. *)
Inductive reply : Type :=
| Returned (v : lc_val)
| Answered (b : bool)
| Raised (e : exn).

Definition reply_of (c : call) : returns c -> reply :=
  match c with
  | get_zone _ => fun z => Returned (One (OZone z))
  | iterate_zones => fun zs => Returned (Many (OZone <$> zs))
  | iterate_records _ => fun rs => Returned (Many (ORecord <$> rs))
  | get_record _ _ => fun r => Returned (One (ORecord r))
  | create_zone _ _ => fun z => Returned (One (OZone z))
  | create_record _ _ _ _ => fun r => Returned (One (ORecord r))
  | delete_zone _ => fun b => Answered b
  | delete_record _ => fun b => Answered b
  end.

Inductive event : Type :=
| Called (c : call) (r : reply).

(** The module parameters [main] reads, as [AnsibleModule] hands them
    over: [command] always has a value, the others are strings or [None];
    [ttl] is kept as any value, since only its truth is tested. *)
Record params : Type := mkParams {
  p_command : string;
  p_description : option string;
  p_dns_name : option string;
  p_name : option string;
  p_record : option string;
  p_ttl : pyval;
  p_record_type : option string;
  p_value : option string
}.

(** How the process ends: [print json.dumps(output); sys.exit(0)], or
    [module.fail_json] with its keyword arguments. *)
Inductive exit : Type :=
| ExitOk (output : gmap string pyval)
| ExitFail (kwargs : gmap string pyval).

Section Main.
Context {St : Type} (conn : Driver St).

(** The provider's state, the log of driver calls, and the local
    variable [output]. *)
Record world : Type := mkWorld {
  w_conn : St;
  w_trace : list event;
  w_output : gmap string pyval
}.

Definition perform (c : call) : M world exn exit (returns c) :=
  fun w =>
    match conn c (w_conn w) with
    | (inl v, s) =>
        (Val v, mkWorld s (w_trace w ++ [Called c (reply_of c v)]) (w_output w))
    | (inr e, s) =>
        (Exc e, mkWorld s (w_trace w ++ [Called c (Raised e)]) (w_output w))
    end.

(** [output = d]. *)
Definition set_output (d : gmap string pyval) : M world exn exit unit :=
  modify (fun w => mkWorld (w_conn w) (w_trace w) d).

(** [output[k] = v]. *)
Definition set_item (k : string) (v : pyval) : M world exn exit unit :=
  modify (fun w => mkWorld (w_conn w) (w_trace w) (<[k := v]> (w_output w))).

(** [module.fail_json(msg=msg, changed=changed)]. *)
Definition fail_json {A} (msg : string) (changed : bool) : M world exn exit A :=
  halt (ExitFail (<["msg" := VStr msg]> (<["changed" := VBool changed]> ∅))).

(** [e.http_code]. *)
Definition http_code_of (e : exn) : M world exn exit Z :=
  match e with
  | ProviderError code _ => ret code
  | _ => raise (AttributeError "http_code")
  end.

(** [record and record[-1] != "."], and the same test on [dns_name]. *)
Definition lacks_trailing_dot (o : option string) : bool :=
  str_truthy o && negb (bool_decide (last_char (the o) = Some "."%char)).

Definition zone_not_found (name : option string) : string :=
  "Zone '" ++ py_str name ++ "' not found".

Definition cmd_list (p : params) : M world exn exit unit :=
  let name := p_name p in
  try_except
    (if str_truthy name then
       zone <- perform (get_zone (the name)) ;;
       records <- perform (iterate_records zone) ;;
       set_output (to_dict (Many (ORecord <$> records)))
     else
       zones <- perform iterate_zones ;;
       set_output (to_dict (Many (OZone <$> zones))))
    (fun e =>
       match e with
       | ZoneDoesNotExistError _ => fail_json (zone_not_found name) false
       | _ => fail_json (unexpected_error_msg e) false
       end).

Definition cmd_get (p : params) : M world exn exit unit :=
  let name := p_name p in
  let record := p_record p in
  when (negb (str_truthy name)) (fail_json "Missing required 'name'" false) ;;;
  if str_truthy record then
    let record_type :=
      if str_truthy (p_record_type p) then the (p_record_type p) else "A" in
    let rec_name := record_type ++ ":" ++ the record in
    try_except
      (r <- perform (get_record (the name) rec_name) ;;
       set_output (to_dict (One (ORecord r))))
      (fun e =>
         match e with
         | RecordDoesNotExistError _ =>
             fail_json ("Record '" ++ the record ++ "' of type '" ++ record_type
                        ++ "' not found in zone '" ++ the name ++ "'") false
         | _ => fail_json (unexpected_error_msg e) false
         end)
  else
    try_except
      (z <- perform (get_zone (the name)) ;;
       set_output (to_dict (One (OZone z))))
      (fun e =>
         match e with
         | ZoneDoesNotExistError _ => fail_json (zone_not_found name) false
         | _ => fail_json (unexpected_error_msg e) false
         end).

(** The [data] dictionary of a record create: [ttl] and [rrdatas] after
    default substitution. *)
Definition record_ttl (p : params) : pyval :=
  if truthy (p_ttl p) then p_ttl p else VInt 86400.

Definition record_rrdatas (p : params) : list string :=
  if str_truthy (p_value p) then split ","%char (the (p_value p)) else [].

Definition record_data (p : params) : gmap string pyval :=
  <["ttl" := record_ttl p]> (
  <["rrdatas" := VList (VStr <$> record_rrdatas p)]> ∅).

(** [record_type] after [if not record_type: record_type = "A"]. *)
Definition record_type_or_A (p : params) : string :=
  if str_truthy (p_record_type p) then the (p_record_type p) else "A".

Definition cmd_create (p : params) : M world exn exit unit :=
  let name := p_name p in
  let record := p_record p in
  when (negb (str_truthy name)) (fail_json "Missing required 'name'" false) ;;;
  if str_truthy record then
    let record_type := record_type_or_A p in
    let data := record_data p in
    try_except
      (zone <- perform (get_zone (the name)) ;;
       r <- perform (create_record (the record) zone record_type data) ;;
       set_output (to_dict (One (ORecord r))) ;;;
       set_item "changed" (VBool true))
      (fun e =>
         match e with
         | ZoneDoesNotExistError _ => fail_json (zone_not_found name) false
         | _ =>
             code <- http_code_of e ;;
             if (code =? 409)%Z then
               let rec_name := record_type ++ ":" ++ the record in
               r <- perform (get_record (the name) rec_name) ;;
               set_output (to_dict (One (ORecord r)))
             else fail_json (unexpected_error_msg e) false
         end)
  else
    let description :=
      if str_truthy (p_description p) then the (p_description p)
      else "Managed zone: " ++ py_str (p_dns_name p) in
    let extra :=
      <["name" := VStr (the name)]> (<["description" := VStr description]> ∅) in
    try_except
      (z <- perform (create_zone (p_dns_name p) extra) ;;
       set_output (to_dict (One (OZone z))) ;;;
       set_item "changed" (VBool true))
      (fun e =>
         code <- http_code_of e ;;
         if (code =? 409)%Z then
           zone <- perform (get_zone (the name)) ;;
           z <- perform (get_zone (the name)) ;;
           set_output (to_dict (One (OZone z)))
         else fail_json (unexpected_error_msg e) false).

Definition cmd_delete (p : params) : M world exn exit unit :=
  let name := p_name p in
  let record := p_record p in
  (* [record_type] as the handlers see it: reassigned at the top of the
     record branch, before any call. *)
  let record_type :=
    if str_truthy record then VStr (record_type_or_A p)
    else of_opt (p_record_type p) in
  when (negb (str_truthy name)) (fail_json "Missing required 'name'" false) ;;;
  try_except
    (if str_truthy record then
       let rec_name := record_type_or_A p ++ ":" ++ the record in
       record_match <- perform (get_record (the name) rec_name) ;;
       set_output (to_dict (One (ORecord record_match))) ;;;
       deleted <- perform (delete_record record_match) ;;
       when (negb deleted)
         (fail_json ("Failed to delete record " ++ the record) false) ;;;
       set_item "changed" (VBool true)
     else
       zone_match <- perform (get_zone (the name)) ;;
       set_output (to_dict (One (OZone zone_match))) ;;;
       deleted <- perform (delete_zone zone_match) ;;
       when (negb deleted)
         (fail_json ("Failed to delete zone " ++ the name) false) ;;;
       set_item "changed" (VBool true))
    (fun e =>
       match e with
       | RecordDoesNotExistError _ =>
           set_item "record" (of_opt record) ;;;
           set_item "record_type" record_type ;;;
           set_item "name" (of_opt name)
       | ZoneDoesNotExistError _ =>
           set_item "name" (of_opt name)
       | _ =>
           code <- http_code_of e ;;
           if (code =? 404)%Z then ret tt
           else fail_json (unexpected_error_msg e) false
       end).

(** [main] from [output = {}] on; [conn] has been built by [gce_connect]. *)
Definition main (p : params) : M world exn exit Empty_set :=
  let command := p_command p in
  set_output ∅ ;;;
  when (lacks_trailing_dot (p_record p))
    (fail_json "Must specify a valid DNS record name" false) ;;;
  when (lacks_trailing_dot (p_dns_name p))
    (fail_json "Must specify a valid dns_name" false) ;;;
  (if String.eqb command "list" then cmd_list p
   else if String.eqb command "get" then cmd_get p
   else if String.eqb command "create" then cmd_create p
   else if String.eqb command "delete" then cmd_delete p
   else fail_json ("Unknown command '" ++ command
                   ++ "', must be 'list', 'get', 'create', or 'delete'.") false) ;;;
  set_item "command" (VStr command) ;;;
  output <- gets w_output ;;
  when (bool_decide (output !! "changed" = None))
    (set_item "changed" (VBool false)) ;;;
  output <- gets w_output ;;
  halt (ExitOk output).

(** What the caller of the module observes. *)
Inductive outcome : Type :=
| Exit0 (output : gmap string pyval)
| Exit1 (kwargs : gmap string pyval)
| Traceback (e : exn).

Definition run (p : params) (s : St) : outcome * world :=
  match main p (mkWorld s [] ∅) with
  | (Halt (ExitOk o), w) => (Exit0 o, w)
  | (Halt (ExitFail k), w) => (Exit1 k, w)
  | (Exc e, w) => (Traceback e, w)
  | (Val v, _) => match v with end
  end.

End Main.

Arguments world : clear implicits.

Definition exit_code (o : outcome) : Z :=
  match o with
  | Exit0 _ => 0
  | _ => 1
  end.

(** A call that changed the provider's state: a create that returned, or
    a delete that answered true. *)
Definition mutation (ev : event) : bool :=
  match ev with
  | Called (create_zone _ _) (Returned _) => true
  | Called (create_record _ _ _ _) (Returned _) => true
  | Called (delete_zone _) (Answered b) => b
  | Called (delete_record _) (Answered b) => b
  | _ => false
  end.

Definition mutated (tr : list event) : bool := existsb mutation tr.

End GcDns.

(** An in-memory DNS provider: zones by identifier, records by zone
    identifier and record identifier ([type:name]).  It answers the driver
    calls the way the Google driver of libcloud does. *)

Module FakeDns.
Import Py GcDns.

Record store : Type := mkStore {
  zones : gmap string Zone;
  records : gmap (string * string) Rec
}.

Definition extra_name (extra : gmap string pyval) : string :=
  match extra !! "name" with
  | Some (VStr n) => n
  | _ => ""
  end.

Definition records_of (zid : string) (s : store) : list Rec :=
  filter (fun r => zone_id (rec_zone r) = zid) (snd <$> map_to_list (records s)).

Definition driver : Driver store :=
  fun c =>
    match c as c0 return store -> (returns c0 + exn) * store with
    | get_zone zid => fun s =>
        match zones s !! zid with
        | Some z => (inl z, s)
        | None => (inr (ZoneDoesNotExistError zid), s)
        end
    | iterate_zones => fun s => (inl (snd <$> map_to_list (zones s)), s)
    | iterate_records z => fun s =>
        match zones s !! zone_id z with
        | Some _ => (inl (records_of (zone_id z) s), s)
        | None => (inr (ZoneDoesNotExistError (zone_id z)), s)
        end
    | get_record zid rid => fun s =>
        match zones s !! zid with
        | None => (inr (ZoneDoesNotExistError zid), s)
        | Some _ =>
            match records s !! (zid, rid) with
            | Some r => (inl r, s)
            | None => (inr (RecordDoesNotExistError rid), s)
            end
        end
    | create_zone domain extra => fun s =>
        let zid := extra_name extra in
        match zones s !! zid with
        | Some _ => (inr (ProviderError 409 "alreadyExists"), s)
        | None =>
            let z := mkZone zid (py_str domain) "master" (VInt 0) extra in
            (inl z, mkStore (<[zid := z]> (zones s)) (records s))
        end
    | create_record name z type data => fun s =>
        let rid := type ++ ":" ++ name in
        match zones s !! zone_id z with
        | None => (inr (ProviderError 404 "notFound"), s)
        | Some _ =>
            match records s !! (zone_id z, rid) with
            | Some _ => (inr (ProviderError 409 "alreadyExists"), s)
            | None =>
                let r := mkRec rid name type data z ∅ in
                (inl r, mkStore (zones s) (<[(zone_id z, rid) := r]> (records s)))
            end
        end
    | delete_zone z => fun s =>
        match zones s !! zone_id z with
        | Some _ => (inl true, mkStore (delete (zone_id z) (zones s)) (records s))
        | None => (inr (ProviderError 404 "notFound"), s)
        end
    | delete_record r => fun s =>
        let key := (zone_id (rec_zone r), rec_id r) in
        match records s !! key with
        | Some _ => (inl true, mkStore (zones s) (delete key (records s)))
        | None => (inr (ProviderError 404 "notFound"), s)
        end
    end.

(** The same provider, except that its delete calls answer false and
    delete nothing. *)
Definition refusing : Driver store :=
  fun c =>
    match c as c0 return store -> (returns c0 + exn) * store with
    | delete_zone _ => fun s => (inl false, s)
    | delete_record _ => fun s => (inl false, s)
    | other => driver other
    end.

Definition empty : store := mkStore ∅ ∅.

Definition example_zone : Zone :=
  mkZone "my-example-zone" "example.com." "master" (VInt 0)
    (<["name" := VStr "my-example-zone"]> ∅).

Definition example_record : Rec :=
  mkRec "A:foo.example.com." "foo.example.com." "A"
    (<["ttl" := VInt 86400]> (<["rrdatas" := VList [VStr "123.45.67.89"]]> ∅))
    example_zone ∅.

(** A provider that holds the example zone, and one that holds the
    example record in it. *)
Definition with_zone : store :=
  mkStore (<["my-example-zone" := example_zone]> ∅) ∅.

Definition with_record : store :=
  mkStore (<["my-example-zone" := example_zone]> ∅)
    (<[("my-example-zone", "A:foo.example.com.") := example_record]> ∅).

(** Parameters with only [command] and [name] given. *)
Definition on_zone (command : string) (name : string) : params :=
  mkParams command None None (Some name) None VNone None None.

(** Parameters naming a record of a zone. *)
Definition on_record (command : string) (name record : string) : params :=
  mkParams command None None (Some name) (Some record) VNone None None.

End FakeDns.

(** ** clustering/gke.py *)

Module Gke.
Import Py Eff.

(** A [Cluster] resource as [clusters().get] returns it: the two members
    [main] reads, which the API types as strings and which may be missing,
    and the other members (the resource has none named [changed], so the
    keyword arguments of [exit_json] never collide). *)
Record Cluster : Type := mkCluster {
  status : option string;
  statusMessage : option string;
  members : gmap string pyval
}.

(** The [Operation] resource that [create] and [delete] return; [main]
    overwrites it before any read. *)
Abbreviation Operation := (gmap string pyval) (only parsing).

Inductive exn : Type :=
| HttpError (resp_status : Z)
| OtherError (what : string)
| KeyError (key : string)
| NameError (name : string).

(** The requests [main] executes on [gke.projects().zones().clusters()]. *)
Inductive call : Type :=
| create (projectId zone : string) (body : pyval)
| get (projectId zone clusterId : string)
| delete (projectId zone clusterId : string).

Definition returns (c : call) : Type :=
  match c with
  | create _ _ _ => Operation
  | get _ _ _ => Cluster
  | delete _ _ _ => Operation
  end.

Definition Client (St : Type) : Type :=
  forall c : call, St -> (returns c + exn) * St.

Inductive reply : Type :=
| Accepted (op : Operation)
| Fetched (c : Cluster)
| Raised (e : exn).

Definition reply_of (c : call) : returns c -> reply :=
  match c with
  | create _ _ _ => Accepted
  | get _ _ _ => Fetched
  | delete _ _ _ => Accepted
  end.

(** What the process does to the outside: requests, and [time.sleep]. *)
Inductive event : Type :=
| Called (c : call) (r : reply)
| Slept (seconds : N).

(** The module parameters, with the types of the documented options for
    those [main] computes with; the ones that only go into the request
    body are kept as any value. *)
Record params : Type := mkParams {
  p_name : string;
  p_project_id : string;
  p_zone : string;
  p_state : string;
  p_wait_for : bool;
  p_wait_poll_interval : N;
  p_description : pyval;
  p_node_count : pyval;
  p_node_config_machine_type : pyval;
  p_node_config_disksize : pyval;
  p_node_config_scopes : pyval;
  p_node_config_metadata : pyval;
  p_username : pyval;
  p_password : pyval;
  p_logging_service : pyval;
  p_monitoring_svc : pyval;
  p_network_name : pyval;
  p_ipv4_range : pyval
}.

(** [if v: d[k] = v]. *)
Definition set_if (k : string) (v : pyval) (d : gmap string pyval)
  : gmap string pyval :=
  if truthy v then <[k := v]> d else d.

Definition _make_cluster_body (p : params) : pyval :=
  let cluster : gmap string pyval := ∅ in
  let cluster := <["name" := VStr (p_name p)]> cluster in
  let cluster := set_if "description" (p_description p) cluster in
  let cluster := <["initialNodeCount" := p_node_count p]> cluster in
  let nodeConfig : gmap string pyval :=
    <["machineType" := p_node_config_machine_type p]> (
    <["diskSizeGb" := p_node_config_disksize p]> (
    <["oauthScopes" := p_node_config_scopes p]> ∅)) in
  let nodeConfig := set_if "metadata" (p_node_config_metadata p) nodeConfig in
  let cluster := <["nodeConfig" := VDict nodeConfig]> cluster in
  let cluster :=
    <["masterAuth" := VDict (<["username" := p_username p]> (
                             <["password" := p_password p]> ∅))]> cluster in
  let cluster := set_if "loggingService" (p_logging_service p) cluster in
  let cluster := set_if "monitoringService" (p_monitoring_svc p) cluster in
  let cluster := set_if "network" (p_network_name p) cluster in
  let cluster := set_if "clusterIpv4Cidr" (p_ipv4_range p) cluster in
  let cluster := set_if "zone" (VStr (p_zone p)) cluster in
  VDict (<["cluster" := VDict cluster]> ∅).

(** How the process ends: [module.exit_json(changed=changed, **resp)],
    [module.fail_json] with its keyword arguments, or, in the model only,
    a polling loop that outlasts the fuel. *)
Inductive exit : Type :=
| ExitJson (changed : bool) (resp : Cluster)
| FailJson (kwargs : gmap string pyval)
| OutOfFuel.

Section Main.
Context {St : Type} (gke : Client St).

(** The provider's state, the log, and the local variables [changed],
    [polling] and [resp]. *)
Record world : Type := mkWorld {
  w_gke : St;
  w_trace : list event;
  w_changed : bool;
  w_polling : bool;
  w_resp : option Cluster
}.

Definition log (ev : event) (s : St) (w : world) : world :=
  mkWorld s (w_trace w ++ [ev]) (w_changed w) (w_polling w) (w_resp w).

(** [cluster_func().<request>(...).execute()]. *)
Definition execute (c : call) : M world exn exit (returns c) :=
  fun w =>
    match gke c (w_gke w) with
    | (inl v, s) => (Val v, log (Called c (reply_of c v)) s w)
    | (inr e, s) => (Exc e, log (Called c (Raised e)) s w)
    end.

(** [time.sleep(seconds)]. *)
Definition sleep (seconds : N) : M world exn exit unit :=
  modify (fun w => log (Slept seconds) (w_gke w) w).

Definition set_changed (b : bool) : M world exn exit unit :=
  modify (fun w => mkWorld (w_gke w) (w_trace w) b (w_polling w) (w_resp w)).

Definition set_polling (b : bool) : M world exn exit unit :=
  modify (fun w => mkWorld (w_gke w) (w_trace w) (w_changed w) b (w_resp w)).

Definition set_resp (c : Cluster) : M world exn exit unit :=
  modify (fun w =>
    mkWorld (w_gke w) (w_trace w) (w_changed w) (w_polling w) (Some c)).

Definition get_resp : M world exn exit Cluster :=
  r <- gets w_resp ;;
  match r with
  | Some c => ret c
  | None => raise (NameError "resp")
  end.

(** [resp['status']] and [resp['statusMessage']]. *)
Definition resp_status : M world exn exit string :=
  c <- get_resp ;;
  match status c with
  | Some s => ret s
  | None => raise (KeyError "status")
  end.

Definition resp_statusMessage : M world exn exit string :=
  c <- get_resp ;;
  match statusMessage c with
  | Some s => ret s
  | None => raise (KeyError "statusMessage")
  end.

(** [module.fail_json(msg=msg)]. *)
Definition fail_json {A} (msg : string) : M world exn exit A :=
  halt (FailJson (<["msg" := VStr msg]> ∅)).

(** [module.exit_json(changed=changed, **resp)]. *)
Definition exit_json {A} : M world exn exit A :=
  changed <- gets w_changed ;;
  resp <- get_resp ;;
  halt (ExitJson changed resp).

(** [s in ['ERROR', 'STATUS_UNSPECIFIED']]. *)
Definition error_status (s : string) : bool :=
  String.eqb s "ERROR" || String.eqb s "STATUS_UNSPECIFIED".

Definition fetch (p : params) : M world exn exit unit :=
  r <- execute (get (p_project_id p) (p_zone p) (p_name p)) ;;
  set_resp r.

(** One turn of the [while polling] loop of the [present] branch. *)
Definition poll_present (p : params) : M world exn exit unit :=
  sleep (p_wait_poll_interval p) ;;;
  fetch p ;;;
  s <- resp_status ;;
  when (String.eqb s "RUNNING") (set_polling false) ;;;
  s <- resp_status ;;
  when (error_status s)
    (m <- resp_statusMessage ;;
     fail_json ("Error [" ++ s ++ "]: '" ++ m ++ "'")).

Definition present (fuel : nat) (p : params) : M world exn exit unit :=
  let body := _make_cluster_body p in
  try_except
    (_ <- execute (create (p_project_id p) (p_zone p) body) ;;
     fetch p ;;;
     set_changed true)
    (fun e =>
       match e with
       | HttpError st =>
           if (st =? 409)%Z then fetch p ;;; set_polling false
           else raise e
       | _ => raise e
       end) ;;;
  while OutOfFuel fuel w_polling (poll_present p) ;;;
  exit_json.

(** One turn of the [while polling] loop of the [absent] branch. *)
Definition poll_absent (p : params) : M world exn exit unit :=
  sleep (p_wait_poll_interval p) ;;;
  try_except (fetch p)
    (fun e =>
       match e with
       | HttpError st =>
           if (st =? 404)%Z then set_polling false else raise e
       | _ => raise e
       end).

Definition not_found (p : params) : Cluster :=
  mkCluster (Some "FOT FOUND") None
    (<["name" := VStr (p_name p)]> (<["zone" := VStr (p_zone p)]> ∅)).

Definition absent (fuel : nat) (p : params) : M world exn exit unit :=
  try_except
    (_ <- execute (delete (p_project_id p) (p_zone p) (p_name p)) ;;
     set_changed true)
    (fun e =>
       match e with
       | HttpError st =>
           if (st =? 404)%Z then set_polling false else raise e
       | _ => raise e
       end) ;;;
  while OutOfFuel fuel w_polling (poll_absent p) ;;;
  set_resp (not_found p) ;;;
  exit_json.

(** [main] from [changed = False] on; the client [gke] has been built. *)
Definition main (fuel : nat) (p : params) : M world exn exit Empty_set :=
  set_changed false ;;;
  set_polling (p_wait_for p) ;;;
  when (String.eqb (p_state p) "present") (present fuel p) ;;;
  when (String.eqb (p_state p) "absent") (absent fuel p) ;;;
  fail_json ("Invalid state: '" ++ p_state p ++ "'").

Inductive outcome : Type :=
| Exit0 (changed : bool) (resp : Cluster)
| Exit1 (kwargs : gmap string pyval)
| Traceback (e : exn).

(** A run with [fuel] turns allowed to each polling loop; [None] when a
    loop needs more. *)
Definition run (fuel : nat) (p : params) (s : St) : option outcome * world :=
  match main fuel p (mkWorld s [] false false None) with
  | (Halt (ExitJson c r), w) => (Some (Exit0 c r), w)
  | (Halt (FailJson k), w) => (Some (Exit1 k), w)
  | (Halt OutOfFuel, w) => (None, w)
  | (Exc e, w) => (Some (Traceback e), w)
  | (Val v, _) => match v with end
  end.

End Main.

Arguments world : clear implicits.

Definition exit_code (o : outcome) : Z :=
  match o with
  | Exit0 _ _ => 0
  | _ => 1
  end.

(** The [changed] member of the result mapping, when there is a mapping
    and it has one. *)
Definition reported_changed (o : outcome) : option pyval :=
  match o with
  | Exit0 c _ => Some (VBool c)
  | Exit1 k => k !! "changed"
  | Traceback _ => None
  end.

Definition is_sleep (ev : event) : bool :=
  match ev with
  | Slept _ => true
  | _ => false
  end.

(** The number of sleep-then-fetch turns a run took. *)
Definition sleeps (tr : list event) : nat :=
  length (List.filter is_sleep tr).

(** A create or delete request that the provider accepted. *)
Definition mutation (ev : event) : bool :=
  match ev with
  | Called (create _ _ _) (Accepted _) => true
  | Called (delete _ _ _) (Accepted _) => true
  | _ => false
  end.

Definition mutated (tr : list event) : bool := existsb mutation tr.

(** The [try] block around the create or delete request ran to its end:
    the create was accepted and the fetch after it returned, or the delete
    was accepted. *)
Definition confirmed (tr : list event) : bool :=
  match tr with
  | Called (create _ _ _) (Accepted _) :: Called (get _ _ _) (Fetched _) :: _ => true
  | Called (delete _ _ _) (Accepted _) :: _ => true
  | _ => false
  end.

End Gke.

(** A simulated GKE client that accepts every create and delete, and
    answers the successive fetches from a script. *)

Module ScriptedGke.
Import Py Gke.

Abbreviation script := (list (Cluster + exn)) (only parsing).

Definition client : Client script :=
  fun c =>
    match c as c0 return script -> (returns c0 + exn) * script with
    | create _ _ _ => fun s => (inl ∅, s)
    | delete _ _ _ => fun s => (inl ∅, s)
    | get _ _ _ => fun s =>
        match s with
        | answer :: rest => (answer, rest)
        | [] => (inr (OtherError "end of script"), [])
        end
    end.

Definition in_status (s : string) : Cluster := mkCluster (Some s) None ∅.

Definition failed (s m : string) : Cluster := mkCluster (Some s) (Some m) ∅.

End ScriptedGke.

(** An in-memory GKE provider: clusters by name, created and deleted at
    once. *)

Module FakeGke.
Import Py Gke.

Abbreviation store := (gmap string Cluster) (only parsing).

Definition client : Client store :=
  fun c =>
    match c as c0 return store -> (returns c0 + exn) * store with
    | create _ _ body => fun s =>
        let name :=
          match body with
          | VDict b =>
              match b !! "cluster" with
              | Some (VDict cl) =>
                  match cl !! "name" with Some (VStr n) => n | _ => "" end
              | _ => ""
              end
          | _ => ""
          end in
        match s !! name with
        | Some _ => (inr (HttpError 409), s)
        | None =>
            (inl ∅, <[name := mkCluster (Some "RUNNING") None
                                 (<["name" := VStr name]> ∅)]> s)
        end
    | get _ _ name => fun s =>
        match s !! name with
        | Some cl => (inl cl, s)
        | None => (inr (HttpError 404), s)
        end
    | delete _ _ name => fun s =>
        match s !! name with
        | Some _ => (inl ∅, base.delete name s)
        | None => (inr (HttpError 404), s)
        end
    end.

Definition example (state : string) (wait_for : bool) : params :=
  mkParams "gke-test" "empyrean-yeti-226" "us-central1-f" state wait_for 10
    (VStr "GKE Cluster created with Ansible") (VInt 2) (VStr "n1-standard-1")
    (VInt 100)
    (VList [VStr "https://www.googleapis.com/auth/compute";
            VStr "https://www.googleapis.com/auth/devstorage.read_only";
            VStr "https://www.googleapis.com/auth/logging.write";
            VStr "https://www.googleapis.com/auth/monitoring"])
    VNone (VStr "admin") (VStr "secret") (VStr "logging.googleapis.com")
    (VStr "monitoring.googleapis.com") (VStr "default") VNone.

Definition with_cluster : store :=
  <["gke-test" := mkCluster (Some "RUNNING") None (<["name" := VStr "gke-test"]> ∅)]> ∅.

End FakeGke.

(** A GKE provider that rejects every request with one HTTP status. *)

Module RejectingGke.
Import Py Gke.

Definition client (code : Z) : Client unit :=
  fun c =>
    match c as c0 return unit -> (returns c0 + exn) * unit with
    | create _ _ _ => fun s => (inr (HttpError code), s)
    | get _ _ _ => fun s => (inr (HttpError code), s)
    | delete _ _ _ => fun s => (inr (HttpError code), s)
    end.

End RejectingGke.

(** ** Vocabulary of the statements about [gc_dns] *)

Module DnsSpec.
Import Py Eff GcDns.

(** A name parameter that is given, non-empty, and does not end in a dot. *)
Definition unterminated (o : option string) : Prop :=
  exists s, o = Some s /\ s <> "" /\ last_char s <> Some "."%char.

(** Both name checks of [main] pass. *)
Definition names_pass (p : params) : Prop :=
  lacks_trailing_dot (p_record p) = false
  /\ lacks_trailing_dot (p_dns_name p) = false.

(** The keyword arguments of every [fail_json] call of the module. *)
Definition failure (msg : string) : gmap string pyval :=
  <["msg" := VStr msg]> (<["changed" := VBool false]> ∅).

(** The [if]/[elif] chain of [main]. *)
Definition dispatch {St} (conn : Driver St) (p : params)
  : M (world St) exn exit unit :=
  if String.eqb (p_command p) "list" then cmd_list conn p
  else if String.eqb (p_command p) "get" then cmd_get conn p
  else if String.eqb (p_command p) "create" then cmd_create conn p
  else if String.eqb (p_command p) "delete" then cmd_delete conn p
  else fail_json ("Unknown command '" ++ p_command p
                  ++ "', must be 'list', 'get', 'create', or 'delete'.") false.

(** The last four statements of [main], on the [output] a command left. *)
Definition finalize (command : string) (out : gmap string pyval)
  : gmap string pyval :=
  let out := <["command" := VStr command]> out in
  if bool_decide (out !! "changed" = None) then <["changed" := VBool false]> out
  else out.

Definition conclude {St} (command : string)
    (rw : res exn exit unit * world St) : outcome * world St :=
  match rw with
  | (Val _, w) =>
      let out := finalize command (w_output w) in
      (Exit0 out, mkWorld (w_conn w) (w_trace w) out)
  | (Exc e, w) => (Traceback e, w)
  | (Halt (ExitOk o), w) => (Exit0 o, w)
  | (Halt (ExitFail k), w) => (Exit1 k, w)
  end.

(** [output['changed']] as a command leaves it: set to [True] or unset. *)
Definition flag (b : bool) : option pyval :=
  if b then Some (VBool true) else None.

(** What a command establishes: it sets [changed] exactly when it has
    mutated the provider, and a failure follows no mutation. *)
Definition changes_reported {St} (rw : res exn exit unit * world St) : Prop :=
  match rw with
  | (Val _, w) => w_output w !! "changed" = flag (mutated (w_trace w))
  | (Exc e, w) => mutated (w_trace w) = false
  | (Halt (ExitOk _), _) => False
  | (Halt (ExitFail k), w) =>
      (exists msg, k = failure msg) /\ mutated (w_trace w) = false
  end.

(** The provider said that the target does not exist. *)
Definition not_found (e : exn) : bool :=
  match e with
  | ZoneDoesNotExistError _ | RecordDoesNotExistError _ => true
  | ProviderError code _ => (code =? 404)%Z
  | _ => false
  end.

(** The provider said that the target exists already. *)
Definition conflict (e : exn) : bool :=
  match e with
  | ProviderError code _ => (code =? 409)%Z
  | _ => false
  end.

Definition raised (which : exn -> bool) (ev : event) : bool :=
  match ev with
  | Called _ (Raised e) => which e
  | _ => false
  end.

(** A delete call that answered true. *)
Definition deleted (ev : event) : bool :=
  match ev with
  | Called (delete_zone _) (Answered b) => b
  | Called (delete_record _) (Answered b) => b
  | _ => false
  end.

(** A record create request carries the defaulted type and data. *)
Definition request_ok (p : params) (ev : event) : Prop :=
  match ev with
  | Called (create_record name _ type data) _ =>
      name = the (p_record p) /\ type = record_type_or_A p
      /\ data = record_data p
  | _ => True
  end.

Definition absence_tolerated {St} (rw : res exn exit unit * world St) : Prop :=
  existsb (raised not_found) (w_trace rw.2) = true ->
  rw.1 = Val tt /\ w_output rw.2 !! "changed" = None.

Definition conflict_resolved {St} (rw : res exn exit unit * world St) : Prop :=
  existsb (raised conflict) (w_trace rw.2) = true ->
  forall g lv, last (w_trace rw.2) = Some (Called g (Returned lv)) ->
  rw.1 = Val tt /\ w_output rw.2 = to_dict lv.

Definition others_fatal {St} (rw : res exn exit unit * world St) : Prop :=
  existsb (raised (fun e => negb (conflict e))) (w_trace rw.2) = true ->
  match rw.1 with
  | Val _ | Halt (ExitOk _) => False
  | _ => True
  end.

Definition delete_confirmed {St} (rw : res exn exit unit * world St) : Prop :=
  w_output rw.2 !! "changed" = Some (VBool true) ->
  exists ev, last (w_trace rw.2) = Some ev /\ deleted ev = true.

End DnsSpec.


(** ** Vocabulary of the statements about [gke] *)

Module GkeSpec.
Import Py Eff Gke.

(** The fetch request of a run. *)
Definition fetch_of (p : params) : call :=
  get (p_project_id p) (p_zone p) (p_name p).

Definition create_of (p : params) : call :=
  create (p_project_id p) (p_zone p) (_make_cluster_body p).

Definition delete_of (p : params) : call :=
  delete (p_project_id p) (p_zone p) (p_name p).

(** The events of one sleep-then-fetch turn that fetched [c]. *)
Definition turn (p : params) (c : Cluster) : list event :=
  [Slept (p_wait_poll_interval p); Called (fetch_of p) (Fetched c)].

(** The events of one sleep-then-fetch turn whose fetch raised [e]. *)
Definition failed_turn (p : params) (e : exn) : list event :=
  [Slept (p_wait_poll_interval p); Called (fetch_of p) (Raised e)].

(** The exception that ends the delete loop: [HttpError] with status 404. *)
Definition gone (e : exn) : bool :=
  match e with
  | HttpError st => (st =? 404)%Z
  | _ => false
  end.

(** A status that keeps the create loop going. *)
Definition pending (c : Cluster) : Prop :=
  exists s, status c = Some s /\ String.eqb s "RUNNING" = false
            /\ error_status s = false.

(** The keyword arguments of every [fail_json] call of the module. *)
Definition failure (msg : string) : gmap string pyval :=
  <["msg" := VStr msg]> ∅.

(** What a loop turn, and so a loop, leaves alone: [changed] and the
    events logged so far; and it stops the process only through
    [fail_json] (or, for the loop, for lack of fuel). *)
Definition framed {St} (w : world St)
    (rw : res exn exit unit * world St) : Prop :=
  w_changed rw.2 = w_changed w
  /\ (exists more : list event, w_trace rw.2 = (w_trace w ++ more)%list)
  /\ match rw.1 with
     | Halt (ExitJson _ _) => False
     | Halt (FailJson k) => exists msg, k = failure msg
     | _ => True
     end.

(** What [main] makes of the way its [present] or [absent] branch ended;
    a branch that returned would fall through to the last [fail_json]. *)
Definition settle {St} (p : params)
    (rw : res exn exit unit * world St) : option outcome * world St :=
  match rw with
  | (Halt (ExitJson c r), w) => (Some (Exit0 c r), w)
  | (Halt (FailJson k), w) => (Some (Exit1 k), w)
  | (Halt OutOfFuel, w) => (None, w)
  | (Exc e, w) => (Some (Traceback e), w)
  | (Val _, w) =>
      (Some (Exit1 (failure ("Invalid state: '" ++ p_state p ++ "'"))), w)
  end.

(** The local variables when [main] reaches [if state == "present"]. *)
Definition start {St} (p : params) (s : St) : world St :=
  mkWorld s [] false (p_wait_for p) None.

(** The world after a turn that fetched [c] and read status [st]. *)
Definition after_turn {St} (p : params) (w : world St) (s : St)
    (c : Cluster) (polling : bool) : world St :=
  mkWorld s (w_trace w ++ turn p c) (w_changed w) polling (Some c).

Definition after_failed_turn {St} (p : params) (w : world St) (s : St)
    (e : exn) (polling : bool) : world St :=
  mkWorld s (w_trace w ++ failed_turn p e) (w_changed w) polling (w_resp w).

(** The result mappings of a run agree with what it did: a successful
    exit reports [changed] as the [try] block left it, and a failure
    carries [msg] alone. *)
Definition faithful {St} (r : option outcome * world St) : Prop :=
  match r with
  | (Some (Exit0 changed _), w) => changed = confirmed (w_trace w)
  | (Some (Exit1 k), _) => exists msg, k = failure msg
  | _ => True
  end.

Definition error_message (st m : string) : string :=
  "Error [" ++ st ++ "]: '" ++ m ++ "'".

(** A stronger reading of [changed], which some runs refute: the run
    hands a result mapping to its caller, and [changed] is true in it
    exactly when a create or delete request was accepted. *)
Definition changed_iff_mutated {St} (r : option outcome * world St) : Prop :=
  exists o, r.1 = Some o
    /\ (reported_changed o = Some (VBool true) <-> mutated (w_trace r.2) = true).

(** A stronger reading of a fatal exit, which some runs refute: a
    non-zero exit comes with a result mapping that holds [msg] and
    [changed=False]. *)
Definition fatal_as_claimed (o : outcome) : Prop :=
  exit_code o <> 0%Z ->
  exists k, o = Exit1 k
    /\ (exists msg, k !! "msg" = Some (VStr msg))
    /\ k !! "changed" = Some (VBool false).

End GkeSpec.


(** ** [to_dict] on arbitrary objects

    [GcDns.to_dict] above is [to_dict] on the two classes of libcloud the
    module passes to it.  Here the function is modelled as it is written,
    on any Python value: an instance is its [__dict__]; [None] stands for
    the [AttributeError] of reading [__dict__] on a value that has none. *)

Module ToDict.
Import Py GcDns.

Inductive obj : Type :=
| ONone
| OBool (b : bool)
| OInt (n : Z)
| OStr (s : string)
| OList (items : list obj)
| ODict (d : gmap string obj)
| OInst (attrs : gmap string obj).

(** [bool(o)]; an instance of a class without [__len__] is true. *)
Definition obj_truthy (o : obj) : bool :=
  match o with
  | ONone => false
  | OBool b => b
  | OInt n => negb (n =? 0)%Z
  | OStr s => negb (String.eqb s "")
  | OList l => match l with [] => false | _ => true end
  | ODict d => negb (bool_decide (d = ∅))
  | OInst _ => true
  end.

(** [type(o) == str]; [OStr] is a [str], and [unicode] strings are not
    among the values. *)
Definition is_str (o : obj) : bool :=
  match o with OStr _ => true | _ => false end.

(** The four statements made on each object: copy [__dict__], pop
    [driver], and replace a [zone] that is true and not a string by
    [converted], the result of [to_dict] on it. *)
Definition flatten (attrs : gmap string obj)
    (converted : option (option (gmap string obj)))
  : option (gmap string obj) :=
  let out := delete "driver" attrs in
  match out !! "zone" with
  | Some z =>
      if obj_truthy z && negb (is_str z) then
        match converted with
        | Some (Some d) => Some (<["zone" := ODict d]> out)
        | _ => None
        end
      else Some out
  | None => Some out
  end.

(** [to_dict]: the list branch and the single-object branch.  The
    recursive call on the [zone] attribute is taken from the map of the
    attributes through [to_dict], at the key [zone]: this is [to_dict z]
    for [z] the value of [zone], written so that the recursion is
    structural ([to_dict_inst] below gives the equation in the source's
    form). *)
Fixpoint to_dict (lc_obj : obj) : option (gmap string obj) :=
  match lc_obj with
  | OList items =>
      obj_list ← mapM (fun item =>
                          match item with
                          | OInst attrs =>
                              flatten attrs ((to_dict <$> attrs) !! "zone")
                          | _ => None
                          end) items;
      Some {[ "items" := OList (ODict <$> obj_list) ]}
  | OInst attrs => flatten attrs ((to_dict <$> attrs) !! "zone")
  | _ => None
  end.

(** The body of the [for obj in lc_obj] loop: [obj.__dict__] exists on
    instances only. *)
Definition item_dict (item : obj) : option (gmap string obj) :=
  match item with
  | OInst _ => to_dict item
  | _ => None
  end.

(** A dictionary as [to_dict] leaves it: no [driver] key, and none in the
    dictionary under [zone]. *)
Definition stripped (d : gmap string obj) : Prop :=
  d !! "driver" = None
  /\ forall zd, d !! "zone" = Some (ODict zd) -> zd !! "driver" = None.

(** The values of the module's output as Python values. *)
Fixpoint as_obj (v : pyval) : obj :=
  match v with
  | VNone => ONone
  | VBool b => OBool b
  | VInt n => OInt n
  | VStr s => OStr s
  | VList l => OList (as_obj <$> l)
  | VDict d => ODict (as_obj <$> d)
  end.

(** libcloud's [Zone] and [Record] instances, with their [driver]. *)
Definition zone_object (driver : obj) (z : Zone) : obj :=
  OInst (<["id" := OStr (zone_id z)]> (
         <["domain" := OStr (zone_domain z)]> (
         <["type" := OStr (zone_type z)]> (
         <["ttl" := as_obj (zone_ttl z)]> (
         <["driver" := driver]> (
         <["extra" := as_obj (VDict (zone_extra z))]> ∅)))))).

Definition record_object (driver : obj) (r : Rec) : obj :=
  OInst (<["id" := OStr (rec_id r)]> (
         <["name" := OStr (rec_name r)]> (
         <["type" := OStr (rec_type r)]> (
         <["data" := as_obj (VDict (rec_data r))]> (
         <["zone" := zone_object driver (rec_zone r)]> (
         <["driver" := driver]> (
         <["extra" := as_obj (VDict (rec_extra r))]> ∅))))))).

Definition object_of (driver : obj) (o : lc_obj) : obj :=
  match o with
  | OZone z => zone_object driver z
  | ORecord r => record_object driver r
  end.

Definition value_of (driver : obj) (lv : lc_val) : obj :=
  match lv with
  | One o => object_of driver o
  | Many os => OList (object_of driver <$> os)
  end.

End ToDict.

(** ** More vocabulary for [gc_dns] *)

Module DnsMore.
Import Py Eff GcDns DnsSpec.

(** A driver call that only reads. *)
Definition is_read (ev : event) : bool :=
  match ev with
  | Called (get_zone _) _ | Called iterate_zones _
  | Called (iterate_records _) _ | Called (get_record _ _) _ => true
  | _ => false
  end.

(** A create or delete call, whatever it answered. *)
Definition attempt (ev : event) : bool :=
  match ev with
  | Called (create_zone _ _) _ | Called (create_record _ _ _ _) _
  | Called (delete_zone _) _ | Called (delete_record _) _ => true
  | _ => false
  end.

(** At most three calls, at most one of them a create or delete, and no
    call after one that mutated the provider. *)
Definition within_budget (tr : list event) : bool :=
  (length tr <=? 3)%nat
  && (length (List.filter attempt tr) <=? 1)%nat
  && negb (existsb mutation (removelast tr)).

(** A command that only reads: at most two calls, all of them reads, and
    no exception let through. *)
Definition reads_only {St} (rw : res exn exit unit * world St) : Prop :=
  forallb is_read (w_trace rw.2) = true
  /\ (length (w_trace rw.2) <=? 2)%nat = true
  /\ match rw.1 with Exc _ => False | _ => True end.

(** The ways a command lets an exception through: reading [http_code] on
    an exception that has none, or, after a conflict on create, the
    exception of the fetch made in the handler. *)
Definition escapes {St} (creating : bool)
    (rw : res exn exit unit * world St) : Prop :=
  match rw.1 with
  | Exc e =>
      e = AttributeError "http_code"
      \/ (creating = true
          /\ existsb (raised conflict) (w_trace rw.2) = true
          /\ exists g, last (w_trace rw.2) = Some (Called g (Raised e)))
  | _ => True
  end.

(** [description] after [if not description: ...] in the zone branch of
    [create]. *)
Definition zone_description (p : params) : string :=
  if str_truthy (p_description p) then the (p_description p)
  else "Managed zone: " ++ py_str (p_dns_name p).

(** The [create_zone] call of a zone create. *)
Definition zone_request (p : params) : call :=
  create_zone (p_dns_name p)
    (<["name" := VStr (the (p_name p))]> (
     <["description" := VStr (zone_description p)]> ∅)).

(** The [create_record] call of a record create on zone [z]. *)
Definition record_request (p : params) (z : Zone) : call :=
  create_record (the (p_record p)) z (record_type_or_A p) (record_data p).

(** The [get_record] call of a run that names a record. *)
Definition record_fetch (p : params) : call :=
  get_record (the (p_name p)) (record_type_or_A p ++ ":" ++ the (p_record p)).

(** [s.count(c)]. *)
Fixpoint count_char (c : ascii) (s : string) : nat :=
  match s with
  | EmptyString => 0
  | String c' rest => (if Ascii.eqb c' c then 1 else 0) + count_char c rest
  end.

(** An exception with [http_code] raised by the first driver call is
    reported through [unexpected_error_msg], unless its code is the one
    the command tolerates. *)
Definition reported {St} (tolerated : option Z)
    (rw : res exn exit unit * world St) : Prop :=
  forall c code vars,
    head (w_trace rw.2) = Some (Called c (Raised (ProviderError code vars))) ->
    match tolerated with
    | Some t => (code =? t)%Z = false
    | None => True
    end ->
    rw.1 = Halt (ExitFail (failure (unexpected_error_msg
                                      (ProviderError code vars)))).

End DnsMore.

(** A provider that answers every driver call by raising [e]. *)
Module DownDns.
Import GcDns.

Definition driver (e : exn) : Driver unit :=
  fun c s => (inr e, s).

End DownDns.

(** A GKE provider on which nothing ever completes: it accepts every
    create and delete, and every fetch reports the cluster in status
    [st]. *)

Module StuckGke.
Import Py Gke.

Definition client (st : string) : Client unit :=
  fun c =>
    match c as c0 return unit -> (returns c0 + exn) * unit with
    | create _ _ _ => fun s => (inl ∅, s)
    | get _ _ _ => fun s => (inl (mkCluster (Some st) None ∅), s)
    | delete _ _ _ => fun s => (inl ∅, s)
    end.

End StuckGke.

(** ** More vocabulary for [gke] *)

Module GkeMore.
Import Py Eff Gke GkeSpec.

(** The members of [cluster] that [_make_cluster_body] sets only when the
    parameter is true, with the parameter each one takes. *)
Definition optional_members (p : params) : list (string * pyval) :=
  [("description", p_description p);
   ("loggingService", p_logging_service p);
   ("monitoringService", p_monitoring_svc p);
   ("network", p_network_name p);
   ("clusterIpv4Cidr", p_ipv4_range p);
   ("zone", VStr (p_zone p))].

(** How the delete loop can end: it returns, it lets through an exception
    other than the 404 it waits for, or it runs out of fuel. *)
Definition absent_loop_post {St} (rw : res exn exit unit * world St) : Prop :=
  match rw.1 with
  | Val _ => True
  | Exc e => gone e = false
  | Halt OutOfFuel => True
  | Halt _ => False
  end.

End GkeMore.


(** ** Proof steps *)

Ltac dns_unfold :=
  cbv beta iota zeta delta
    [GcDns.cmd_list GcDns.cmd_get GcDns.cmd_create GcDns.cmd_delete
     GcDns.perform GcDns.set_output GcDns.set_item GcDns.fail_json
     GcDns.http_code_of GcDns.w_conn GcDns.w_trace GcDns.w_output
     GcDns.reply_of DnsSpec.changes_reported DnsSpec.absence_tolerated
     DnsSpec.conflict_resolved DnsSpec.others_fatal DnsSpec.delete_confirmed
     Eff.bind Eff.try_except Eff.when Eff.ret Eff.halt Eff.raise Eff.gets
     Eff.modify negb fst snd].

(** One case split of a run: on a driver answer, or on a test. *)
Ltac dns_step conn :=
  match goal with
  | |- context [conn ?c ?s] =>
      let E := fresh "E" in
      destruct (conn c s) as [[?v|[]] ?st] eqn:E
  | |- context [if ?b then _ else _] =>
      lazymatch b with
      | (if ?x then _ else _) => destruct x
      | _ => let B := fresh "B" in destruct b eqn:B
      end
  end; dns_unfold.

Ltac dns_cases conn := dns_unfold; repeat dns_step conn.

(** Rewrite a hypothesis with the tests already decided. *)
Ltac use_tests H :=
  repeat match goal with
         | B : ?b = _ |- _ =>
             tryif constr_eq B H then fail
             else lazymatch type of H with context [b] => rewrite B in H end
         end.

Ltac gke_unfold :=
  cbv beta iota zeta delta
    [Gke.present Gke.absent Gke.poll_present Gke.poll_absent Gke.fetch
     Gke.execute Gke.sleep Gke.log Gke.set_changed Gke.set_polling
     Gke.set_resp Gke.get_resp Gke.resp_status Gke.resp_statusMessage
     Gke.fail_json Gke.exit_json Gke.reply_of
     Gke.w_gke Gke.w_trace Gke.w_changed Gke.w_polling Gke.w_resp
     GkeSpec.fetch_of GkeSpec.create_of GkeSpec.delete_of GkeSpec.start
     GkeSpec.after_turn GkeSpec.after_failed_turn GkeSpec.turn
     GkeSpec.failed_turn GkeSpec.error_message GkeSpec.failure
     GkeSpec.settle GkeSpec.faithful
     Eff.bind Eff.try_except Eff.when Eff.ret Eff.halt Eff.raise Eff.gets
     Eff.modify negb fst snd].

Ltac gke_step gke :=
  match goal with
  | |- context [gke ?c ?s] =>
      let E := fresh "E" in
      destruct (gke c s) as [[?v|[]] ?st] eqn:E
  | |- context [match Gke.status ?c with _ => _ end] =>
      let S := fresh "S" in destruct (Gke.status c) eqn:S
  | |- context [match Gke.statusMessage ?c with _ => _ end] =>
      let S := fresh "S" in destruct (Gke.statusMessage c) eqn:S
  | |- context [if ?b then _ else _] =>
      let B := fresh "B" in destruct b eqn:B
  end; gke_unfold.

Ltac gke_cases gke := gke_unfold; repeat gke_step gke.

Ltac post_leaf :=
  first [ split; [eexists; reflexivity | vm_compute; reflexivity]
        | vm_compute; reflexivity ].

Ltac frame_leaf :=
  split; [reflexivity |
  split; [eexists; rewrite <- ?app_assoc; reflexivity |
          first [exact I | eexists; reflexivity]]].


(** ** Facts about [gc_dns] *)

Import Py Eff.

Section DnsFacts.
Import GcDns DnsSpec.
Context {St : Type} (conn : Driver St).

Lemma lacks_trailing_dot_spec (o : option string) :
  lacks_trailing_dot o = true <-> unterminated o.
Proof.
  unfold lacks_trailing_dot, unterminated. split.
  - intros H. apply andb_true_iff in H as [Ht Hd].
    destruct o as [[|c s]|]; try discriminate.
    exists (String c s). split; [reflexivity|]. split; [discriminate|].
    apply negb_true_iff, bool_decide_eq_false in Hd. exact Hd.
  - intros (s & -> & Hne & Hd). destruct s as [|c s]; [congruence|].
    apply andb_true_iff. split; [reflexivity|].
    apply negb_true_iff, bool_decide_eq_false. exact Hd.
Qed.

Lemma run_dispatch (p : params) (s : St) :
  names_pass p ->
  run conn p s = conclude (p_command p) (dispatch conn p (mkWorld s [] ∅)).
Proof.
  intros [Hr Hd]. unfold run, main, dispatch. rewrite Hr, Hd.
  set (f := if p_command p =? "list" then _ else _). clearbody f.
  unfold conclude, finalize, bind, set_output, set_item, modify, gets, when,
    ret, halt.
  cbn.
  destruct (f (mkWorld s [] ∅)) as [[[]|e|[o|k]] w]; try reflexivity.
  cbn. destruct (bool_decide _); reflexivity.
Qed.

Lemma run_rejected (p : params) (s : St) :
  ~ names_pass p ->
  exists msg, run conn p s = (Exit1 (failure msg), mkWorld s [] ∅)
    /\ (msg = "Must specify a valid DNS record name"
        \/ msg = "Must specify a valid dns_name").
Proof.
  intros H. unfold run, main, names_pass in *.
  destruct (lacks_trailing_dot (p_record p)) eqn:Hr.
  - eexists. split; [reflexivity | left; reflexivity].
  - destruct (lacks_trailing_dot (p_dns_name p)) eqn:Hd.
    + eexists. split; [reflexivity | right; reflexivity].
    + tauto.
Qed.

Lemma cmd_list_reports p s : changes_reported (cmd_list conn p (mkWorld s [] ∅)).
Proof. dns_cases conn; post_leaf. Qed.

Lemma cmd_get_reports p s : changes_reported (cmd_get conn p (mkWorld s [] ∅)).
Proof. dns_cases conn; post_leaf. Qed.

Lemma cmd_create_reports p s :
  changes_reported (cmd_create conn p (mkWorld s [] ∅)).
Proof. dns_cases conn; post_leaf. Qed.

Lemma cmd_delete_reports p s :
  changes_reported (cmd_delete conn p (mkWorld s [] ∅)).
Proof. dns_cases conn; post_leaf. Qed.

Lemma dispatch_reports p s : changes_reported (dispatch conn p (mkWorld s [] ∅)).
Proof.
  unfold dispatch.
  repeat match goal with |- context [if ?b then _ else _] => destruct b end.
  - apply cmd_list_reports.
  - apply cmd_get_reports.
  - apply cmd_create_reports.
  - apply cmd_delete_reports.
  - split; [eexists; reflexivity | reflexivity].
Qed.

Lemma cmd_delete_tolerates p s :
  absence_tolerated (cmd_delete conn p (mkWorld s [] ∅)).
Proof.
  dns_cases conn; intros H; cbn in H;
    first [ discriminate H | congruence
          | use_tests H; discriminate H
          | split; [reflexivity | vm_compute; reflexivity]  ].
Qed.

Lemma cmd_create_resolves p s :
  conflict_resolved (cmd_create conn p (mkWorld s [] ∅)).
Proof.
  dns_cases conn; intros H g lv L; cbn in H, L;
    first [ discriminate H | discriminate L | congruence
          | use_tests H; discriminate H
          | injection L as <- <-; split; reflexivity ].
Qed.

Lemma cmd_create_fatal p s :
  others_fatal (cmd_create conn p (mkWorld s [] ∅)).
Proof.
  dns_cases conn; intros H; cbn in H;
    first [ exact I | discriminate H | use_tests H; discriminate H ].
Qed.

Lemma cmd_create_requests p s :
  Forall (request_ok p) (w_trace (cmd_create conn p (mkWorld s [] ∅)).2).
Proof.
  dns_cases conn; cbn; repeat constructor.
Qed.

Lemma cmd_delete_confirms p s :
  delete_confirmed (cmd_delete conn p (mkWorld s [] ∅)).
Proof.
  dns_cases conn; intros H;
    first [ (eexists; split; reflexivity) | vm_compute in H; discriminate H ].
Qed.

End DnsFacts.

(** ** Facts about [gke] *)

Section GkeFacts.
Import Gke GkeSpec.
Context {St : Type} (gke : Client St).

Lemma while_done (fuel : nat) (body : M (world St) exn exit unit) (w : world St) :
  w_polling w = false ->
  while OutOfFuel fuel w_polling body w = (Val tt, w).
Proof. intros H. destruct fuel; simpl; rewrite H; reflexivity. Qed.

Lemma while_turn (fuel : nat) (body : M (world St) exn exit unit) (w : world St) :
  w_polling w = true ->
  while OutOfFuel (S fuel) w_polling body w
  = bind body (fun _ => while OutOfFuel fuel w_polling body) w.
Proof. intros H. simpl. rewrite H. reflexivity. Qed.

Lemma poll_present_framed p w : framed w (poll_present gke p w).
Proof. unfold framed. gke_cases gke; frame_leaf. Qed.

Lemma poll_absent_framed p w : framed w (poll_absent gke p w).
Proof. unfold framed. gke_cases gke; frame_leaf. Qed.

Lemma while_framed (body : M (world St) exn exit unit) :
  (forall w, framed w (body w)) ->
  forall fuel w, framed w (while OutOfFuel fuel w_polling body w).
Proof.
  intros Hbody fuel. induction fuel as [|fuel IH]; intros w.
  - simpl. destruct (w_polling w);
      (split; [reflexivity | split; [exists []; by rewrite app_nil_r | exact I]]).
  - destruct (w_polling w) eqn:Hp.
    + rewrite while_turn by exact Hp. unfold bind.
      specialize (Hbody w). destruct (body w) as [[[]|e|x] w1].
      * specialize (IH w1). destruct Hbody as (Hc & [m1 Ht] & _).
        destruct IH as (Hc' & [m2 Ht'] & Hx). simpl in *.
        split; [congruence|]. split; [|exact Hx].
        exists (m1 ++ m2)%list. rewrite Ht', Ht. by rewrite app_assoc.
      * exact Hbody.
      * exact Hbody.
    + rewrite while_done by exact Hp.
      split; [reflexivity | split; [exists []; by rewrite app_nil_r | exact I]].
Qed.


Lemma run_present fuel p s :
  p_state p = "present" ->
  run gke fuel p s = settle p (present gke fuel p (start p s)).
Proof.
  intros H. unfold run, main, start. rewrite H.
  change (String.eqb "present" "present") with true.
  change (String.eqb "present" "absent") with false.
  unfold settle, bind, when, set_changed, set_polling, modify, ret. cbn.
  destruct (present gke fuel p _) as [[[]|e|[c r|k|]] w]; try reflexivity.
  rewrite H. reflexivity.
Qed.

Lemma run_absent fuel p s :
  p_state p = "absent" ->
  run gke fuel p s = settle p (absent gke fuel p (start p s)).
Proof.
  intros H. unfold run, main, start. rewrite H.
  change (String.eqb "absent" "present") with false.
  change (String.eqb "absent" "absent") with true.
  unfold settle, bind, when, set_changed, set_polling, modify, ret. cbn.
  destruct (absent gke fuel p _) as [[[]|e|[c r|k|]] w]; try reflexivity.
  rewrite H. reflexivity.
Qed.

Lemma run_invalid fuel p s :
  p_state p <> "present" -> p_state p <> "absent" ->
  run gke fuel p s
  = (Some (Exit1 (failure ("Invalid state: '" ++ p_state p ++ "'"))),
     start p s).
Proof.
  intros H1 H2. unfold run, main, start.
  apply String.eqb_neq in H1, H2. rewrite H1, H2. reflexivity.
Qed.

(** One turn of the create loop, by what the fetch answered. *)
Lemma poll_present_fetched p w c s' :
  gke (fetch_of p) (w_gke w) = (inl c, s') ->
  poll_present gke p w =
  match status c with
  | None => (Exc (KeyError "status"), after_turn p w s' c (w_polling w))
  | Some st =>
      let polling := if String.eqb st "RUNNING" then false else w_polling w in
      if error_status st then
        match statusMessage c with
        | Some m => (Halt (FailJson (failure (error_message st m))),
                     after_turn p w s' c polling)
        | None => (Exc (KeyError "statusMessage"), after_turn p w s' c polling)
        end
      else (Val tt, after_turn p w s' c polling)
  end.
Proof.
  intros H. destruct w as [s0 tr ch po re]. unfold fetch_of in H.
  cbn [w_gke] in H. gke_unfold. rewrite H. gke_unfold.
  destruct (status c) as [st|] eqn:Hst; gke_unfold; [|by rewrite <- app_assoc].
  destruct (String.eqb st "RUNNING") eqn:Hr, (error_status st) eqn:He,
    (statusMessage c) eqn:Hm;
    repeat (progress (gke_unfold; rewrite ?Hst, ?Hr, ?He, ?Hm));
    by rewrite <- app_assoc.
Qed.

Lemma poll_present_raised p w e s' :
  gke (fetch_of p) (w_gke w) = (inr e, s') ->
  poll_present gke p w = (Exc e, after_failed_turn p w s' e (w_polling w)).
Proof.
  intros H. destruct w as [s0 tr ch po re]. unfold fetch_of in H.
  cbn [w_gke] in H. gke_unfold. rewrite H. gke_unfold.
  by rewrite <- app_assoc.
Qed.

(** One turn of the delete loop, by what the fetch answered. *)
Lemma poll_absent_fetched p w c s' :
  gke (fetch_of p) (w_gke w) = (inl c, s') ->
  poll_absent gke p w = (Val tt, after_turn p w s' c (w_polling w)).
Proof.
  intros H. destruct w as [s0 tr ch po re]. unfold fetch_of in H.
  cbn [w_gke] in H. gke_unfold. rewrite H. gke_unfold.
  by rewrite <- app_assoc.
Qed.

Lemma poll_absent_raised p w e s' :
  gke (fetch_of p) (w_gke w) = (inr e, s') ->
  poll_absent gke p w
  = (if gone e then Val tt else Exc e,
     after_failed_turn p w s' e (if gone e then false else w_polling w)).
Proof.
  intros H. destruct w as [s0 tr ch po re]. unfold fetch_of in H.
  cbn [w_gke] in H. gke_unfold. rewrite H. gke_unfold.
  destruct e as [st| | |]; gke_unfold; try by rewrite <- app_assoc.
  unfold gone. destruct (st =? 404)%Z; gke_unfold; by rewrite <- app_assoc.
Qed.

(** The create loop returns only on a fetch that read [RUNNING]. *)
Lemma present_loop_returns p fuel : forall w w',
  w_polling w = true ->
  while OutOfFuel fuel w_polling (poll_present gke p) w = (Val tt, w') ->
  exists c, w_resp w' = Some c /\ status c = Some "RUNNING"
    /\ last (w_trace w') = Some (Called (fetch_of p) (Fetched c))
    /\ w_polling w' = false.
Proof.
  induction fuel as [|fuel IH]; intros w w' Hp H.
  - simpl in H. rewrite Hp in H. discriminate.
  - rewrite while_turn in H by exact Hp. unfold bind in H.
    destruct (gke (fetch_of p) (w_gke w)) as [[c|e] s'] eqn:E.
    + rewrite (poll_present_fetched _ _ _ _ E) in H.
      destruct (status c) as [st|] eqn:Hst; [|discriminate].
      cbv zeta in H.
      destruct (error_status st);
        [destruct (statusMessage c); discriminate|].
      destruct (String.eqb st "RUNNING") eqn:Hrun.
      * rewrite while_done in H by reflexivity.
        injection H as <-. exists c. apply String.eqb_eq in Hrun. subst st.
        repeat split; try reflexivity; try assumption.
        unfold after_turn, turn. cbn [w_trace].
        change [Slept (p_wait_poll_interval p); Called (fetch_of p) (Fetched c)]
          with ([Slept (p_wait_poll_interval p)] ++ [Called (fetch_of p) (Fetched c)])%list.
        rewrite app_assoc. apply last_snoc.
      * apply IH in H; [exact H | exact Hp].
    + rewrite (poll_present_raised _ _ _ _ E) in H. discriminate.
Qed.


Lemma run_faithful fuel p s : faithful (run gke fuel p s).
Proof.
  destruct (String.eqb (p_state p) "present") eqn:Hpres;
    [|destruct (String.eqb (p_state p) "absent") eqn:Habs].
  - apply String.eqb_eq in Hpres. rewrite run_present by exact Hpres.
    unfold present.
    set (loop := while OutOfFuel fuel w_polling (poll_present gke p)).
    gke_cases gke;
      match goal with
      | |- context [loop ?W] =>
          pose proof (while_framed _ (poll_present_framed p) fuel W) as F;
          unfold framed in F; fold loop in F;
          destruct F as (Hc & [more Ht] & Hx);
          destruct (loop W) as [[[]|e|[c r|k|]] w2]; cbn in Hc, Ht, Hx;
          gke_unfold; try exact I; try exact Hx; try (exfalso; exact Hx);
          destruct w2 as [s2 tr2 ch2 po2 [c2|]]; cbn in Hc, Ht; gke_unfold;
          try exact I; subst; reflexivity
      | _ => exact I
      end.
  - apply String.eqb_eq in Habs. rewrite run_absent by exact Habs.
    unfold absent.
    set (loop := while OutOfFuel fuel w_polling (poll_absent gke p)).
    gke_cases gke;
      match goal with
      | |- context [loop ?W] =>
          pose proof (while_framed _ (poll_absent_framed p) fuel W) as F;
          unfold framed in F; fold loop in F;
          destruct F as (Hc & [more Ht] & Hx);
          destruct (loop W) as [[[]|e|[c r|k|]] w2]; cbn in Hc, Ht, Hx;
          gke_unfold; try exact I; try exact Hx; try (exfalso; exact Hx);
          destruct w2 as [s2 tr2 ch2 po2 re2]; cbn in Hc, Ht; gke_unfold;
          try exact I; subst; reflexivity
      | _ => exact I
      end.
  - apply String.eqb_neq in Hpres, Habs.
    rewrite run_invalid by assumption. eexists. reflexivity.
Qed.
End GkeFacts.

Section DnsRuns.
Import GcDns DnsSpec.
Context {St : Type} (conn : Driver St).

Lemma to_dict_unchanged (lv : lc_val) : to_dict lv !! "changed" = None.
Proof. destruct lv as [[z|r]|os]; vm_compute; reflexivity. Qed.

Lemma finalize_changed (command : string) (out : gmap string pyval) :
  finalize command out !! "changed"
  = match out !! "changed" with
    | Some v => Some v
    | None => Some (VBool false)
    end.
Proof.
  unfold finalize. cbv zeta.
  assert (H : <["command" := VStr command]> out !! "changed" = out !! "changed")
    by (apply lookup_insert_ne; discriminate).
  rewrite <- H.
  destruct (<["command" := VStr command]> out !! "changed") eqn:E.
  - rewrite bool_decide_eq_false_2 by discriminate. exact E.
  - rewrite bool_decide_eq_true_2 by reflexivity. apply lookup_insert_eq.
Qed.

Lemma finalize_command (command : string) (out : gmap string pyval) :
  finalize command out !! "command" = Some (VStr command).
Proof.
  unfold finalize. cbv zeta. destruct (bool_decide _).
  - rewrite lookup_insert_ne by discriminate. apply lookup_insert_eq.
  - apply lookup_insert_eq.
Qed.

Lemma finalize_unset (command : string) (out : gmap string pyval) :
  out !! "changed" = None ->
  finalize command out
  = <["changed" := VBool false]> (<["command" := VStr command]> out).
Proof.
  intros H. unfold finalize. cbv zeta.
  rewrite bool_decide_eq_true_2; [reflexivity|].
  rewrite lookup_insert_ne by discriminate. exact H.
Qed.

(** A run, by what its command did; [None] when a name was rejected. *)
Lemma run_cases (p : params) (s : St) :
  (names_pass p
   /\ run conn p s = conclude (p_command p) (dispatch conn p (mkWorld s [] ∅)))
  \/ (~ names_pass p
      /\ exists msg, run conn p s = (Exit1 (failure msg), mkWorld s [] ∅)).
Proof.
  destruct (lacks_trailing_dot (p_record p)) eqn:Hr;
    [|destruct (lacks_trailing_dot (p_dns_name p)) eqn:Hd].
  - right. assert (N : ~ names_pass p) by (intros [? ?]; congruence).
    split; [exact N|]. destruct (run_rejected conn p s N) as (m & H & _); eauto.
  - right. assert (N : ~ names_pass p) by (intros [? ?]; congruence).
    split; [exact N|]. destruct (run_rejected conn p s N) as (m & H & _); eauto.
  - left. assert (N : names_pass p) by (split; assumption).
    split; [exact N | apply run_dispatch; exact N].
Qed.

Lemma dispatch_create (p : params) :
  p_command p = "create" -> dispatch conn p = cmd_create conn p.
Proof. intros H. unfold dispatch. rewrite H. reflexivity. Qed.

Lemma dispatch_delete (p : params) :
  p_command p = "delete" -> dispatch conn p = cmd_delete conn p.
Proof. intros H. unfold dispatch. rewrite H. reflexivity. Qed.

Lemma dispatch_list (p : params) :
  p_command p = "list" -> dispatch conn p = cmd_list conn p.
Proof. intros H. unfold dispatch. rewrite H. reflexivity. Qed.

Lemma dispatch_get (p : params) :
  p_command p = "get" -> dispatch conn p = cmd_get conn p.
Proof. intros H. unfold dispatch. rewrite H. reflexivity. Qed.

Lemma conclude_trace (command : string) (rw : res exn exit unit * world St) :
  w_trace (conclude command rw).2 = w_trace rw.2.
Proof. destruct rw as [[[]|e|[o|k]] w]; reflexivity. Qed.

Lemma conclude_conn (command : string) (rw : res exn exit unit * world St) :
  w_conn (conclude command rw).2 = w_conn rw.2.
Proof. destruct rw as [[[]|e|[o|k]] w]; reflexivity. Qed.

(** The whole run reports [changed] exactly when it mutated the provider. *)
Lemma run_reports (p : params) (s : St) :
  match run conn p s with
  | (Exit0 out, w) =>
      out !! "changed" = Some (VBool (mutated (w_trace w)))
      /\ out !! "command" = Some (VStr (p_command p))
  | (Exit1 k, w) => (exists msg, k = failure msg) /\ mutated (w_trace w) = false
  | (Traceback _, w) => mutated (w_trace w) = false
  end.
Proof.
  destruct (run_cases p s) as [[_ ->]|[_ [msg ->]]].
  - pose proof (dispatch_reports conn p s) as H.
    destruct (dispatch conn p (mkWorld s [] ∅)) as [[[]|e|[o|k]] w];
      unfold changes_reported in H; unfold conclude; cbv beta iota zeta;
      try assumption; try contradiction.
    cbn [w_trace]. rewrite finalize_changed, finalize_command, H.
    destruct (mutated (w_trace w)); split; reflexivity.
  - split; [eexists; reflexivity | reflexivity].
Qed.

Lemma cmd_list_reads p s : mutated (w_trace (cmd_list conn p (mkWorld s [] ∅)).2) = false.
Proof. dns_cases conn; reflexivity. Qed.

Lemma cmd_get_reads p s : mutated (w_trace (cmd_get conn p (mkWorld s [] ∅)).2) = false.
Proof. dns_cases conn; reflexivity. Qed.

Lemma run_reads (p : params) (s : St) :
  p_command p = "list" \/ p_command p = "get" ->
  mutated (w_trace (run conn p s).2) = false.
Proof.
  intros H. destruct (run_cases p s) as [[_ ->]|[_ [msg ->]]]; [|reflexivity].
  rewrite conclude_trace. destruct H as [H|H].
  - rewrite dispatch_list by exact H. apply cmd_list_reads.
  - rewrite dispatch_get by exact H. apply cmd_get_reads.
Qed.

End DnsRuns.

Section Split.

Lemma split_nonempty (sep : ascii) (s : string) : split sep s <> [].
Proof.
  destruct s as [|c s]; simpl; [discriminate|].
  destruct (Ascii.eqb c sep); [discriminate|].
  destruct (split sep s); discriminate.
Qed.

Lemma join_cons (sep : string) (c : ascii) (piece : string) (pieces : list string) :
  join sep (String c piece :: pieces) = String c (join sep (piece :: pieces)).
Proof. destruct pieces; reflexivity. Qed.

(** Joining the pieces with the separator gives the string back. *)
Lemma join_split (sep : ascii) (s : string) :
  join (String sep EmptyString) (split sep s) = s.
Proof.
  induction s as [|c s IH]; [reflexivity|]. simpl.
  destruct (Ascii.eqb_spec c sep) as [->|Hne].
  - pose proof (split_nonempty sep s) as Hn.
    destruct (split sep s) as [|piece pieces]; [congruence|].
    change (join (String sep "") ("" :: piece :: pieces))
      with (String sep (join (String sep "") (piece :: pieces))).
    by rewrite IH.
  - pose proof (split_nonempty sep s) as Hn.
    destruct (split sep s) as [|piece pieces]; [congruence|].
    rewrite join_cons. by rewrite IH.
Qed.

(** No piece contains the separator. *)
Lemma split_lacks (sep : ascii) (s : string) :
  Forall (fun piece => lacks sep piece = true) (split sep s).
Proof.
  induction s as [|c s IH]; simpl; [repeat constructor|].
  destruct (Ascii.eqb c sep) eqn:E.
  - constructor; [reflexivity | exact IH].
  - pose proof (split_nonempty sep s) as Hn.
    destruct (split sep s) as [|piece pieces]; [congruence|].
    inversion IH as [|? ? Hp Hps]; subst. constructor; [|exact Hps].
    simpl. rewrite E. exact Hp.
Qed.

End Split.

Section DnsClaims.
Import GcDns DnsSpec.
Context {St : Type} (conn : Driver St).

Lemma dns_delete_absent (p : params) (s : St) :
  p_command p = "delete" ->
  existsb (raised not_found) (w_trace (run conn p s).2) = true ->
  exists out, (run conn p s).1 = Exit0 out
    /\ out !! "changed" = Some (VBool false)
    /\ out !! "command" = Some (VStr "delete").
Proof.
  intros Hc. destruct (run_cases conn p s) as [[_ ->]|[_ [msg ->]]];
    [|discriminate].
  rewrite conclude_trace, (dispatch_delete conn p Hc). intros H.
  destruct (cmd_delete_tolerates conn p s H) as [Hv Ho].
  destruct (cmd_delete conn p (mkWorld s [] ∅)) as [r w]. simpl in Hv, Ho.
  subst r. eexists. split; [reflexivity|]. rewrite Hc.
  rewrite finalize_changed, finalize_command, Ho. split; reflexivity.
Qed.

Lemma dns_zone_delete_twice (p : params) (s s1 s2 s3 : St) (z : Zone) (e : exn) :
  p_command p = "delete" -> names_pass p ->
  str_truthy (p_name p) = true -> str_truthy (p_record p) = false ->
  conn (get_zone (the (p_name p))) s = (inl z, s1) ->
  conn (delete_zone z) s1 = (inl true, s2) ->
  conn (get_zone (the (p_name p))) s2 = (inr e, s3) ->
  not_found e = true ->
  (exists out, run conn p s = (Exit0 out, mkWorld s2
       [Called (get_zone (the (p_name p))) (Returned (One (OZone z)));
        Called (delete_zone z) (Answered true)] out)
     /\ out !! "changed" = Some (VBool true))
  /\ (exists out, (run conn p s2).1 = Exit0 out
        /\ out !! "changed" = Some (VBool false)).
Proof.
  intros Hc Hn Hname Hrec G D G' Hnf. split.
  - rewrite run_dispatch by exact Hn. rewrite (dispatch_delete conn p Hc).
    dns_unfold. rewrite Hname, Hrec. dns_unfold. rewrite G. dns_unfold.
    rewrite D. dns_unfold. unfold conclude. cbv beta iota zeta. cbn [w_output w_conn w_trace].
    eexists. split; [reflexivity|].
    rewrite finalize_changed. rewrite lookup_insert_eq. reflexivity.
  - enough (H : existsb (raised not_found) (w_trace (run conn p s2).2) = true)
      by (destruct (dns_delete_absent p s2 Hc H) as (out & ? & ? & _); eauto).
    rewrite run_dispatch by exact Hn. rewrite conclude_trace.
    rewrite (dispatch_delete conn p Hc).
    dns_unfold. rewrite Hname, Hrec. dns_unfold. rewrite G'.
    destruct e; dns_unfold; try discriminate Hnf; cbn in Hnf |- *;
      try rewrite Hnf; dns_unfold; cbn; rewrite ?Hnf; reflexivity.
Qed.

Lemma dns_record_delete_twice (p : params) (s s1 s2 s3 : St) (r : Rec) (e : exn) :
  p_command p = "delete" -> names_pass p ->
  str_truthy (p_name p) = true -> str_truthy (p_record p) = true ->
  let rec_name := record_type_or_A p ++ ":" ++ the (p_record p) in
  conn (get_record (the (p_name p)) rec_name) s = (inl r, s1) ->
  conn (delete_record r) s1 = (inl true, s2) ->
  conn (get_record (the (p_name p)) rec_name) s2 = (inr e, s3) ->
  not_found e = true ->
  (exists out, run conn p s = (Exit0 out, mkWorld s2
       [Called (get_record (the (p_name p)) rec_name) (Returned (One (ORecord r)));
        Called (delete_record r) (Answered true)] out)
     /\ out !! "changed" = Some (VBool true))
  /\ (exists out, (run conn p s2).1 = Exit0 out
        /\ out !! "changed" = Some (VBool false)).
Proof.
  intros Hc Hn Hname Hrec rec_name G D G' Hnf. subst rec_name. split.
  - rewrite run_dispatch by exact Hn. rewrite (dispatch_delete conn p Hc).
    dns_unfold. rewrite Hname, Hrec. dns_unfold. rewrite G. dns_unfold.
    rewrite D. dns_unfold. unfold conclude. cbv beta iota zeta.
    cbn [w_output w_conn w_trace].
    eexists. split; [reflexivity|].
    rewrite finalize_changed. rewrite lookup_insert_eq. reflexivity.
  - enough (H : existsb (raised not_found) (w_trace (run conn p s2).2) = true)
      by (destruct (dns_delete_absent p s2 Hc H) as (out & ? & ? & _); eauto).
    rewrite run_dispatch by exact Hn. rewrite conclude_trace.
    rewrite (dispatch_delete conn p Hc).
    dns_unfold. rewrite Hname, Hrec. dns_unfold. rewrite G'.
    destruct e; dns_unfold; try discriminate Hnf; cbn in Hnf |- *;
      try rewrite Hnf; dns_unfold; cbn; rewrite ?Hnf; reflexivity.
Qed.

Lemma dns_create_conflict (p : params) (s : St) :
  p_command p = "create" ->
  existsb (raised conflict) (w_trace (run conn p s).2) = true ->
  forall g lv, last (w_trace (run conn p s).2) = Some (Called g (Returned lv)) ->
  (run conn p s).1
  = Exit0 (<["changed" := VBool false]>
             (<["command" := VStr "create"]> (to_dict lv))).
Proof.
  intros Hc. destruct (run_cases conn p s) as [[_ ->]|[_ [msg ->]]];
    [|discriminate].
  rewrite conclude_trace, (dispatch_create conn p Hc). intros H g lv L.
  destruct (cmd_create_resolves conn p s H g lv L) as [Hv Ho].
  destruct (cmd_create conn p (mkWorld s [] ∅)) as [r w]. simpl in Hv, Ho.
  subst r. unfold conclude. cbv beta iota zeta. cbn [fst]. rewrite Hc, Ho.
  rewrite finalize_unset by apply to_dict_unchanged. reflexivity.
Qed.

Lemma dns_create_fatal (p : params) (s : St) :
  p_command p = "create" ->
  existsb (raised (fun e => negb (conflict e))) (w_trace (run conn p s).2) = true ->
  exit_code (run conn p s).1 <> 0%Z.
Proof.
  intros Hc. destruct (run_cases conn p s) as [[_ ->]|[_ [msg ->]]];
    [|discriminate].
  rewrite conclude_trace, (dispatch_create conn p Hc). intros H.
  pose proof (cmd_create_fatal conn p s H) as F.
  destruct (cmd_create conn p (mkWorld s [] ∅)) as [[[]|e|[o|k]] w];
    simpl in F |- *; try contradiction; discriminate.
Qed.

Lemma dns_create_missing_zone (p : params) (s s1 : St) (vars : string) :
  p_command p = "create" -> names_pass p ->
  str_truthy (p_name p) = true -> str_truthy (p_record p) = true ->
  conn (get_zone (the (p_name p))) s = (inr (ZoneDoesNotExistError vars), s1) ->
  (run conn p s).1 = Exit1 (failure ("Zone '" ++ the (p_name p) ++ "' not found")).
Proof.
  intros Hc Hn Hname Hrec G.
  rewrite run_dispatch by exact Hn. rewrite (dispatch_create conn p Hc).
  dns_unfold. rewrite Hname, Hrec. dns_unfold. rewrite G. dns_unfold.
  destruct (p_name p) as [[|c n]|]; try discriminate. reflexivity.
Qed.

(** A zone create answered with 409 fetches the zone (twice, as the
    handler is written) and returns what the second fetch gave. *)
Lemma dns_zone_conflict_refetched (p : params) (s s1 s2 s3 : St)
    (vars : string) (z1 z2 : Zone) :
  p_command p = "create" -> names_pass p ->
  str_truthy (p_name p) = true -> str_truthy (p_record p) = false ->
  conn (DnsMore.zone_request p) s = (inr (ProviderError 409 vars), s1) ->
  conn (get_zone (the (p_name p))) s1 = (inl z1, s2) ->
  conn (get_zone (the (p_name p))) s2 = (inl z2, s3) ->
  let out := <["changed" := VBool false]>
               (<["command" := VStr "create"]> (to_dict (One (OZone z2)))) in
  run conn p s
  = (Exit0 out,
     mkWorld s3
       [Called (DnsMore.zone_request p) (Raised (ProviderError 409 vars));
        Called (get_zone (the (p_name p))) (Returned (One (OZone z1)));
        Called (get_zone (the (p_name p))) (Returned (One (OZone z2)))]
       out).
Proof.
  intros Hc Hn Hname Hrec C G1 G2 out. subst out.
  rewrite run_dispatch by exact Hn. rewrite (dispatch_create conn p Hc), Hc.
  unfold DnsMore.zone_request, DnsMore.zone_description in *.
  dns_unfold. rewrite Hname, Hrec. dns_unfold. rewrite C. dns_unfold.
  change (409 =? 409)%Z with true. dns_unfold.
  rewrite G1. dns_unfold. rewrite G2. dns_unfold.
  unfold conclude. cbv beta iota zeta. cbn [w_output w_conn w_trace].
  rewrite finalize_unset by apply (to_dict_unchanged (One (OZone z2))).
  reflexivity.
Qed.

(** A record create answered with 409 fetches the record under the key
    made of the defaulted type and the record name, and returns it. *)
Lemma dns_record_conflict_refetched (p : params) (s s1 s2 s3 : St)
    (vars : string) (z : Zone) (r : Rec) :
  p_command p = "create" -> names_pass p ->
  str_truthy (p_name p) = true -> str_truthy (p_record p) = true ->
  conn (get_zone (the (p_name p))) s = (inl z, s1) ->
  conn (DnsMore.record_request p z) s1 = (inr (ProviderError 409 vars), s2) ->
  conn (DnsMore.record_fetch p) s2 = (inl r, s3) ->
  let out := <["changed" := VBool false]>
               (<["command" := VStr "create"]> (to_dict (One (ORecord r)))) in
  run conn p s
  = (Exit0 out,
     mkWorld s3
       [Called (get_zone (the (p_name p))) (Returned (One (OZone z)));
        Called (DnsMore.record_request p z) (Raised (ProviderError 409 vars));
        Called (DnsMore.record_fetch p) (Returned (One (ORecord r)))]
       out).
Proof.
  intros Hc Hn Hname Hrec G C F out. subst out.
  rewrite run_dispatch by exact Hn. rewrite (dispatch_create conn p Hc), Hc.
  unfold DnsMore.record_request, DnsMore.record_fetch in *.
  dns_unfold. rewrite Hname, Hrec. dns_unfold. rewrite G. dns_unfold.
  rewrite C. dns_unfold.
  change (409 =? 409)%Z with true. dns_unfold.
  rewrite F. dns_unfold.
  unfold conclude. cbv beta iota zeta. cbn [w_output w_conn w_trace].
  rewrite finalize_unset by apply (to_dict_unchanged (One (ORecord r))).
  reflexivity.
Qed.

(** Any other exception of the create call of a zone ends the run at
    once, with a non-zero exit. *)
Lemma dns_zone_create_fatal (p : params) (s s1 : St) (e : exn) :
  p_command p = "create" -> names_pass p ->
  str_truthy (p_name p) = true -> str_truthy (p_record p) = false ->
  conn (DnsMore.zone_request p) s = (inr e, s1) ->
  conflict e = false ->
  run conn p s
  = (match e with
     | ProviderError _ _ => Exit1 (failure (unexpected_error_msg e))
     | _ => Traceback (AttributeError "http_code")
     end,
     mkWorld s1 [Called (DnsMore.zone_request p) (Raised e)] ∅).
Proof.
  intros Hc Hn Hname Hrec C Hne.
  rewrite run_dispatch by exact Hn. rewrite (dispatch_create conn p Hc), Hc.
  unfold DnsMore.zone_request, DnsMore.zone_description in *.
  dns_unfold. rewrite Hname, Hrec. dns_unfold. rewrite C. dns_unfold.
  destruct e as [v|v|code v|v|a]; dns_unfold; try reflexivity.
  cbn [conflict] in Hne. rewrite Hne. reflexivity.
Qed.

(** Any other exception of the create call of a record ends the run at
    once, with a non-zero exit. *)
Lemma dns_record_create_fatal (p : params) (s s1 s2 : St) (z : Zone)
    (e : exn) :
  p_command p = "create" -> names_pass p ->
  str_truthy (p_name p) = true -> str_truthy (p_record p) = true ->
  conn (get_zone (the (p_name p))) s = (inl z, s1) ->
  conn (DnsMore.record_request p z) s1 = (inr e, s2) ->
  conflict e = false ->
  run conn p s
  = (match e with
     | ZoneDoesNotExistError _ =>
         Exit1 (failure ("Zone '" ++ the (p_name p) ++ "' not found"))
     | ProviderError _ _ => Exit1 (failure (unexpected_error_msg e))
     | _ => Traceback (AttributeError "http_code")
     end,
     mkWorld s2
       [Called (get_zone (the (p_name p))) (Returned (One (OZone z)));
        Called (DnsMore.record_request p z) (Raised e)] ∅).
Proof.
  intros Hc Hn Hname Hrec G C Hne.
  rewrite run_dispatch by exact Hn. rewrite (dispatch_create conn p Hc), Hc.
  unfold DnsMore.record_request in *.
  dns_unfold. rewrite Hname, Hrec. dns_unfold. rewrite G. dns_unfold.
  rewrite C. dns_unfold.
  destruct e as [v|v|code v|v|a]; dns_unfold; try reflexivity.
  - destruct (p_name p) as [[|c n]|]; try discriminate. reflexivity.
  - cbn [conflict] in Hne. rewrite Hne. reflexivity.
Qed.

End DnsClaims.

(** ** Claims about [gc_dns] *)

Section DnsTheorems.
Import GcDns DnsSpec.
Context {St : Type} (conn : Driver St).

(** C4. A [record] or [dns_name] parameter that is given, non-empty and
    does not end in a dot makes the module fail with [changed=False] and
    one of the two "Must specify a valid ..." messages, whatever the
    command is, before any driver call: the log of calls is empty and the
    provider is in the state it started in. *)
Theorem trailing_dot_checked_before_dispatch (p : params) (s : St) :
  unterminated (p_record p) \/ unterminated (p_dns_name p) ->
  exists msg,
    run conn p s = (Exit1 (failure msg), mkWorld s [] ∅)
    /\ (msg = "Must specify a valid DNS record name"
        \/ msg = "Must specify a valid dns_name").
Proof.
  intros H. apply run_rejected. intros [Hr Hd].
  destruct H as [H|H]; apply lacks_trailing_dot_spec in H; congruence.
Qed.

(** C7. In a [create] run, every [create_record] request carries the
    record name, type ["A"] when [record_type] is unset and the given type
    otherwise, [ttl] 86400 when [ttl] is unset and the given one otherwise,
    and as [rrdatas] the pieces of [value] between its commas, in order
    (joined by commas they give [value] back, and none holds a comma), or
    the empty list when [value] is unset.  When the names pass and the
    zone is fetched, that request is the second driver call. *)
Theorem record_create_submits_defaults (p : params) (s : St) :
  p_command p = "create" ->
  (forall name zone type data r,
     Called (create_record name zone type data) r ∈ w_trace (run conn p s).2 ->
     name = the (p_record p)
     /\ (p_record_type p = None -> type = "A")
     /\ (forall t, p_record_type p = Some t -> t <> "" -> type = t)
     /\ (p_ttl p = VNone -> data !! "ttl" = Some (VInt 86400))
     /\ (truthy (p_ttl p) = true -> data !! "ttl" = Some (p_ttl p))
     /\ (p_value p = None -> data !! "rrdatas" = Some (VList []))
     /\ (forall v, p_value p = Some v -> v <> "" ->
         exists pieces,
           data !! "rrdatas" = Some (VList (VStr <$> pieces))
           /\ join "," pieces = v
           /\ Forall (fun piece => lacks ","%char piece = true) pieces))
  /\ (names_pass p ->
      str_truthy (p_name p) = true -> str_truthy (p_record p) = true ->
      forall z s1, conn (get_zone (the (p_name p))) s = (inl z, s1) ->
      exists r,
        w_trace (run conn p s).2 !! 1%nat
        = Some (Called (create_record (the (p_record p)) z
                          (record_type_or_A p) (record_data p)) r)).
Proof.
  intros Hc. split.
  - intros name zone type data r Hin.
    assert (Hok : request_ok p (Called (create_record name zone type data) r)).
    { destruct (run_cases conn p s) as [[_ E]|[_ [msg E]]]; rewrite E in Hin.
      - rewrite conclude_trace, (dispatch_create conn p Hc) in Hin.
        pose proof (cmd_create_requests conn p s) as F.
        rewrite Forall_forall in F. apply F. exact Hin.
      - apply elem_of_nil in Hin. contradiction. }
    destruct Hok as (-> & -> & ->). split; [reflexivity|].
    unfold record_type_or_A, record_data, record_ttl, record_rrdatas.
    repeat split.
    + intros ->. reflexivity.
    + intros t -> Ht. destruct t; [congruence | reflexivity].
    + intros ->. apply lookup_insert_eq.
    + intros ->. apply lookup_insert_eq.
    + intros ->. rewrite lookup_insert_ne by discriminate. apply lookup_insert_eq.
    + intros v -> Hv. destruct v as [|c v]; [congruence|].
      exists (split ","%char (String c v)). split; [|split].
      * rewrite lookup_insert_ne by discriminate. apply lookup_insert_eq.
      * apply join_split.
      * apply split_lacks.
  - intros Hn Hname Hrec z s1 G.
    rewrite run_dispatch by exact Hn. rewrite conclude_trace.
    rewrite (dispatch_create conn p Hc).
    dns_unfold. rewrite Hname, Hrec. dns_unfold. rewrite G. dns_unfold.
    dns_cases conn; eexists; reflexivity.
Qed.

(** C9. In a [delete] run whose target is fetched, a delete call that
    answers false, without raising, makes the module fail with
    [changed=False] and the "Failed to delete ..." message; and the module
    reports [changed=True] only after a delete call that answered true. *)
Theorem failed_delete_is_fatal (p : params) (s : St) :
  p_command p = "delete" -> names_pass p -> str_truthy (p_name p) = true ->
  (forall r s1 s2,
     str_truthy (p_record p) = true ->
     conn (get_record (the (p_name p))
             (record_type_or_A p ++ ":" ++ the (p_record p))) s = (inl r, s1) ->
     conn (delete_record r) s1 = (inl false, s2) ->
     (run conn p s).1
     = Exit1 (failure ("Failed to delete record " ++ the (p_record p))))
  /\ (forall z s1 s2,
        str_truthy (p_record p) = false ->
        conn (get_zone (the (p_name p))) s = (inl z, s1) ->
        conn (delete_zone z) s1 = (inl false, s2) ->
        (run conn p s).1
        = Exit1 (failure ("Failed to delete zone " ++ the (p_name p))))
  /\ (forall out,
        (run conn p s).1 = Exit0 out ->
        out !! "changed" = Some (VBool true) ->
        exists ev, last (w_trace (run conn p s).2) = Some ev
                   /\ deleted ev = true).
Proof.
  intros Hc Hn Hname. rewrite run_dispatch by exact Hn.
  rewrite (dispatch_delete conn p Hc). repeat split.
  - intros r s1 s2 Hrec G D.
    dns_unfold. rewrite Hname, Hrec. dns_unfold. rewrite G. dns_unfold.
    rewrite D. reflexivity.
  - intros z s1 s2 Hrec G D.
    dns_unfold. rewrite Hname, Hrec. dns_unfold. rewrite G. dns_unfold.
    rewrite D. reflexivity.
  - intros out Ho Hch. rewrite conclude_trace.
    pose proof (cmd_delete_confirms conn p s) as F.
    pose proof (cmd_delete_reports conn p s) as R.
    destruct (cmd_delete conn p (mkWorld s [] ∅)) as [[[]|e|[o|k]] w];
      try discriminate Ho; [|contradiction].
    apply F. simpl in Ho |- *. injection Ho as <-.
    rewrite finalize_changed in Hch.
    destruct (w_output w !! "changed"); [exact Hch | discriminate Hch].
Qed.

End DnsTheorems.

Section ScriptedRuns.
Import Gke GkeSpec ScriptedGke.

Lemma error_not_running (st : string) :
  error_status st = true -> String.eqb st "RUNNING" = false.
Proof.
  unfold error_status. intros H. apply orb_true_iff in H as [H|H];
    apply String.eqb_eq in H; subst; reflexivity.
Qed.

(** The create loop on a script of pending clusters followed by a running
    one: it takes one turn per cluster and returns on the running one. *)
Lemma scripted_present_loop (p : params) (crun : Cluster) (rest : script) :
  status crun = Some "RUNNING" ->
  forall (pend : list Cluster) (fuel : nat) (w : world script),
  w_polling w = true ->
  w_gke w = ((inl <$> pend) ++ inl crun :: rest)%list ->
  Forall pending pend -> length pend < fuel ->
  while OutOfFuel fuel w_polling (poll_present client p) w
  = (Val tt, mkWorld rest (w_trace w ++ flat_map (turn p) (pend ++ [crun]))%list
               (w_changed w) false (Some crun)).
Proof.
  intros Hrun. induction pend as [|c pend IH]; intros fuel w Hp Hs Hall Hf.
  - destruct fuel as [|fuel]; [simpl in Hf; lia|].
    rewrite while_turn by exact Hp. unfold bind.
    rewrite (poll_present_fetched client p w crun rest)
      by (rewrite Hs; reflexivity).
    rewrite Hrun. cbn [error_status String.eqb Ascii.eqb Bool.eqb orb].
    cbv zeta.
    rewrite while_done by reflexivity.
    unfold after_turn. cbn [flat_map app]. by rewrite ?app_nil_r.
  - destruct fuel as [|fuel]; [simpl in Hf; lia|].
    inversion Hall as [|? ? (st & Hst & Hr & He) Hall']; subst.
    rewrite while_turn by exact Hp. unfold bind.
    rewrite (poll_present_fetched client p w c ((inl <$> pend) ++ inl crun :: rest)%list)
      by (rewrite Hs; reflexivity).
    rewrite Hst. cbv zeta. rewrite He, Hr, Hp.
    rewrite (IH fuel); try reflexivity; try assumption; [|simpl in Hf; lia].
    unfold after_turn. cbn [w_trace w_changed].
    by rewrite <- app_assoc.
Qed.

(** The create loop on a script of pending clusters followed by one in an
    error status: it fails on that one and fetches no more. *)
Lemma scripted_present_fails (p : params) (cerr : Cluster) (st m : string)
    (rest : script) :
  status cerr = Some st -> error_status st = true ->
  statusMessage cerr = Some m ->
  forall (pend : list Cluster) (fuel : nat) (w : world script),
  w_polling w = true ->
  w_gke w = ((inl <$> pend) ++ inl cerr :: rest)%list ->
  Forall pending pend -> length pend < fuel ->
  while OutOfFuel fuel w_polling (poll_present client p) w
  = (Halt (FailJson (failure (error_message st m))),
     mkWorld rest (w_trace w ++ flat_map (turn p) (pend ++ [cerr]))%list
       (w_changed w) true (Some cerr)).
Proof.
  intros Hst Herr Hm. induction pend as [|c pend IH]; intros fuel w Hp Hs Hall Hf.
  - destruct fuel as [|fuel]; [simpl in Hf; lia|].
    rewrite while_turn by exact Hp. unfold bind.
    rewrite (poll_present_fetched client p w cerr rest)
      by (rewrite Hs; reflexivity).
    rewrite Hst. cbv zeta. rewrite Herr, Hm, (error_not_running st Herr), Hp.
    unfold after_turn. cbn [flat_map app]. by rewrite ?app_nil_r.
  - destruct fuel as [|fuel]; [simpl in Hf; lia|].
    inversion Hall as [|? ? (st' & Hst' & Hr & He) Hall']; subst.
    rewrite while_turn by exact Hp. unfold bind.
    rewrite (poll_present_fetched client p w c ((inl <$> pend) ++ inl cerr :: rest)%list)
      by (rewrite Hs; reflexivity).
    rewrite Hst'. cbv zeta. rewrite He, Hr, Hp.
    rewrite (IH fuel); try reflexivity; try assumption; [|simpl in Hf; lia].
    unfold after_turn. cbn [w_trace w_changed].
    by rewrite <- app_assoc.
Qed.

(** The delete loop on a script of fetched clusters followed by an
    exception: it takes one turn per answer; on 404 it returns, on any
    other exception it lets the exception through. *)
Lemma scripted_absent_loop (p : params) (e : exn) (rest : script) :
  forall (oks : list Cluster) (fuel : nat) (w : world script),
  w_polling w = true ->
  w_gke w = ((inl <$> oks) ++ inr e :: rest)%list ->
  length oks < fuel ->
  exists re,
    while OutOfFuel fuel w_polling (poll_absent client p) w
    = (if gone e then Val tt else Exc e,
       mkWorld rest (w_trace w ++ flat_map (turn p) oks ++ failed_turn p e)%list
         (w_changed w) (negb (gone e)) re).
Proof.
  induction oks as [|c oks IH]; intros fuel w Hp Hs Hf.
  - destruct fuel as [|fuel]; [simpl in Hf; lia|].
    rewrite while_turn by exact Hp. unfold bind.
    rewrite (poll_absent_raised client p w e rest) by (rewrite Hs; reflexivity).
    destruct (gone e).
    + rewrite while_done by reflexivity. eexists. reflexivity.
    + rewrite Hp. eexists. reflexivity.
  - destruct fuel as [|fuel]; [simpl in Hf; lia|].
    rewrite while_turn by exact Hp. unfold bind.
    rewrite (poll_absent_fetched client p w c ((inl <$> oks) ++ inr e :: rest)%list)
      by (rewrite Hs; reflexivity).
    destruct (IH fuel (after_turn p w ((inl <$> oks) ++ inr e :: rest)%list c (w_polling w)))
      as [re Hloop]; try reflexivity; try assumption; [simpl in Hf; lia|].
    rewrite Hloop. exists re. unfold after_turn. cbn [w_trace w_changed].
    rewrite <- app_assoc. reflexivity.
Qed.

End ScriptedRuns.

Section GkeRuns.
Import Gke GkeSpec.
Context {St : Type} (gke : Client St).

Lemma sleeps_app (a b : list event) : sleeps (a ++ b) = sleeps a + sleeps b.
Proof. unfold sleeps. by rewrite List.filter_app, length_app. Qed.

Lemma sleeps_turns (p : params) (cs : list Cluster) :
  sleeps (flat_map (turn p) cs) = length cs.
Proof.
  induction cs as [|c cs IH]; [reflexivity|].
  cbn [flat_map]. rewrite sleeps_app, IH. reflexivity.
Qed.

(** A create answered 409: one fetch, no polling, whatever [wait_for]. *)
Lemma present_conflict (p : params) (fuel : nat) (s s1 : St) :
  p_state p = "present" ->
  gke (create_of p) s = (inr (HttpError 409), s1) ->
  run gke fuel p s
  = match gke (fetch_of p) s1 with
    | (inl c, s2) =>
        (Some (Exit0 false c),
         mkWorld s2 [Called (create_of p) (Raised (HttpError 409));
                     Called (fetch_of p) (Fetched c)] false false (Some c))
    | (inr e, s2) =>
        (Some (Traceback e),
         mkWorld s2 [Called (create_of p) (Raised (HttpError 409));
                     Called (fetch_of p) (Raised e)] false (p_wait_for p) None)
    end.
Proof.
  intros Hs C. rewrite run_present by exact Hs. unfold present.
  set (loop := while OutOfFuel fuel w_polling (poll_present gke p)).
  unfold create_of, fetch_of in *. gke_unfold. rewrite C. gke_unfold.
  change (409 =? 409)%Z with true. gke_unfold.
  destruct (gke (get _ _ _) s1) as [[c|e] s2]; gke_unfold; [|reflexivity].
  unfold loop. rewrite while_done by reflexivity. reflexivity.
Qed.

(** A create that raised anything else lets the exception through. *)
Lemma present_rejected (p : params) (fuel : nat) (s s1 : St) (e : exn) :
  p_state p = "present" ->
  gke (create_of p) s = (inr e, s1) ->
  e <> HttpError 409 ->
  run gke fuel p s
  = (Some (Traceback e),
     mkWorld s1 [Called (create_of p) (Raised e)] false (p_wait_for p) None).
Proof.
  intros Hs C Hne. rewrite run_present by exact Hs. unfold present.
  set (loop := while OutOfFuel fuel w_polling (poll_present gke p)).
  unfold create_of in *. gke_unfold. rewrite C. gke_unfold.
  destruct e as [st| | |]; gke_unfold; try reflexivity.
  destruct (Z.eqb_spec st 409) as [->|]; [congruence | reflexivity].
Qed.

(** A delete answered 404: success without change and without polling. *)
Lemma absent_gone (p : params) (fuel : nat) (s s1 : St) :
  p_state p = "absent" ->
  gke (delete_of p) s = (inr (HttpError 404), s1) ->
  run gke fuel p s
  = (Some (Exit0 false (not_found p)),
     mkWorld s1 [Called (delete_of p) (Raised (HttpError 404))] false false
       (Some (not_found p))).
Proof.
  intros Hs D. rewrite run_absent by exact Hs. unfold absent.
  set (loop := while OutOfFuel fuel w_polling (poll_absent gke p)).
  unfold delete_of in *. gke_unfold. rewrite D. gke_unfold.
  change (404 =? 404)%Z with true. gke_unfold.
  unfold loop. rewrite while_done by reflexivity. reflexivity.
Qed.

(** A delete that is accepted, on a provider that reports the cluster
    gone at the first fetch. *)
Lemma absent_accepted (p : params) (fuel : nat) (s s1 s2 : St) (op : Operation) :
  p_state p = "absent" -> 1 <= fuel ->
  gke (delete_of p) s = (inl op, s1) ->
  gke (fetch_of p) s1 = (inr (HttpError 404), s2) ->
  (run gke fuel p s).1 = Some (Exit0 true (not_found p))
  /\ w_gke (run gke fuel p s).2 = (if p_wait_for p then s2 else s1)
  /\ sleeps (w_trace (run gke fuel p s).2) = (if p_wait_for p then 1 else 0).
Proof.
  intros Hs Hf D G. rewrite run_absent by exact Hs. unfold absent.
  set (loop := while OutOfFuel fuel w_polling (poll_absent gke p)).
  unfold delete_of in *. gke_unfold. rewrite D. gke_unfold.
  unfold loop. destruct (p_wait_for p) eqn:Hw.
  - destruct fuel as [|fuel]; [lia|].
    rewrite while_turn by reflexivity. unfold bind.
    rewrite (poll_absent_raised gke p _ (HttpError 404) s2) by exact G.
    cbn [gone Z.eqb Pos.eqb]. rewrite while_done by reflexivity.
    repeat split; reflexivity.
  - rewrite while_done by reflexivity. repeat split; reflexivity.
Qed.

(** With [wait_for], a create run that exits with [changed=True] exits on
    a fetch that read [RUNNING]. *)
Lemma present_exit_running (p : params) (fuel : nat) (s : St) (c : Cluster)
    (w : world St) :
  p_state p = "present" -> p_wait_for p = true ->
  run gke fuel p s = (Some (Exit0 true c), w) ->
  status c = Some "RUNNING"
  /\ last (w_trace w) = Some (Called (fetch_of p) (Fetched c)).
Proof.
  intros Hs Hw. rewrite run_present by exact Hs. unfold present.
  set (loop := while OutOfFuel fuel w_polling (poll_present gke p)).
  unfold start. rewrite Hw.
  gke_cases gke; try discriminate.
  - match goal with
    | |- context [loop ?W] =>
        pose proof (while_framed _ (poll_present_framed gke p) fuel W) as F;
        unfold framed in F; fold loop in F; destruct F as (_ & _ & F)
    end.
    destruct (loop _) as [[[]|e|[c' r|k|]] w2] eqn:EL; gke_unfold;
      try discriminate; [|contradiction].
    apply present_loop_returns in EL as (c2 & Hr & Hst & Hl & _);
      [|reflexivity].
    destruct w2 as [s2 tr2 ch2 po2 re2]. cbn [w_resp w_trace] in Hr, Hl.
    subst re2. gke_unfold. intros [= _ <- <-]. split; assumption.
  - unfold loop. rewrite while_done by reflexivity. gke_unfold. discriminate.
  - unfold loop. rewrite while_done by reflexivity. gke_unfold. discriminate.
Qed.

End GkeRuns.

Section ScriptedClaims.
Import Gke GkeSpec ScriptedGke.

Lemma scripted_present_start (p : params) (fuel : nat) (c0 : Cluster)
    (rest : script) :
  p_state p = "present" ->
  run client fuel p (inl c0 :: rest)
  = settle p
      (bind (while OutOfFuel fuel w_polling (poll_present client p))
         (fun _ => exit_json)
         (mkWorld rest [Called (create_of p) (Accepted ∅);
                        Called (fetch_of p) (Fetched c0)]
            true (p_wait_for p) (Some c0))).
Proof.
  intros Hs. rewrite run_present by exact Hs. unfold present.
  set (loop := while OutOfFuel fuel w_polling (poll_present client p)).
  gke_unfold. cbv beta iota delta [client]. gke_unfold. reflexivity.
Qed.

Lemma scripted_absent_start (p : params) (fuel : nat) (s : script) :
  p_state p = "absent" ->
  run client fuel p s
  = settle p
      (bind (while OutOfFuel fuel w_polling (poll_absent client p))
         (fun _ => bind (set_resp (not_found p)) (fun _ => exit_json))
         (mkWorld s [Called (delete_of p) (Accepted ∅)]
            true (p_wait_for p) None)).
Proof.
  intros Hs. rewrite run_absent by exact Hs. unfold absent.
  set (loop := while OutOfFuel fuel w_polling (poll_absent client p)).
  gke_unfold. cbv beta iota delta [client]. gke_unfold. reflexivity.
Qed.

Lemma scripted_create_succeeds (p : params) (fuel : nat) (c0 crun : Cluster)
    (pend : list Cluster) (rest : script) :
  p_state p = "present" -> p_wait_for p = true ->
  Forall pending pend -> status crun = Some "RUNNING" -> length pend < fuel ->
  run client fuel p (inl c0 :: (inl <$> pend) ++ inl crun :: rest)%list
  = (Some (Exit0 true crun),
     mkWorld rest
       ([Called (create_of p) (Accepted ∅); Called (fetch_of p) (Fetched c0)]
        ++ flat_map (turn p) (pend ++ [crun]))%list
       true false (Some crun)).
Proof.
  intros Hs Hw Hall Hrun Hf. rewrite scripted_present_start by exact Hs.
  unfold bind.
  rewrite (scripted_present_loop p crun rest Hrun pend fuel);
    try reflexivity; try assumption.
Qed.

Lemma scripted_create_fails (p : params) (fuel : nat) (c0 cerr : Cluster)
    (st m : string) (pend : list Cluster) (rest : script) :
  p_state p = "present" -> p_wait_for p = true ->
  Forall pending pend -> status cerr = Some st -> error_status st = true ->
  statusMessage cerr = Some m -> length pend < fuel ->
  run client fuel p (inl c0 :: (inl <$> pend) ++ inl cerr :: rest)%list
  = (Some (Exit1 (failure (error_message st m))),
     mkWorld rest
       ([Called (create_of p) (Accepted ∅); Called (fetch_of p) (Fetched c0)]
        ++ flat_map (turn p) (pend ++ [cerr]))%list
       true true (Some cerr)).
Proof.
  intros Hs Hw Hall Hst He Hm Hf. rewrite scripted_present_start by exact Hs.
  unfold bind.
  rewrite (scripted_present_fails p cerr st m rest Hst He Hm pend fuel);
    try reflexivity; try assumption.
Qed.

Lemma scripted_delete_polls (p : params) (fuel : nat) (oks : list Cluster)
    (e : exn) (rest : script) :
  p_state p = "absent" -> p_wait_for p = true -> length oks < fuel ->
  (run client fuel p ((inl <$> oks) ++ inr e :: rest)%list).1
  = Some (if gone e then Exit0 true (not_found p) else Traceback e)
  /\ w_gke (run client fuel p ((inl <$> oks) ++ inr e :: rest)%list).2 = rest
  /\ w_trace (run client fuel p ((inl <$> oks) ++ inr e :: rest)%list).2
     = ([Called (delete_of p) (Accepted ∅)] ++ flat_map (turn p) oks
        ++ failed_turn p e)%list.
Proof.
  intros Hs Hw Hf. rewrite scripted_absent_start by exact Hs. unfold bind.
  match goal with
  | |- context [while OutOfFuel fuel w_polling (poll_absent client p) ?W] =>
      destruct (scripted_absent_loop p e rest oks fuel W) as [re ->];
        try assumption; try reflexivity
  end.
  destruct (gone e); repeat split; reflexivity.
Qed.

End ScriptedClaims.

(** ** Claims about [gke] *)

Section GkeTheorems.
Import Gke GkeSpec ScriptedGke.

(** C5. A create with [wait_for] against the simulated client whose
    successive fetches read Pending, Pending, RUNNING takes exactly two
    sleep-then-fetch turns and exits with [changed=True]; more generally
    the loop takes one turn per pending fetch plus the one that reads
    RUNNING; and, for any client, a create run with [wait_for] that exits
    with [changed=True] has just fetched a cluster in status RUNNING. *)
Theorem create_polls_until_running (p : params) (fuel : nat) :
  p_state p = "present" -> p_wait_for p = true ->
  (2 <= fuel ->
   let r := run client fuel p
              [inl (in_status "Pending"); inl (in_status "Pending");
               inl (in_status "RUNNING")] in
   r.1 = Some (Exit0 true (in_status "RUNNING"))
   /\ sleeps (w_trace r.2) = 2
   /\ w_trace r.2
      = [Called (create_of p) (Accepted ∅);
         Called (fetch_of p) (Fetched (in_status "Pending"));
         Slept (p_wait_poll_interval p);
         Called (fetch_of p) (Fetched (in_status "Pending"));
         Slept (p_wait_poll_interval p);
         Called (fetch_of p) (Fetched (in_status "RUNNING"))])
  /\ (forall (c0 crun : Cluster) (pend : list Cluster) (rest : list (Cluster + exn)),
        Forall pending pend -> status crun = Some "RUNNING" ->
        length pend < fuel ->
        let r := run client fuel p
                   (inl c0 :: (inl <$> pend) ++ inl crun :: rest)%list in
        r.1 = Some (Exit0 true crun)
        /\ w_gke r.2 = rest
        /\ w_trace r.2
           = ([Called (create_of p) (Accepted ∅);
               Called (fetch_of p) (Fetched c0)]
              ++ flat_map (turn p) (pend ++ [crun]))%list
        /\ sleeps (w_trace r.2) = S (length pend))
  /\ (forall (St : Type) (gke : Client St) (s : St) (c : Cluster) (w : world St),
        run gke fuel p s = (Some (Exit0 true c), w) ->
        status c = Some "RUNNING"
        /\ last (w_trace w) = Some (Called (fetch_of p) (Fetched c))).
Proof.
  intros Hs Hw. split; [|split].
  - intros Hf. cbv zeta.
    assert (Hp : Forall pending [in_status "Pending"])
      by (repeat constructor; exists "Pending"; repeat split; reflexivity).
    pose proof (scripted_create_succeeds p fuel (in_status "Pending")
                  (in_status "RUNNING") [in_status "Pending"] []
                  Hs Hw Hp eq_refl) as H.
    cbn [length] in H. specialize (H ltac:(lia)).
    change (run client fuel p
              [inl (in_status "Pending"); inl (in_status "Pending");
               inl (in_status "RUNNING")]
            = (Some (Exit0 true (in_status "RUNNING")),
               mkWorld []
                 [Called (create_of p) (Accepted ∅);
                  Called (fetch_of p) (Fetched (in_status "Pending"));
                  Slept (p_wait_poll_interval p);
                  Called (fetch_of p) (Fetched (in_status "Pending"));
                  Slept (p_wait_poll_interval p);
                  Called (fetch_of p) (Fetched (in_status "RUNNING"))]
                 true false (Some (in_status "RUNNING")))) in H.
    rewrite H. repeat split; reflexivity.
  - intros c0 crun pend rest Hall Hrun Hf. cbv zeta.
    rewrite (scripted_create_succeeds p fuel c0 crun pend rest) by assumption.
    cbn [fst snd w_gke w_trace]. repeat split; try reflexivity.
    rewrite sleeps_app, sleeps_turns, length_app. cbn. lia.
  - intros St gke s c w H. exact (present_exit_running gke p fuel s c w Hs Hw H).
Qed.

(** C6. With [wait_for], against the simulated client: a create whose
    polling fetches a cluster in status ERROR or STATUS_UNSPECIFIED fails
    with the message built from that status and the provider's
    [statusMessage], and fetches nothing more (the rest of the script is
    left unread); a delete polls, one turn per answer, until a fetch
    raises: [HttpError] 404 ends the run with success and [changed=True],
    any other exception is let through and ends the run. *)
Theorem polling_ends_on_error_or_absence (p : params) (fuel : nat) :
  p_wait_for p = true ->
  (forall (c0 cerr : Cluster) (st m : string) (pend : list Cluster)
          (rest : list (Cluster + exn)),
     p_state p = "present" ->
     Forall pending pend -> status cerr = Some st -> error_status st = true ->
     statusMessage cerr = Some m -> length pend < fuel ->
     run client fuel p (inl c0 :: (inl <$> pend) ++ inl cerr :: rest)%list
     = (Some (Exit1 (<["msg" := VStr ("Error [" ++ st ++ "]: '" ++ m ++ "'")]> ∅)),
        mkWorld rest
          ([Called (create_of p) (Accepted ∅); Called (fetch_of p) (Fetched c0)]
           ++ flat_map (turn p) (pend ++ [cerr]))%list
          true true (Some cerr)))
  /\ (forall (oks : list Cluster) (e : exn) (rest : list (Cluster + exn)),
        p_state p = "absent" -> length oks < fuel ->
        let r := run client fuel p ((inl <$> oks) ++ inr e :: rest)%list in
        r.1 = Some (if gone e then Exit0 true (not_found p) else Traceback e)
        /\ w_gke r.2 = rest
        /\ w_trace r.2
           = ([Called (delete_of p) (Accepted ∅)] ++ flat_map (turn p) oks
              ++ failed_turn p e)%list).
Proof.
  intros Hw. split.
  - intros c0 cerr st m pend rest Hs Hall Hst He Hm Hf.
    exact (scripted_create_fails p fuel c0 cerr st m pend rest
             Hs Hw Hall Hst He Hm Hf).
  - intros oks e rest Hs Hf.
    exact (scripted_delete_polls p fuel oks e rest Hs Hw Hf).
Qed.

(** C10. A create that the provider answers with HTTP 409 never sleeps,
    whatever [wait_for] and the fuel; and when the fetch that follows
    returns the existing cluster, the module exits at once with that
    cluster and [changed=False], whatever the cluster's status. *)
Theorem conflict_skips_polling {St : Type} (gke : Client St) (p : params)
    (fuel : nat) (s s1 : St) :
  p_state p = "present" ->
  gke (create_of p) s = (inr (HttpError 409), s1) ->
  sleeps (w_trace (run gke fuel p s).2) = 0
  /\ (forall (c : Cluster) (s2 : St),
        gke (fetch_of p) s1 = (inl c, s2) ->
        run gke fuel p s
        = (Some (Exit0 false c),
           mkWorld s2 [Called (create_of p) (Raised (HttpError 409));
                       Called (fetch_of p) (Fetched c)]
             false false (Some c))).
Proof.
  intros Hs C. rewrite (present_conflict gke p fuel s s1 Hs C). split.
  - destruct (gke (fetch_of p) s1) as [[c|e] s2]; reflexivity.
  - intros c s2 ->. reflexivity.
Qed.

End GkeTheorems.

(** ** Claims about both modules *)

Section BothModules.

Lemma confirmed_mutated (tr : list Gke.event) :
  Gke.confirmed tr = true -> Gke.mutated tr = true.
Proof.
  destruct tr as [|[[] []|] tr]; try discriminate; try reflexivity.
Qed.

(** C1 (as amended). Every [gc_dns] run that hands a result mapping to
    its caller reports in it [changed] true exactly when a create call
    returned or a delete call answered true, and a run that ends in an
    uncaught exception has made no such call; [list] and [get] runs make
    none.  Every [gke] run that exits successfully reports [changed] true
    exactly when the create request and the fetch after it, or the delete
    request, returned without raising (so only after a request the
    provider accepted); the mapping of a failed [gke] run has no [changed]
    member. *)
Theorem changed_reflects_mutation :
  (forall (St : Type) (conn : GcDns.Driver St) (p : GcDns.params) (s : St),
     match GcDns.run conn p s with
     | (GcDns.Exit0 out, w) | (GcDns.Exit1 out, w) =>
         out !! "changed" = Some (VBool (GcDns.mutated (GcDns.w_trace w)))
     | (GcDns.Traceback _, w) => GcDns.mutated (GcDns.w_trace w) = false
     end
     /\ (GcDns.p_command p = "list" \/ GcDns.p_command p = "get" ->
         GcDns.mutated (GcDns.w_trace (GcDns.run conn p s).2) = false))
  /\ (forall (St : Type) (gke : Gke.Client St) (fuel : nat) (p : Gke.params)
             (s : St) (o : Gke.outcome) (w : Gke.world St),
        Gke.run gke fuel p s = (Some o, w) ->
        match o with
        | Gke.Exit0 changed _ =>
            changed = Gke.confirmed (Gke.w_trace w)
            /\ (changed = true -> Gke.mutated (Gke.w_trace w) = true)
        | Gke.Exit1 k => k !! "changed" = None
        | Gke.Traceback _ => True
        end).
Proof.
  split.
  - intros St conn p s. split; [|apply run_reads].
    pose proof (run_reports conn p s) as H.
    destruct (GcDns.run conn p s) as [[out|k|e] w].
    + apply H.
    + destruct H as [[msg ->] ->]. reflexivity.
    + exact H.
  - intros St gke fuel p s o w E.
    pose proof (run_faithful gke fuel p s) as H. rewrite E in H.
    destruct o as [ch c|k|e]; cbn in H.
    + split; [exact H|]. intros ->. apply confirmed_mutated. by symmetry.
    + destruct H as [msg ->]. reflexivity.
    + exact I.
Qed.

(** C8 (as amended). A [gc_dns] run that exits 0 hands over the output
    mapping, with [command] and a boolean [changed]; one that stops in
    [fail_json] exits non-zero with a mapping that holds [msg] and
    [changed=False].  A [gke] run exits 0 only through [exit_json]; one
    that stops in [fail_json], in the polling loop or elsewhere, exits
    non-zero with a mapping that holds [msg] and nothing else. *)
Theorem exits_report_outcome :
  (forall (St : Type) (conn : GcDns.Driver St) (p : GcDns.params) (s : St),
     let o := (GcDns.run conn p s).1 in
     (GcDns.exit_code o = 0%Z ->
      exists out, o = GcDns.Exit0 out
        /\ out !! "command" = Some (VStr (GcDns.p_command p))
        /\ exists b, out !! "changed" = Some (VBool b))
     /\ (forall k, o = GcDns.Exit1 k ->
         GcDns.exit_code o = 1%Z
         /\ exists msg,
              k = <["msg" := VStr msg]> (<["changed" := VBool false]> ∅)))
  /\ (forall (St : Type) (gke : Gke.Client St) (fuel : nat) (p : Gke.params)
             (s : St) (o : Gke.outcome) (w : Gke.world St),
        Gke.run gke fuel p s = (Some o, w) ->
        (Gke.exit_code o = 0%Z -> exists changed resp, o = Gke.Exit0 changed resp)
        /\ (forall k, o = Gke.Exit1 k ->
            Gke.exit_code o = 1%Z
            /\ exists msg, k = <["msg" := VStr msg]> ∅)).
Proof.
  split.
  - intros St conn p s. cbv zeta.
    pose proof (run_reports conn p s) as H.
    destruct (GcDns.run conn p s) as [[out|k|e] w]; cbn [fst]; split.
    + intros _. exists out. destruct H as [Hc Hm]. eauto.
    + intros k [=].
    + intros [=].
    + intros k' [= <-]. split; [reflexivity | apply H].
    + intros [=].
    + intros k [=].
  - intros St gke fuel p s o w E.
    pose proof (run_faithful gke fuel p s) as H. rewrite E in H.
    destruct o as [ch c|k|e]; cbn in H; split.
    + intros _. eauto.
    + intros k [=].
    + intros [=].
    + intros k' [= <-]. split; [reflexivity | exact H].
    + intros [=].
    + intros k [=].
Qed.

End BothModules.

Section Idempotence.

(** C2. A delete whose target the provider reports absent succeeds with
    [changed=False].  For [gc_dns]: whenever a driver call of a [delete]
    run raised a "does not exist" error or an exception with HTTP code
    404, the run exits 0 with [changed=False]; so a second delete, on a
    provider that no longer finds what the first one deleted, reports
    [changed=False] after the first reported [changed=True].  For [gke]:
    a delete request answered 404 exits 0 with [changed=False], without
    polling; and after an accepted delete, which reports [changed=True],
    a second run whose delete request is answered 404 reports
    [changed=False]. *)
Theorem delete_of_absent_is_success :
  (forall (St : Type) (conn : GcDns.Driver St) (p : GcDns.params) (s : St),
     GcDns.p_command p = "delete" ->
     (existsb (DnsSpec.raised DnsSpec.not_found)
        (GcDns.w_trace (GcDns.run conn p s).2) = true ->
      exists out, (GcDns.run conn p s).1 = GcDns.Exit0 out
        /\ out !! "changed" = Some (VBool false))
     /\ (forall (z : GcDns.Zone) (e : GcDns.exn) (s1 s2 s3 : St),
           DnsSpec.names_pass p ->
           str_truthy (GcDns.p_name p) = true ->
           str_truthy (GcDns.p_record p) = false ->
           conn (GcDns.get_zone (the (GcDns.p_name p))) s = (inl z, s1) ->
           conn (GcDns.delete_zone z) s1 = (inl true, s2) ->
           conn (GcDns.get_zone (the (GcDns.p_name p))) s2 = (inr e, s3) ->
           DnsSpec.not_found e = true ->
           (exists out, (GcDns.run conn p s).1 = GcDns.Exit0 out
              /\ out !! "changed" = Some (VBool true))
           /\ GcDns.w_conn (GcDns.run conn p s).2 = s2
           /\ (exists out, (GcDns.run conn p s2).1 = GcDns.Exit0 out
                 /\ out !! "changed" = Some (VBool false)))
     /\ (forall (r : GcDns.Rec) (e : GcDns.exn) (s1 s2 s3 : St),
           DnsSpec.names_pass p ->
           str_truthy (GcDns.p_name p) = true ->
           str_truthy (GcDns.p_record p) = true ->
           let rec_name :=
             GcDns.record_type_or_A p ++ ":" ++ the (GcDns.p_record p) in
           conn (GcDns.get_record (the (GcDns.p_name p)) rec_name) s = (inl r, s1) ->
           conn (GcDns.delete_record r) s1 = (inl true, s2) ->
           conn (GcDns.get_record (the (GcDns.p_name p)) rec_name) s2 = (inr e, s3) ->
           DnsSpec.not_found e = true ->
           (exists out, (GcDns.run conn p s).1 = GcDns.Exit0 out
              /\ out !! "changed" = Some (VBool true))
           /\ GcDns.w_conn (GcDns.run conn p s).2 = s2
           /\ (exists out, (GcDns.run conn p s2).1 = GcDns.Exit0 out
                 /\ out !! "changed" = Some (VBool false))))
  /\ (forall (St : Type) (gke : Gke.Client St) (p : Gke.params) (fuel : nat)
             (s : St),
        Gke.p_state p = "absent" ->
        (forall s1,
           gke (GkeSpec.delete_of p) s = (inr (Gke.HttpError 404), s1) ->
           (Gke.run gke fuel p s).1 = Some (Gke.Exit0 false (Gke.not_found p))
           /\ Gke.sleeps (Gke.w_trace (Gke.run gke fuel p s).2) = 0)
        /\ (forall op s1 s2,
              1 <= fuel ->
              gke (GkeSpec.delete_of p) s = (inl op, s1) ->
              gke (GkeSpec.fetch_of p) s1 = (inr (Gke.HttpError 404), s2) ->
              (Gke.run gke fuel p s).1
              = Some (Gke.Exit0 true (Gke.not_found p))
              /\ (forall s3,
                    gke (GkeSpec.delete_of p) (Gke.w_gke (Gke.run gke fuel p s).2)
                    = (inr (Gke.HttpError 404), s3) ->
                    (Gke.run gke fuel p (Gke.w_gke (Gke.run gke fuel p s).2)).1
                    = Some (Gke.Exit0 false (Gke.not_found p))))).
Proof.
  split.
  - intros St conn p s Hc. split; [|split].
    + intros H. destruct (dns_delete_absent conn p s Hc H) as (out & ? & ? & _).
      eauto.
    + intros z e s1 s2 s3 Hn Hname Hrec G D G' Hnf.
      destruct (dns_zone_delete_twice conn p s s1 s2 s3 z e
                  Hc Hn Hname Hrec G D G' Hnf) as [(out & E & Hch) Hsecond].
      rewrite E. split; [eauto|]. split; [reflexivity | exact Hsecond].
    + intros r e s1 s2 s3 Hn Hname Hrec rec_name G D G' Hnf.
      destruct (dns_record_delete_twice conn p s s1 s2 s3 r e
                  Hc Hn Hname Hrec G D G' Hnf) as [(out & E & Hch) Hsecond].
      rewrite E. split; [eauto|]. split; [reflexivity | exact Hsecond].
  - intros St gke p fuel s Hs. split.
    + intros s1 D. rewrite (absent_gone gke p fuel s s1 Hs D).
      split; reflexivity.
    + intros op s1 s2 Hf D G.
      destruct (absent_accepted gke p fuel s s1 s2 op Hs Hf D G) as (E & _ & _).
      split; [exact E|]. intros s3 D'.
      rewrite (absent_gone gke p fuel _ s3 Hs D'). reflexivity.
Qed.

(** C3. A create that the provider answers with HTTP 409 does not fail:
    the module fetches the existing resource again (for a [gc_dns] zone
    by its name, twice as the handler is written; for a record under the
    key made of the record type, ["A"] when unset, and the record name;
    for [gke] the cluster by its name) and, when that fetch returns,
    exits 0 with the fetched resource as payload (for [gc_dns], its
    [to_dict] plus [command] and [changed]) and [changed=False].  Any
    other exception of the create call ends the run at once, with no
    fetch after it and a non-zero exit: [gc_dns] fails through
    [fail_json], or lets the [AttributeError] of a missing [http_code]
    through, and gives the "Zone ... not found" failure when the zone of
    a record is missing; [gke] lets the exception through. *)
Theorem conflict_on_create_is_unchanged :
  (forall (St : Type) (conn : GcDns.Driver St) (p : GcDns.params) (s : St),
     GcDns.p_command p = "create" ->
     (existsb (DnsSpec.raised DnsSpec.conflict)
        (GcDns.w_trace (GcDns.run conn p s).2) = true ->
      forall g lv,
        last (GcDns.w_trace (GcDns.run conn p s).2)
        = Some (GcDns.Called g (GcDns.Returned lv)) ->
        (GcDns.run conn p s).1
        = GcDns.Exit0 (<["changed" := VBool false]>
                         (<["command" := VStr "create"]> (GcDns.to_dict lv))))
     /\ (existsb (DnsSpec.raised (fun e => negb (DnsSpec.conflict e)))
           (GcDns.w_trace (GcDns.run conn p s).2) = true ->
         GcDns.exit_code (GcDns.run conn p s).1 <> 0%Z)
     /\ (forall vars s1,
           DnsSpec.names_pass p ->
           str_truthy (GcDns.p_name p) = true ->
           str_truthy (GcDns.p_record p) = true ->
           conn (GcDns.get_zone (the (GcDns.p_name p))) s
           = (inr (GcDns.ZoneDoesNotExistError vars), s1) ->
           (GcDns.run conn p s).1
           = GcDns.Exit1
               (<["msg" := VStr ("Zone '" ++ the (GcDns.p_name p) ++ "' not found")]>
                  (<["changed" := VBool false]> ∅)))
     /\ (DnsSpec.names_pass p -> str_truthy (GcDns.p_name p) = true ->
         str_truthy (GcDns.p_record p) = false ->
         (forall vars z1 z2 s1 s2 s3,
            conn (DnsMore.zone_request p) s
            = (inr (GcDns.ProviderError 409 vars), s1) ->
            conn (GcDns.get_zone (the (GcDns.p_name p))) s1 = (inl z1, s2) ->
            conn (GcDns.get_zone (the (GcDns.p_name p))) s2 = (inl z2, s3) ->
            let out := <["changed" := VBool false]>
                         (<["command" := VStr "create"]>
                            (GcDns.to_dict (GcDns.One (GcDns.OZone z2)))) in
            GcDns.run conn p s
            = (GcDns.Exit0 out,
               GcDns.mkWorld s3
                 [GcDns.Called (DnsMore.zone_request p)
                    (GcDns.Raised (GcDns.ProviderError 409 vars));
                  GcDns.Called (GcDns.get_zone (the (GcDns.p_name p)))
                    (GcDns.Returned (GcDns.One (GcDns.OZone z1)));
                  GcDns.Called (GcDns.get_zone (the (GcDns.p_name p)))
                    (GcDns.Returned (GcDns.One (GcDns.OZone z2)))]
                 out))
         /\ (forall e s1,
               conn (DnsMore.zone_request p) s = (inr e, s1) ->
               DnsSpec.conflict e = false ->
               GcDns.run conn p s
               = (match e with
                  | GcDns.ProviderError _ _ =>
                      GcDns.Exit1
                        (DnsSpec.failure (GcDns.unexpected_error_msg e))
                  | _ => GcDns.Traceback (GcDns.AttributeError "http_code")
                  end,
                  GcDns.mkWorld s1
                    [GcDns.Called (DnsMore.zone_request p) (GcDns.Raised e)]
                    ∅)))
     /\ (DnsSpec.names_pass p -> str_truthy (GcDns.p_name p) = true ->
         str_truthy (GcDns.p_record p) = true ->
         forall z s1,
           conn (GcDns.get_zone (the (GcDns.p_name p))) s = (inl z, s1) ->
           (forall vars r s2 s3,
              conn (DnsMore.record_request p z) s1
              = (inr (GcDns.ProviderError 409 vars), s2) ->
              conn (DnsMore.record_fetch p) s2 = (inl r, s3) ->
              let out := <["changed" := VBool false]>
                           (<["command" := VStr "create"]>
                              (GcDns.to_dict (GcDns.One (GcDns.ORecord r)))) in
              GcDns.run conn p s
              = (GcDns.Exit0 out,
                 GcDns.mkWorld s3
                   [GcDns.Called (GcDns.get_zone (the (GcDns.p_name p)))
                      (GcDns.Returned (GcDns.One (GcDns.OZone z)));
                    GcDns.Called (DnsMore.record_request p z)
                      (GcDns.Raised (GcDns.ProviderError 409 vars));
                    GcDns.Called (DnsMore.record_fetch p)
                      (GcDns.Returned (GcDns.One (GcDns.ORecord r)))]
                   out))
           /\ (forall e s2,
                 conn (DnsMore.record_request p z) s1 = (inr e, s2) ->
                 DnsSpec.conflict e = false ->
                 GcDns.run conn p s
                 = (match e with
                    | GcDns.ZoneDoesNotExistError _ =>
                        GcDns.Exit1
                          (DnsSpec.failure
                             ("Zone '" ++ the (GcDns.p_name p) ++ "' not found"))
                    | GcDns.ProviderError _ _ =>
                        GcDns.Exit1
                          (DnsSpec.failure (GcDns.unexpected_error_msg e))
                    | _ => GcDns.Traceback (GcDns.AttributeError "http_code")
                    end,
                    GcDns.mkWorld s2
                      [GcDns.Called (GcDns.get_zone (the (GcDns.p_name p)))
                         (GcDns.Returned (GcDns.One (GcDns.OZone z)));
                       GcDns.Called (DnsMore.record_request p z)
                         (GcDns.Raised e)]
                      ∅))))
  /\ (forall (St : Type) (gke : Gke.Client St) (p : Gke.params) (fuel : nat)
             (s : St),
        Gke.p_state p = "present" ->
        (forall s1 c s2,
           gke (GkeSpec.create_of p) s = (inr (Gke.HttpError 409), s1) ->
           gke (GkeSpec.fetch_of p) s1 = (inl c, s2) ->
           (Gke.run gke fuel p s).1 = Some (Gke.Exit0 false c))
        /\ (forall e s1,
              gke (GkeSpec.create_of p) s = (inr e, s1) ->
              e <> Gke.HttpError 409 ->
              (Gke.run gke fuel p s).1 = Some (Gke.Traceback e))).
Proof.
  split.
  - intros St conn p s Hc. split; [|split; [|split; [|split]]].
    + intros H g lv L. exact (dns_create_conflict conn p s Hc H g lv L).
    + exact (dns_create_fatal conn p s Hc).
    + intros vars s1 Hn Hname Hrec G.
      exact (dns_create_missing_zone conn p s s1 vars Hc Hn Hname Hrec G).
    + intros Hn Hname Hrec. split.
      * intros vars z1 z2 s1 s2 s3 C G1 G2.
        exact (dns_zone_conflict_refetched conn p s s1 s2 s3 vars z1 z2
                 Hc Hn Hname Hrec C G1 G2).
      * intros e s1 C Hne.
        exact (dns_zone_create_fatal conn p s s1 e Hc Hn Hname Hrec C Hne).
    + intros Hn Hname Hrec z s1 G. split.
      * intros vars r s2 s3 C F.
        exact (dns_record_conflict_refetched conn p s s1 s2 s3 vars z r
                 Hc Hn Hname Hrec G C F).
      * intros e s2 C Hne.
        exact (dns_record_create_fatal conn p s s1 s2 z e
                 Hc Hn Hname Hrec G C Hne).
  - intros St gke p fuel s Hs. split.
    + intros s1 c s2 C G. rewrite (present_conflict gke p fuel s s1 Hs C), G.
      reflexivity.
    + intros e s1 C Hne. rewrite (present_rejected gke p fuel s s1 e Hs C Hne).
      reflexivity.
Qed.

End Idempotence.

(** ** The claims at concrete runs *)

Section Witnesses.

(** C4 at a record name without its dot, on a provider that holds the
    zone: the run fails before any call. *)
Lemma trailing_dot_checked_before_dispatch_witness :
  DnsSpec.unterminated (Some "foo.example.com")
  /\ exists msg,
       GcDns.run FakeDns.driver
         (FakeDns.on_record "create" "my-example-zone" "foo.example.com")
         FakeDns.with_zone
       = (GcDns.Exit1 (DnsSpec.failure msg), GcDns.mkWorld FakeDns.with_zone [] ∅)
       /\ (msg = "Must specify a valid DNS record name"
           \/ msg = "Must specify a valid dns_name").
Proof.
  assert (H : DnsSpec.unterminated (Some "foo.example.com")).
  { exists "foo.example.com". split; [reflexivity|].
    split; [discriminate | simpl; discriminate]. }
  split; [exact H|].
  apply (trailing_dot_checked_before_dispatch FakeDns.driver
           (FakeDns.on_record "create" "my-example-zone" "foo.example.com")
           FakeDns.with_zone).
  left. exact H.
Defined.

(** C7 at a record create with only the names given: the request carries
    type A, ttl 86400 and no rrdatas. *)
Lemma record_create_submits_defaults_witness :
  exists r,
    GcDns.w_trace
      (GcDns.run FakeDns.driver
         (FakeDns.on_record "create" "my-example-zone" "foo.example.com.")
         FakeDns.with_zone).2 !! 1%nat
    = Some (GcDns.Called
              (GcDns.create_record "foo.example.com." FakeDns.example_zone "A"
                 (<["ttl" := VInt 86400]> (<["rrdatas" := VList []]> ∅))) r).
Proof.
  destruct (record_create_submits_defaults FakeDns.driver
              (FakeDns.on_record "create" "my-example-zone" "foo.example.com.")
              FakeDns.with_zone eq_refl) as [_ H].
  apply (H (conj eq_refl eq_refl) eq_refl eq_refl
           FakeDns.example_zone FakeDns.with_zone).
  vm_compute. reflexivity.
Defined.

(** C9 at a zone delete on the provider that refuses to delete. *)
Lemma failed_delete_is_fatal_witness :
  (GcDns.run FakeDns.refusing (FakeDns.on_zone "delete" "my-example-zone")
     FakeDns.with_zone).1
  = GcDns.Exit1 (DnsSpec.failure "Failed to delete zone my-example-zone").
Proof.
  destruct (failed_delete_is_fatal FakeDns.refusing
              (FakeDns.on_zone "delete" "my-example-zone") FakeDns.with_zone
              eq_refl (conj eq_refl eq_refl) eq_refl) as (_ & H & _).
  apply (H FakeDns.example_zone FakeDns.with_zone FakeDns.with_zone eq_refl).
  - vm_compute. reflexivity.
  - reflexivity.
Defined.

(** C5 at the example parameters with two turns of fuel. *)
Lemma create_polls_until_running_witness :
  Gke.sleeps
    (Gke.w_trace
       (Gke.run ScriptedGke.client 2 (FakeGke.example "present" true)
          [inl (ScriptedGke.in_status "Pending");
           inl (ScriptedGke.in_status "Pending");
           inl (ScriptedGke.in_status "RUNNING")]).2) = 2.
Proof.
  destruct (create_polls_until_running (FakeGke.example "present" true) 2
              eq_refl eq_refl) as (H & _ & _).
  destruct (H (le_n 2)) as (_ & Hsleeps & _). exact Hsleeps.
Defined.

(** C6 at a create whose first polled status is ERROR, with more answers
    left in the script. *)
Lemma polling_ends_on_error_or_absence_witness :
  Gke.run ScriptedGke.client 1 (FakeGke.example "present" true)
    [inl (ScriptedGke.in_status "PROVISIONING");
     inl (ScriptedGke.failed "ERROR" "quota exceeded");
     inl (ScriptedGke.in_status "RUNNING")]
  = (Some (Gke.Exit1 (<["msg" := VStr "Error [ERROR]: 'quota exceeded'"]> ∅)),
     Gke.mkWorld [inl (ScriptedGke.in_status "RUNNING")]
       ([Gke.Called (GkeSpec.create_of (FakeGke.example "present" true))
           (Gke.Accepted ∅);
         Gke.Called (GkeSpec.fetch_of (FakeGke.example "present" true))
           (Gke.Fetched (ScriptedGke.in_status "PROVISIONING"))]
        ++ flat_map (GkeSpec.turn (FakeGke.example "present" true))
             ([] ++ [ScriptedGke.failed "ERROR" "quota exceeded"]))%list
       true true (Some (ScriptedGke.failed "ERROR" "quota exceeded"))).
Proof.
  destruct (polling_ends_on_error_or_absence (FakeGke.example "present" true) 1
              eq_refl) as [H _].
  apply (H (ScriptedGke.in_status "PROVISIONING")
           (ScriptedGke.failed "ERROR" "quota exceeded") "ERROR"
           "quota exceeded" [] [inl (ScriptedGke.in_status "RUNNING")]);
    try reflexivity.
  - constructor.
  - apply le_n.
Defined.

(** C10 at a create of a cluster the provider holds already, with
    [wait_for] and no fuel at all. *)
Lemma conflict_skips_polling_witness :
  Gke.sleeps
    (Gke.w_trace
       (Gke.run FakeGke.client 0 (FakeGke.example "present" true)
          FakeGke.with_cluster).2) = 0.
Proof.
  refine (proj1 (conflict_skips_polling FakeGke.client
                   (FakeGke.example "present" true) 0
                   FakeGke.with_cluster FakeGke.with_cluster eq_refl _)).
  vm_compute. reflexivity.
Defined.

(** C2 at a zone delete on a provider that holds no zone. *)
Lemma delete_of_absent_is_success_witness :
  exists out,
    (GcDns.run FakeDns.driver (FakeDns.on_zone "delete" "my-example-zone")
       FakeDns.empty).1 = GcDns.Exit0 out
    /\ out !! "changed" = Some (VBool false).
Proof.
  destruct delete_of_absent_is_success as [H _].
  destruct (H _ FakeDns.driver (FakeDns.on_zone "delete" "my-example-zone")
              FakeDns.empty eq_refl) as [Habsent _].
  apply Habsent. vm_compute. reflexivity.
Defined.

(** C3 at a create of a record the provider holds already: the zone is
    fetched, the create is answered with 409, and the record is fetched
    and returned. *)
Lemma conflict_on_create_is_unchanged_witness :
  GcDns.run FakeDns.driver
    (FakeDns.on_record "create" "my-example-zone" "foo.example.com.")
    FakeDns.with_record
  = (GcDns.Exit0
       (<["changed" := VBool false]>
          (<["command" := VStr "create"]>
             (GcDns.to_dict (GcDns.One (GcDns.ORecord FakeDns.example_record))))),
     GcDns.mkWorld FakeDns.with_record
       [GcDns.Called (GcDns.get_zone "my-example-zone")
          (GcDns.Returned (GcDns.One (GcDns.OZone FakeDns.example_zone)));
        GcDns.Called
          (GcDns.create_record "foo.example.com." FakeDns.example_zone "A"
             (<["ttl" := VInt 86400]> (<["rrdatas" := VList []]> ∅)))
          (GcDns.Raised (GcDns.ProviderError 409 "alreadyExists"));
        GcDns.Called (GcDns.get_record "my-example-zone" "A:foo.example.com.")
          (GcDns.Returned (GcDns.One (GcDns.ORecord FakeDns.example_record)))]
       (<["changed" := VBool false]>
          (<["command" := VStr "create"]>
             (GcDns.to_dict (GcDns.One (GcDns.ORecord FakeDns.example_record)))))).
Proof.
  destruct conflict_on_create_is_unchanged as [H _].
  destruct (H _ FakeDns.driver
              (FakeDns.on_record "create" "my-example-zone" "foo.example.com.")
              FakeDns.with_record eq_refl) as (_ & _ & _ & _ & Hrecord).
  destruct (Hrecord (conj eq_refl eq_refl) eq_refl eq_refl
              FakeDns.example_zone FakeDns.with_record)
    as [Hconflict _].
  - vm_compute. reflexivity.
  - apply (Hconflict "alreadyExists" FakeDns.example_record
             FakeDns.with_record FakeDns.with_record).
    + vm_compute. reflexivity.
    + vm_compute. reflexivity.
Defined.

(** C1 (as amended) at an accepted delete. *)
Lemma changed_reflects_mutation_witness :
  true
  = Gke.confirmed
      (Gke.w_trace
         (Gke.run FakeGke.client 1 (FakeGke.example "absent" true)
            FakeGke.with_cluster).2).
Proof.
  destruct changed_reflects_mutation as [_ H].
  refine (proj1 (H _ FakeGke.client 1 (FakeGke.example "absent" true)
                   FakeGke.with_cluster
                   (Gke.Exit0 true (Gke.not_found (FakeGke.example "absent" true)))
                   (Gke.run FakeGke.client 1 (FakeGke.example "absent" true)
                      FakeGke.with_cluster).2 _)).
  vm_compute. reflexivity.
Defined.

(** C8 (as amended) at a run with an unknown state. *)
Lemma exits_report_outcome_witness :
  Gke.exit_code (Gke.Exit1 (<["msg" := VStr "Invalid state: 'stopped'"]> ∅)) = 1%Z
  /\ exists msg,
       <["msg" := VStr "Invalid state: 'stopped'"]> ∅
       = (<["msg" := VStr msg]> ∅ : gmap string pyval).
Proof.
  destruct exits_report_outcome as [_ H].
  refine (proj2 (H _ FakeGke.client 1 (FakeGke.example "stopped" true)
                   FakeGke.with_cluster
                   (Gke.Exit1 (<["msg" := VStr "Invalid state: 'stopped'"]> ∅))
                   (Gke.run FakeGke.client 1 (FakeGke.example "stopped" true)
                      FakeGke.with_cluster).2 _) _ eq_refl).
  vm_compute. reflexivity.
Defined.

(** C1 as stated fails: a create that the provider accepted and that then
    reaches status ERROR ends in a failure mapping without [changed]. *)
Lemma failed_create_reports_no_change :
  ~ GkeSpec.changed_iff_mutated
      (Gke.run ScriptedGke.client 1 (FakeGke.example "present" true)
         [inl (ScriptedGke.in_status "PROVISIONING");
          inl (ScriptedGke.failed "ERROR" "quota exceeded")]).
Proof.
  intros (o & Ho & Hiff).
  assert (E : (Gke.run ScriptedGke.client 1 (FakeGke.example "present" true)
                 [inl (ScriptedGke.in_status "PROVISIONING");
                  inl (ScriptedGke.failed "ERROR" "quota exceeded")]).1
              = Some (Gke.Exit1 (<["msg" := VStr "Error [ERROR]: 'quota exceeded'"]> ∅)))
    by (vm_compute; reflexivity).
  rewrite E in Ho. injection Ho as <-.
  destruct Hiff as [_ Hback].
  assert (Hm : Gke.mutated
                 (Gke.w_trace
                    (Gke.run ScriptedGke.client 1 (FakeGke.example "present" true)
                       [inl (ScriptedGke.in_status "PROVISIONING");
                        inl (ScriptedGke.failed "ERROR" "quota exceeded")]).2)
               = true) by (vm_compute; reflexivity).
  specialize (Hback Hm). vm_compute in Hback. discriminate Hback.
Qed.

(** C8 as stated fails for [gke]: the failure raised in the polling loop
    has no [changed] member, and a provider exception that is raised
    again ends the run with no mapping at all. *)
Lemma gke_failures_lack_changed :
  (exists o,
     (Gke.run ScriptedGke.client 1 (FakeGke.example "present" true)
        [inl (ScriptedGke.in_status "PROVISIONING");
         inl (ScriptedGke.failed "ERROR" "quota exceeded")]).1 = Some o
     /\ ~ GkeSpec.fatal_as_claimed o)
  /\ (exists o,
        (Gke.run (RejectingGke.client 500) 1 (FakeGke.example "present" true)
           tt).1 = Some o
        /\ ~ GkeSpec.fatal_as_claimed o).
Proof.
  split.
  - exists (Gke.Exit1 (<["msg" := VStr "Error [ERROR]: 'quota exceeded'"]> ∅)).
    split; [vm_compute; reflexivity|].
    intros H. destruct (H ltac:(discriminate)) as (k & [= <-] & _ & Hc).
    vm_compute in Hc. discriminate Hc.
  - exists (Gke.Traceback (Gke.HttpError 500)).
    split; [vm_compute; reflexivity|].
    intros H. destruct (H ltac:(discriminate)) as (k & [=] & _).
Qed.

End Witnesses.

(** ** More facts about [gc_dns] *)

Section DnsMoreFacts.
Import GcDns DnsSpec DnsMore.
Context {St : Type} (conn : Driver St).

Lemma finalize_set (command : string) (out : gmap string pyval) (v : pyval) :
  out !! "changed" = Some v ->
  finalize command out = <["command" := VStr command]> out.
Proof.
  intros H. unfold finalize. cbv zeta.
  rewrite bool_decide_eq_false_2; [reflexivity|].
  rewrite lookup_insert_ne by discriminate. rewrite H. discriminate.
Qed.

Lemma cmd_list_reads_only p s : reads_only (cmd_list conn p (mkWorld s [] ∅)).
Proof. unfold reads_only. dns_cases conn; repeat split; reflexivity. Qed.

Lemma cmd_get_reads_only p s : reads_only (cmd_get conn p (mkWorld s [] ∅)).
Proof. unfold reads_only. dns_cases conn; repeat split; reflexivity. Qed.

Ltac use_tests_goal :=
  repeat match goal with
         | B : ?b = _ |- context [?b] => rewrite B
         end.

Ltac escape_leaf :=
  first [ exact I
        | left; reflexivity
        | right; split; [reflexivity|];
          split; [cbn; use_tests_goal; reflexivity | eexists; reflexivity] ].

Lemma cmd_create_escapes p s : escapes true (cmd_create conn p (mkWorld s [] ∅)).
Proof. unfold escapes. dns_cases conn; escape_leaf. Qed.

Lemma cmd_delete_escapes p s : escapes false (cmd_delete conn p (mkWorld s [] ∅)).
Proof. unfold escapes. dns_cases conn; escape_leaf. Qed.

Lemma cmd_list_budget p s :
  within_budget (w_trace (cmd_list conn p (mkWorld s [] ∅)).2) = true.
Proof. dns_cases conn; reflexivity. Qed.

Lemma cmd_get_budget p s :
  within_budget (w_trace (cmd_get conn p (mkWorld s [] ∅)).2) = true.
Proof. dns_cases conn; reflexivity. Qed.

Lemma cmd_create_budget p s :
  within_budget (w_trace (cmd_create conn p (mkWorld s [] ∅)).2) = true.
Proof. dns_cases conn; reflexivity. Qed.

Lemma cmd_delete_budget p s :
  within_budget (w_trace (cmd_delete conn p (mkWorld s [] ∅)).2) = true.
Proof. dns_cases conn; reflexivity. Qed.

Ltac reported_leaf :=
  let H := fresh "H" in
  let T := fresh "T" in
  intros ? ? ? H T; cbn in H;
  first [ discriminate H
        | inversion H; subst; first [reflexivity | congruence] ].

Lemma cmd_list_reported p s : reported None (cmd_list conn p (mkWorld s [] ∅)).
Proof. unfold reported. dns_cases conn; reported_leaf. Qed.

Lemma cmd_get_reported p s : reported None (cmd_get conn p (mkWorld s [] ∅)).
Proof. unfold reported. dns_cases conn; reported_leaf. Qed.

Lemma cmd_create_reported p s :
  reported (Some 409%Z) (cmd_create conn p (mkWorld s [] ∅)).
Proof. unfold reported. dns_cases conn; reported_leaf. Qed.

Lemma cmd_delete_reported p s :
  reported (Some 404%Z) (cmd_delete conn p (mkWorld s [] ∅)).
Proof. unfold reported. dns_cases conn; reported_leaf. Qed.

Lemma dispatch_unknown (p : params) :
  p_command p <> "list" -> p_command p <> "get" ->
  p_command p <> "create" -> p_command p <> "delete" ->
  dispatch conn p
  = fail_json ("Unknown command '" ++ p_command p
               ++ "', must be 'list', 'get', 'create', or 'delete'.") false.
Proof.
  intros H1 H2 H3 H4. unfold dispatch.
  apply String.eqb_neq in H1, H2, H3, H4. rewrite H1, H2, H3, H4. reflexivity.
Qed.

(** A run, by its command. *)
Lemma dispatch_cases (p : params) :
  dispatch conn p = cmd_list conn p /\ p_command p = "list"
  \/ dispatch conn p = cmd_get conn p /\ p_command p = "get"
  \/ dispatch conn p = cmd_create conn p /\ p_command p = "create"
  \/ dispatch conn p = cmd_delete conn p /\ p_command p = "delete"
  \/ (dispatch conn p
      = fail_json ("Unknown command '" ++ p_command p
                   ++ "', must be 'list', 'get', 'create', or 'delete'.") false
      /\ p_command p <> "list" /\ p_command p <> "get"
      /\ p_command p <> "create" /\ p_command p <> "delete").
Proof.
  unfold dispatch.
  destruct (String.eqb_spec (p_command p) "list") as [E|N1]; [left; auto|].
  destruct (String.eqb_spec (p_command p) "get") as [E|N2];
    [right; left; auto|].
  destruct (String.eqb_spec (p_command p) "create") as [E|N3];
    [right; right; left; auto|].
  destruct (String.eqb_spec (p_command p) "delete") as [E|N4];
    [right; right; right; left; auto|].
  right; right; right; right. auto.
Qed.

End DnsMoreFacts.

Section NameSyntax.
Import GcDns DnsSpec.

Lemma last_char_snoc (s : string) (c : ascii) :
  last_char (s ++ String c EmptyString) = Some c.
Proof.
  induction s as [|a s IH]; [reflexivity|].
  change (String a s ++ String c "") with (String a (s ++ String c "")).
  destruct (s ++ String c "") as [|b t] eqn:E; [by destruct s|].
  exact IH.
Qed.

Lemma last_char_inv (s : string) (c : ascii) :
  last_char s = Some c -> exists s', s = s' ++ String c EmptyString.
Proof.
  induction s as [|a s IH]; [discriminate|].
  destruct s as [|b s].
  - simpl. intros [= ->]. exists "". reflexivity.
  - intros H. destruct (IH H) as [s' E]. exists (String a s').
    rewrite E. reflexivity.
Qed.

Lemma count_split (sep : ascii) (s : string) :
  length (split sep s) = S (DnsMore.count_char sep s).
Proof.
  induction s as [|c s IH]; [reflexivity|]. simpl.
  destruct (Ascii.eqb c sep).
  - simpl. by rewrite IH.
  - pose proof (split_nonempty sep s) as Hn.
    destruct (split sep s) as [|piece pieces]; [congruence|].
    simpl in *. exact IH.
Qed.

End NameSyntax.

(** ** Further properties of [gc_dns] *)

Section DnsReading.
Import GcDns DnsSpec DnsMore.
Context {St : Type} (conn : Driver St).

(** X1. The two name checks of [main] run in the order record, dns_name, each
    with its own message and before any driver call; a name passes its
    check exactly when it is unset, empty, or ends in a dot. *)
Theorem record_name_checked_first (p : params) (s : St) :
  (unterminated (p_record p) ->
   run conn p s
   = (Exit1 (failure "Must specify a valid DNS record name"), mkWorld s [] ∅))
  /\ (~ unterminated (p_record p) -> unterminated (p_dns_name p) ->
      run conn p s
      = (Exit1 (failure "Must specify a valid dns_name"), mkWorld s [] ∅))
  /\ (forall o : option string,
        lacks_trailing_dot o = false
        <-> o = None \/ o = Some "" \/ exists s', o = Some (s' ++ ".")).
Proof.
  split; [|split].
  - intros H. apply lacks_trailing_dot_spec in H.
    unfold run, main. rewrite H. reflexivity.
  - intros N H. apply lacks_trailing_dot_spec in H.
    assert (Hr : lacks_trailing_dot (p_record p) = false).
    { destruct (lacks_trailing_dot (p_record p)) eqn:E; [|reflexivity].
      apply lacks_trailing_dot_spec in E. contradiction. }
    unfold run, main. rewrite Hr, H. reflexivity.
  - intros o. unfold lacks_trailing_dot. split.
    + destruct o as [[|c t]|]; [auto|intros H|auto].
      right; right. change (the (Some (String c t))) with (String c t) in H.
      cbn [str_truthy andb] in H.
      apply negb_false_iff, bool_decide_eq_true in H.
      apply (last_char_inv (String c t)) in H. destruct H as [s' E].
      exists s'. by rewrite E.
    + intros [->|[->|[s' ->]]]; [reflexivity|reflexivity|].
      change (the (Some (s' ++ "."))) with (s' ++ ".").
      rewrite (last_char_snoc s' ".").
      rewrite bool_decide_eq_true_2 by reflexivity. apply andb_false_r.
Qed.

(** X2. [get], [create] and [delete] need [name]: with it unset or empty they
    fail with "Missing required 'name'" and [changed=False] before any
    driver call. *)
Theorem name_is_required (p : params) (s : St) :
  names_pass p -> str_truthy (p_name p) = false ->
  p_command p = "get" \/ p_command p = "create" \/ p_command p = "delete" ->
  run conn p s = (Exit1 (failure "Missing required 'name'"), mkWorld s [] ∅).
Proof.
  intros Hn Hname Hc. rewrite run_dispatch by exact Hn.
  unfold dispatch.
  destruct Hc as [Hc|[Hc|Hc]]; rewrite Hc; cbn [String.eqb Ascii.eqb Bool.eqb];
    dns_unfold; rewrite Hname; reflexivity.
Qed.

(** X4. [list] and [get] make read calls only, at most two of them, and let
    no exception through: every failure of theirs is a [fail_json]. *)
Theorem list_and_get_only_read (p : params) (s : St) :
  p_command p = "list" \/ p_command p = "get" ->
  forallb is_read (w_trace (run conn p s).2) = true
  /\ length (w_trace (run conn p s).2) <= 2
  /\ forall e, (run conn p s).1 <> Traceback e.
Proof.
  intros Hc. destruct (run_cases conn p s) as [[_ ->]|[_ [msg ->]]];
    [|repeat split; [cbn; lia | discriminate]].
  rewrite conclude_trace.
  assert (R : reads_only (dispatch conn p (mkWorld s [] ∅))).
  { destruct Hc as [Hc|Hc].
    - rewrite (dispatch_list conn p Hc). apply cmd_list_reads_only.
    - rewrite (dispatch_get conn p Hc). apply cmd_get_reads_only. }
  destruct R as (R1 & R2 & R3).
  split; [exact R1|]. split; [apply Nat.leb_le; exact R2|].
  destruct (dispatch conn p (mkWorld s [] ∅)) as [[[]|e|[o|k]] w];
    simpl in R3 |- *; intros e'; try discriminate; contradiction.
Qed.

(** X5. [list] with a non-empty [name] fetches the zone, then its records, and
    exits 0 with one dictionary per record under [items], in the order the
    driver gave them; without a name (unset or empty) it lists the zones in
    one call; a missing zone gives the "Zone ... not found" failure. *)
Theorem list_outcomes (p : params) (s : St) :
  names_pass p -> p_command p = "list" ->
  let items (os : list lc_obj) : gmap string pyval :=
    <["changed" := VBool false]> (
    <["command" := VStr "list"]> (
    <["items" := VList (VDict ∘ obj_dict <$> os)]> ∅)) in
  (str_truthy (p_name p) = true ->
   (forall z rs s1 s2,
      conn (get_zone (the (p_name p))) s = (inl z, s1) ->
      conn (iterate_records z) s1 = (inl rs, s2) ->
      run conn p s
      = (Exit0 (items (ORecord <$> rs)),
         mkWorld s2
           [Called (get_zone (the (p_name p))) (Returned (One (OZone z)));
            Called (iterate_records z) (Returned (Many (ORecord <$> rs)))]
           (items (ORecord <$> rs))))
   /\ (forall vars s1,
         conn (get_zone (the (p_name p))) s
         = (inr (ZoneDoesNotExistError vars), s1) ->
         (run conn p s).1
         = Exit1 (failure ("Zone '" ++ the (p_name p) ++ "' not found"))))
  /\ (str_truthy (p_name p) = false ->
      forall zs s1,
        conn iterate_zones s = (inl zs, s1) ->
        run conn p s
        = (Exit0 (items (OZone <$> zs)),
           mkWorld s1 [Called iterate_zones (Returned (Many (OZone <$> zs)))]
             (items (OZone <$> zs)))).
Proof.
  intros Hn Hc items. rewrite run_dispatch by exact Hn.
  rewrite (dispatch_list conn p Hc), Hc.
  split; [intros Hname; split|intros Hname].
  - intros z rs s1 s2 G I. dns_unfold. rewrite Hname. dns_unfold.
    rewrite G. dns_unfold. rewrite I. dns_unfold.
    unfold conclude. cbv beta iota zeta. cbn [w_output w_conn w_trace].
    rewrite finalize_unset by apply to_dict_unchanged.
    subst items. cbn [to_dict]. rewrite <- !list_fmap_compose. reflexivity.
  - intros vars s1 G. dns_unfold. rewrite Hname. dns_unfold.
    rewrite G. dns_unfold.
    destruct (p_name p) as [[|c n]|]; try discriminate. reflexivity.
  - intros zs s1 I. dns_unfold. rewrite Hname. dns_unfold.
    rewrite I. dns_unfold.
    unfold conclude. cbv beta iota zeta. cbn [w_output w_conn w_trace].
    rewrite finalize_unset by apply to_dict_unchanged.
    subst items. cbn [to_dict]. rewrite <- !list_fmap_compose. reflexivity.
Qed.

(** X6. [get] of a record asks for the identifier made of the record type
    (["A"] when unset or empty), a colon and the record name, and exits 0
    with the record's dictionary and [changed=False]; a missing record
    gives the "Record ... of type ... not found in zone ..." failure with
    the defaulted type.  [get] of a zone exits 0 with the zone's
    dictionary, and a missing zone gives "Zone ... not found". *)
Theorem get_outcomes (p : params) (s : St) :
  names_pass p -> p_command p = "get" -> str_truthy (p_name p) = true ->
  let found (o : lc_obj) : gmap string pyval :=
    <["changed" := VBool false]> (<["command" := VStr "get"]> (obj_dict o)) in
  (str_truthy (p_record p) = true ->
   (forall r s1,
      conn (record_fetch p) s = (inl r, s1) ->
      run conn p s
      = (Exit0 (found (ORecord r)),
         mkWorld s1 [Called (record_fetch p) (Returned (One (ORecord r)))]
           (found (ORecord r))))
   /\ (forall vars s1,
         conn (record_fetch p) s = (inr (RecordDoesNotExistError vars), s1) ->
         (run conn p s).1
         = Exit1 (failure ("Record '" ++ the (p_record p) ++ "' of type '"
                           ++ record_type_or_A p ++ "' not found in zone '"
                           ++ the (p_name p) ++ "'")))
   /\ (p_record_type p = None \/ p_record_type p = Some "" ->
       record_fetch p
       = get_record (the (p_name p)) ("A:" ++ the (p_record p))))
  /\ (str_truthy (p_record p) = false ->
      (forall z s1,
         conn (get_zone (the (p_name p))) s = (inl z, s1) ->
         run conn p s
         = (Exit0 (found (OZone z)),
            mkWorld s1
              [Called (get_zone (the (p_name p))) (Returned (One (OZone z)))]
              (found (OZone z))))
      /\ (forall vars s1,
            conn (get_zone (the (p_name p))) s
            = (inr (ZoneDoesNotExistError vars), s1) ->
            (run conn p s).1
            = Exit1 (failure ("Zone '" ++ the (p_name p) ++ "' not found")))).
Proof.
  intros Hn Hc Hname found. rewrite run_dispatch by exact Hn.
  rewrite (dispatch_get conn p Hc), Hc.
  split; [intros Hrec; split; [|split]|intros Hrec; split].
  - intros r s1 G. unfold record_fetch, record_type_or_A in G.
    dns_unfold. rewrite Hname, Hrec. dns_unfold.
    rewrite G. dns_unfold.
    unfold conclude. cbv beta iota zeta. cbn [w_output w_conn w_trace].
    rewrite finalize_unset by apply (to_dict_unchanged (One (ORecord r))).
    reflexivity.
  - intros vars s1 G. unfold record_fetch, record_type_or_A in G.
    dns_unfold. rewrite Hname, Hrec. dns_unfold.
    rewrite G. dns_unfold. reflexivity.
  - intros [E|E]; unfold record_fetch, record_type_or_A; rewrite E; reflexivity.
  - intros z s1 G. dns_unfold. rewrite Hname, Hrec. dns_unfold.
    rewrite G. dns_unfold.
    unfold conclude. cbv beta iota zeta. cbn [w_output w_conn w_trace].
    rewrite finalize_unset by apply (to_dict_unchanged (One (OZone z))).
    reflexivity.
  - intros vars s1 G. dns_unfold. rewrite Hname, Hrec. dns_unfold.
    rewrite G. dns_unfold.
    destruct (p_name p) as [[|c n]|]; try discriminate. reflexivity.
Qed.

End DnsReading.

Section DnsWriting.
Import GcDns DnsSpec DnsMore.
Context {St : Type} (conn : Driver St).

(** X7. A zone create makes [create_zone] its first driver call, with no
    fetch before it, passing [dns_name] as it was given (also when
    unset) and [extra] holding the name and the description; the
    description defaults to "Managed zone: " followed by [dns_name], which
    reads "None" when [dns_name] is unset. *)
Theorem zone_create_request (p : params) (s : St) :
  names_pass p -> p_command p = "create" ->
  str_truthy (p_name p) = true -> str_truthy (p_record p) = false ->
  (exists r, w_trace (run conn p s).2 !! 0%nat = Some (Called (zone_request p) r))
  /\ (forall d, p_description p = Some d -> d <> "" -> zone_description p = d)
  /\ (p_description p = None \/ p_description p = Some "" ->
      (forall n, p_dns_name p = Some n ->
                 zone_description p = "Managed zone: " ++ n)
      /\ (p_dns_name p = None -> zone_description p = "Managed zone: None")).
Proof.
  intros Hn Hc Hname Hrec. split; [|split].
  - rewrite run_dispatch by exact Hn. rewrite conclude_trace.
    rewrite (dispatch_create conn p Hc).
    unfold zone_request, zone_description.
    dns_unfold. rewrite Hname, Hrec. dns_unfold.
    repeat dns_step conn; eexists; reflexivity.
  - intros d E Hd. unfold zone_description. rewrite E.
    destruct d; [congruence | reflexivity].
  - intros E. unfold zone_description.
    assert (T : str_truthy (p_description p) = false)
      by (destruct E as [-> | ->]; reflexivity).
    rewrite T. split; [intros n -> | intros ->]; reflexivity.
Qed.

(** X8. A create the provider accepts exits 0 with the dictionary of the
    object the create call returned, [changed=True] and the command; a
    record create has fetched the zone first and passes that zone to
    [create_record]. *)
Theorem create_success_payload (p : params) (s : St) :
  names_pass p -> p_command p = "create" -> str_truthy (p_name p) = true ->
  let created (o : lc_obj) : gmap string pyval :=
    <["command" := VStr "create"]> (<["changed" := VBool true]> (obj_dict o)) in
  (str_truthy (p_record p) = false ->
   forall z s1,
     conn (zone_request p) s = (inl z, s1) ->
     run conn p s
     = (Exit0 (created (OZone z)),
        mkWorld s1 [Called (zone_request p) (Returned (One (OZone z)))]
          (created (OZone z))))
  /\ (str_truthy (p_record p) = true ->
      forall z r s1 s2,
        conn (get_zone (the (p_name p))) s = (inl z, s1) ->
        conn (record_request p z) s1 = (inl r, s2) ->
        run conn p s
        = (Exit0 (created (ORecord r)),
           mkWorld s2
             [Called (get_zone (the (p_name p))) (Returned (One (OZone z)));
              Called (record_request p z) (Returned (One (ORecord r)))]
             (created (ORecord r)))).
Proof.
  intros Hn Hc Hname created. rewrite run_dispatch by exact Hn.
  rewrite (dispatch_create conn p Hc), Hc.
  split; intros Hrec.
  - intros z s1 G. unfold zone_request, zone_description in G.
    dns_unfold. rewrite Hname, Hrec. dns_unfold.
    rewrite G. dns_unfold.
    unfold conclude. cbv beta iota zeta. cbn [w_output w_conn w_trace].
    rewrite (finalize_set _ _ (VBool true)) by apply lookup_insert_eq.
    reflexivity.
  - intros z r s1 s2 G C. unfold record_request in C.
    dns_unfold. rewrite Hname, Hrec. dns_unfold.
    rewrite G. dns_unfold. rewrite C. dns_unfold.
    unfold conclude. cbv beta iota zeta. cbn [w_output w_conn w_trace].
    rewrite (finalize_set _ _ (VBool true)) by apply lookup_insert_eq.
    reflexivity.
Qed.

(** X9. What a delete of an absent target prints.  A missing zone: the name,
    the command and [changed=False], nothing else.  A missing record: the
    record name, the record type (["A"] when it was not given) and the
    zone name besides.  A fetch answered with HTTP 404: the command and
    [changed=False] only.  In each case one driver call was made. *)
Theorem delete_absent_payload (p : params) (s : St) :
  names_pass p -> p_command p = "delete" -> str_truthy (p_name p) = true ->
  let unchanged (out : gmap string pyval) : gmap string pyval :=
    <["changed" := VBool false]> (<["command" := VStr "delete"]> out) in
  (str_truthy (p_record p) = false ->
   forall e s1,
     conn (get_zone (the (p_name p))) s = (inr e, s1) ->
     (forall vars, e = ZoneDoesNotExistError vars ->
        run conn p s
        = (Exit0 (unchanged (<["name" := VStr (the (p_name p))]> ∅)),
           mkWorld s1 [Called (get_zone (the (p_name p))) (Raised e)]
             (unchanged (<["name" := VStr (the (p_name p))]> ∅))))
     /\ (forall vars, e = ProviderError 404 vars ->
           run conn p s
           = (Exit0 (unchanged ∅),
              mkWorld s1 [Called (get_zone (the (p_name p))) (Raised e)]
                (unchanged ∅))))
  /\ (str_truthy (p_record p) = true ->
      forall e s1,
        conn (record_fetch p) s = (inr e, s1) ->
        (forall vars, e = RecordDoesNotExistError vars ->
           (run conn p s).1
           = Exit0 (unchanged (
               <["name" := VStr (the (p_name p))]> (
               <["record_type" := VStr (record_type_or_A p)]> (
               <["record" := VStr (the (p_record p))]> ∅)))))
        /\ (forall vars, e = ZoneDoesNotExistError vars ->
              (run conn p s).1
              = Exit0 (unchanged (<["name" := VStr (the (p_name p))]> ∅)))
        /\ w_trace (run conn p s).2 = [Called (record_fetch p) (Raised e)]).
Proof.
  intros Hn Hc Hname unchanged. rewrite run_dispatch by exact Hn.
  rewrite (dispatch_delete conn p Hc), Hc.
  assert (N : of_opt (p_name p) = VStr (the (p_name p)))
    by (destruct (p_name p) as [[|c n]|]; try discriminate; reflexivity).
  split; intros Hrec.
  - intros e s1 G. split; intros vars ->.
    + dns_unfold. rewrite Hname, Hrec. dns_unfold. rewrite G. dns_unfold.
      rewrite N. unfold conclude. cbv beta iota zeta.
      cbn [w_output w_conn w_trace].
      rewrite finalize_unset by reflexivity. reflexivity.
    + dns_unfold. rewrite Hname, Hrec. dns_unfold. rewrite G. dns_unfold.
      change (404 =? 404)%Z with true. cbv iota.
      unfold conclude. cbv beta iota zeta. cbn [w_output w_conn w_trace].
      rewrite finalize_unset by reflexivity. reflexivity.
  - assert (R : of_opt (p_record p) = VStr (the (p_record p)))
      by (destruct (p_record p) as [[|c n]|]; try discriminate; reflexivity).
    intros e s1 G. unfold record_fetch in G. split; [|split].
    + intros vars ->.
      dns_unfold. rewrite Hname, Hrec. dns_unfold. rewrite G. dns_unfold.
      rewrite N, R. unfold conclude. cbv beta iota zeta.
      cbn [w_output w_conn w_trace fst].
      rewrite finalize_unset by reflexivity. reflexivity.
    + intros vars ->.
      dns_unfold. rewrite Hname, Hrec. dns_unfold. rewrite G. dns_unfold.
      rewrite N. unfold conclude. cbv beta iota zeta.
      cbn [w_output w_conn w_trace fst].
      rewrite finalize_unset by reflexivity. reflexivity.
    + rewrite conclude_trace. unfold record_fetch.
      dns_unfold. rewrite Hname, Hrec. dns_unfold. rewrite G. dns_unfold.
      destruct e as [v|v|code v|v|a]; dns_unfold; try reflexivity.
      destruct (code =? 404)%Z; reflexivity.
Qed.

(** X10. The only exceptions the module lets through come from the handlers of
    [create] and [delete]: the [AttributeError] of reading [http_code] on
    an exception that has none, or, after a conflict on create, whatever
    the fetch made inside the handler raised.  [list] and [get] never let
    one through. *)
Theorem uncaught_exceptions (p : params) (s : St) (e : exn) :
  (run conn p s).1 = Traceback e ->
  (p_command p = "create" \/ p_command p = "delete")
  /\ (e = AttributeError "http_code"
      \/ (p_command p = "create"
          /\ existsb (raised conflict) (w_trace (run conn p s).2) = true
          /\ exists g, last (w_trace (run conn p s).2) = Some (Called g (Raised e)))).
Proof.
  destruct (run_cases conn p s) as [[_ ->]|[_ [msg ->]]]; [|discriminate].
  rewrite conclude_trace.
  destruct (dispatch_cases conn p) as [[-> Hc]|[[-> Hc]|[[-> Hc]|[[-> Hc]|[-> Hc]]]]].
  - pose proof (cmd_list_reads_only conn p s) as (_ & _ & R).
    destruct (cmd_list conn p _) as [[[]|e'|[o|k]] w]; simpl in *;
      try discriminate; contradiction.
  - pose proof (cmd_get_reads_only conn p s) as (_ & _ & R).
    destruct (cmd_get conn p _) as [[[]|e'|[o|k]] w]; simpl in *;
      try discriminate; contradiction.
  - pose proof (cmd_create_escapes conn p s) as R. unfold escapes in R.
    destruct (cmd_create conn p _) as [[[]|e'|[o|k]] w]; simpl in *;
      try discriminate.
    intros [= ->]. split; [left; exact Hc|].
    destruct R as [R|(_ & R1 & R2)]; [left; exact R | right; auto].
  - pose proof (cmd_delete_escapes conn p s) as R. unfold escapes in R.
    destruct (cmd_delete conn p _) as [[[]|e'|[o|k]] w]; simpl in *;
      try discriminate.
    intros [= ->]. split; [right; exact Hc|].
    destruct R as [R|(R0 & _)]; [left; exact R | discriminate].
  - discriminate.
Qed.

(** X11. Every run makes at most three driver calls, at most one of them a
    create or delete, and no call follows one that changed the provider. *)
Theorem calls_within_budget (p : params) (s : St) :
  length (w_trace (run conn p s).2) <= 3
  /\ length (List.filter attempt (w_trace (run conn p s).2)) <= 1
  /\ existsb mutation (removelast (w_trace (run conn p s).2)) = false.
Proof.
  assert (B : within_budget (w_trace (run conn p s).2) = true).
  { destruct (run_cases conn p s) as [[_ ->]|[_ [msg ->]]]; [|reflexivity].
    rewrite conclude_trace.
    destruct (dispatch_cases conn p)
      as [[-> _]|[[-> _]|[[-> _]|[[-> _]|[-> _]]]]].
    - apply cmd_list_budget.
    - apply cmd_get_budget.
    - apply cmd_create_budget.
    - apply cmd_delete_budget.
    - reflexivity. }
  unfold within_budget in B.
  apply andb_true_iff in B as [B B3]. apply andb_true_iff in B as [B1 B2].
  apply Nat.leb_le in B1, B2. apply negb_true_iff in B3. auto.
Qed.

(** X12. [rrdatas] of a record create holds one entry more than [value] has
    commas: empty pieces are kept, so a value that is a lone comma gives
    two empty entries; only an unset or empty value gives none. *)
Theorem rrdatas_count (p : params) :
  (str_truthy (p_value p) = true ->
   length (record_rrdatas p) = S (count_char "," (the (p_value p))))
  /\ (str_truthy (p_value p) = false -> record_rrdatas p = [])
  /\ (p_value p = Some "," -> record_rrdatas p = [""; ""]).
Proof.
  unfold record_rrdatas. split; [|split].
  - intros ->. apply count_split.
  - intros ->. reflexivity.
  - intros ->. reflexivity.
Qed.

End DnsWriting.

Section DnsErrors.
Import GcDns DnsSpec DnsMore.
Context {St : Type} (conn : Driver St).

(** X26. When the first driver call of a run raises an exception that
    has an [http_code], the run fails with [changed=False] and the text
    [unexpected_error_msg] makes of that exception, whatever the code is;
    only 409 on [create] and 404 on [delete] are set apart.  The handlers
    of [get] tell one libcloud error apart each: a record asked of a
    missing zone is reported as an unexpected error, not as a zone that
    was not found. *)
Theorem provider_errors_are_reported (p : params) (s : St) :
  (forall c code vars,
     head (w_trace (run conn p s).2)
     = Some (Called c (Raised (ProviderError code vars))) ->
     (p_command p = "create" -> code <> 409%Z) ->
     (p_command p = "delete" -> code <> 404%Z) ->
     (run conn p s).1
     = Exit1 (failure (unexpected_error_msg (ProviderError code vars))))
  /\ (names_pass p -> p_command p = "get" ->
      str_truthy (p_name p) = true -> str_truthy (p_record p) = true ->
      forall vars s1,
        conn (record_fetch p) s = (inr (ZoneDoesNotExistError vars), s1) ->
        (run conn p s).1
        = Exit1 (failure (unexpected_error_msg (ZoneDoesNotExistError vars)))).
Proof.
  split.
  - intros c code vars H Hcr Hde.
    destruct (run_cases conn p s) as [[_ E]|[_ [msg E]]];
      rewrite E in H |- *; [|discriminate H].
    rewrite conclude_trace in H.
    assert (R : (dispatch conn p (mkWorld s [] ∅)).1
                = Eff.Halt (ExitFail (failure (unexpected_error_msg
                                                 (ProviderError code vars))))).
    { destruct (dispatch_cases conn p)
        as [[D Hc]|[[D Hc]|[[D Hc]|[[D Hc]|[D Hc]]]]]; rewrite D in H |- *.
      - exact (cmd_list_reported conn p s c code vars H I).
      - exact (cmd_get_reported conn p s c code vars H I).
      - apply (cmd_create_reported conn p s c code vars H).
        apply Z.eqb_neq. exact (Hcr Hc).
      - apply (cmd_delete_reported conn p s c code vars H).
        apply Z.eqb_neq. exact (Hde Hc).
      - discriminate H. }
    destruct (dispatch conn p (mkWorld s [] ∅)) as [r w].
    cbn [fst] in R. subst r. reflexivity.
  - intros Hn Hc Hname Hrec vars s1 G.
    rewrite run_dispatch by exact Hn. rewrite (dispatch_get conn p Hc).
    unfold record_fetch, record_type_or_A in G.
    dns_unfold. rewrite Hname, Hrec. dns_unfold. rewrite G. dns_unfold.
    reflexivity.
Qed.

End DnsErrors.

(** ** Facts about [to_dict] *)

Section ToDictFacts.
Import ToDict.

(** [to_dict] on an instance, as the source has it. *)
Lemma to_dict_inst (attrs : gmap string obj) :
  to_dict (OInst attrs)
  = let out := delete "driver" attrs in
    match out !! "zone" with
    | Some z =>
        if obj_truthy z && negb (is_str z) then
          d ← to_dict z; Some (<["zone" := ODict d]> out)
        else Some out
    | None => Some out
    end.
Proof.
  cbn [to_dict]. unfold flatten. cbv zeta.
  rewrite lookup_fmap, lookup_delete_ne by discriminate.
  destruct (attrs !! "zone") as [z|]; [|reflexivity]. cbn [fmap option_fmap option_map].
  destruct (obj_truthy z && negb (is_str z)); [|reflexivity].
  destruct (to_dict z); reflexivity.
Qed.

Lemma to_dict_list (items : list obj) :
  to_dict (OList items)
  = obj_list ← mapM item_dict items;
    Some {[ "items" := OList (ODict <$> obj_list) ]}.
Proof.
  cbn [to_dict].
  replace (mapM item_dict items)
    with (mapM (fun item => match item with
                            | OInst attrs =>
                                flatten attrs ((to_dict <$> attrs) !! "zone")
                            | _ => None
                            end) items); [reflexivity|].
  induction items as [|item items IH]; [reflexivity|].
  cbn [mapM]. rewrite IH. destruct item; reflexivity.
Qed.

Lemma to_dict_no_driver (o : obj) (d : gmap string obj) :
  to_dict o = Some d -> d !! "driver" = None.
Proof.
  destruct o as [| | | |items|d0|attrs]; try discriminate.
  - rewrite to_dict_list. destruct (mapM item_dict items); [|discriminate].
    intros [= <-]. reflexivity.
  - rewrite to_dict_inst. cbv zeta.
    destruct (delete "driver" attrs !! "zone") as [z|] eqn:Z.
    + destruct (obj_truthy z && negb (is_str z)).
      * destruct (to_dict z); [|discriminate]. intros [= <-].
        rewrite lookup_insert_ne by discriminate. apply lookup_delete_eq.
      * intros [= <-]. apply lookup_delete_eq.
    + intros [= <-]. apply lookup_delete_eq.
Qed.

Lemma to_dict_inst_stripped (attrs d : gmap string obj) :
  to_dict (OInst attrs) = Some d -> stripped d.
Proof.
  intros H. split; [exact (to_dict_no_driver _ _ H)|].
  revert H. rewrite to_dict_inst. cbv zeta.
  destruct (delete "driver" attrs !! "zone") as [z|] eqn:Z.
  - destruct (obj_truthy z && negb (is_str z)) eqn:T.
    + destruct (to_dict z) as [zd'|] eqn:TZ; [|discriminate].
      intros [= <-] zd. rewrite lookup_insert_eq. intros [= <-].
      exact (to_dict_no_driver _ _ TZ).
    + intros [= <-] zd. rewrite Z. intros [= ->].
      cbn [obj_truthy is_str negb] in T. rewrite andb_true_r in T.
      apply negb_false_iff, bool_decide_eq_true in T. subst zd. reflexivity.
  - intros [= <-] zd. rewrite Z. discriminate.
Qed.

Lemma item_dict_stripped (item : obj) (d : gmap string obj) :
  item_dict item = Some d -> stripped d.
Proof.
  destruct item; try discriminate. apply to_dict_inst_stripped.
Qed.

End ToDictFacts.

Section ToDictTheorems.
Import ToDict.

(** X13. [to_dict] removes [driver] at every level it builds: from the
    dictionary of an object, from the dictionary it puts under [zone], and
    from each dictionary of a list, which come one per element under
    [items]. *)
Theorem to_dict_strips_driver (o : obj) (d : gmap string obj) :
  to_dict o = Some d ->
  d !! "driver" = None
  /\ (forall attrs, o = OInst attrs -> stripped d)
  /\ (forall items, o = OList items ->
      exists ds, d = {[ "items" := OList (ODict <$> ds) ]}
                 /\ length ds = length items /\ Forall stripped ds).
Proof.
  intros H. split; [exact (to_dict_no_driver _ _ H)|]. split.
  - intros attrs ->. exact (to_dict_inst_stripped _ _ H).
  - intros items ->. rewrite to_dict_list in H.
    destruct (mapM item_dict items) as [ds|] eqn:M; [|discriminate].
    injection H as <-. exists ds. split; [reflexivity|].
    apply mapM_Some in M. split; [symmetry; exact (Forall2_length _ _ _ M)|].
    induction M as [|item e items ds H1 _ IH]; constructor;
      [exact (item_dict_stripped _ _ H1) | exact IH].
Qed.

(** X14. On an object, [to_dict] keeps every attribute but [driver] and [zone]
    as it is.  A [zone] that is false or a string is kept too; any other
    [zone] is replaced by its own [to_dict]; an object without [zone]
    gets none. *)
Theorem to_dict_keeps_attributes (attrs d : gmap string obj) :
  to_dict (OInst attrs) = Some d ->
  (forall k, k <> "driver" -> k <> "zone" -> d !! k = attrs !! k)
  /\ (attrs !! "zone" = None -> d !! "zone" = None)
  /\ (forall z, attrs !! "zone" = Some z ->
      if obj_truthy z && negb (is_str z)
      then exists zd, to_dict z = Some zd /\ d !! "zone" = Some (ODict zd)
      else d !! "zone" = Some z).
Proof.
  rewrite to_dict_inst. cbv zeta.
  rewrite (lookup_delete_ne attrs "driver" "zone") by discriminate.
  destruct (attrs !! "zone") as [z|] eqn:Z.
  - destruct (obj_truthy z && negb (is_str z)) eqn:T.
    + destruct (to_dict z) as [zd|] eqn:TZ; [|discriminate].
      intros [= <-]. split; [|split].
      * intros k Hd Hz. rewrite lookup_insert_ne by congruence.
        apply lookup_delete_ne. congruence.
      * discriminate.
      * intros z' [= <-]. rewrite T. exists zd.
        split; [exact TZ | apply lookup_insert_eq].
    + intros [= <-]. split; [|split].
      * intros k Hd Hz. apply lookup_delete_ne. congruence.
      * discriminate.
      * intros z' [= <-]. rewrite T.
        rewrite lookup_delete_ne by discriminate. exact Z.
  - intros [= <-]. split; [|split].
    + intros k Hd Hz. apply lookup_delete_ne. congruence.
    + intros _. rewrite lookup_delete_ne by discriminate. exact Z.
    + discriminate.
Qed.

(** X15. When [to_dict] raises.  A value that is neither a list nor an
    instance has no [__dict__]; an instance fails exactly when its [zone]
    is true, not a string, and fails itself (a number, [True], a non-empty
    dictionary); a list fails exactly when one of its elements is not an
    instance or fails, so a list of lists fails although a list converts. *)
Theorem to_dict_raises :
  (forall o, to_dict o = None ->
     match o with
     | OInst attrs =>
         exists z, attrs !! "zone" = Some z /\ obj_truthy z = true
                   /\ is_str z = false /\ to_dict z = None
     | OList items => exists item, item ∈ items /\ item_dict item = None
     | _ => True
     end)
  /\ (forall o, match o with
                | OInst _ | OList _ => True
                | _ => to_dict o = None
                end)
  /\ (forall attrs z,
        attrs !! "zone" = Some z -> obj_truthy z = true -> is_str z = false ->
        to_dict z = None -> to_dict (OInst attrs) = None)
  /\ (forall items item,
        item ∈ items -> item_dict item = None -> to_dict (OList items) = None).
Proof.
  split; [|split; [|split]].
  - intros [| | | |items|d0|attrs]; try (intros _; exact I).
    + rewrite to_dict_list.
      destruct (mapM item_dict items) as [ds|] eqn:M; [discriminate|].
      intros _. apply mapM_None, Exists_exists in M. exact M.
    + rewrite to_dict_inst. cbv zeta.
      rewrite (lookup_delete_ne attrs "driver" "zone") by discriminate.
      destruct (attrs !! "zone") as [z|]; [|discriminate].
      destruct (obj_truthy z && negb (is_str z)) eqn:T; [|discriminate].
      destruct (to_dict z) eqn:TZ; [discriminate|]. intros _.
      apply andb_true_iff in T as [T1 T2]. apply negb_true_iff in T2.
      exists z. auto.
  - intros []; try reflexivity; exact I.
  - intros attrs z Z T1 T2 TZ. rewrite to_dict_inst. cbv zeta.
    rewrite (lookup_delete_ne attrs "driver" "zone") by discriminate.
    rewrite Z, T1, T2, TZ. reflexivity.
  - intros items item Hin Hi. rewrite to_dict_list.
    assert (M : mapM item_dict items = None)
      by (apply mapM_None, Exists_exists; exists item; auto).
    rewrite M. reflexivity.
Qed.

(** X16. On a list, [to_dict] gives a dictionary with the single key [items],
    holding the dictionaries of the elements in the order of the list; the
    empty list gives an empty [items]. *)
Theorem to_dict_of_list (items : list obj) (d : gmap string obj) :
  (to_dict (OList items) = Some d
   <-> exists ds, Forall2 (fun item e => item_dict item = Some e) items ds
                  /\ d = {[ "items" := OList (ODict <$> ds) ]})
  /\ to_dict (OList []) = Some {[ "items" := OList [] ]}.
Proof.
  split; [|reflexivity]. rewrite to_dict_list. split.
  - destruct (mapM item_dict items) as [ds|] eqn:M; [|discriminate].
    intros [= <-]. exists ds. split; [apply mapM_Some; exact M | reflexivity].
  - intros (ds & F & ->). apply mapM_Some in F. rewrite F. reflexivity.
Qed.

(** X17. On the zones and records of libcloud, and on lists of them, [to_dict]
    gives the dictionaries the model of [main] works with, whatever the
    [driver] attribute holds. *)
Theorem to_dict_agrees (driver : obj) (lv : GcDns.lc_val) :
  to_dict (value_of driver lv) = Some (as_obj <$> GcDns.to_dict lv).
Proof.
  assert (O : forall o, to_dict (object_of driver o)
                        = Some (as_obj <$> GcDns.obj_dict o)).
  { intros [z|r]; vm_compute; reflexivity. }
  destruct lv as [o|os]; [apply O|].
  cbn [value_of GcDns.to_dict]. rewrite to_dict_list.
  assert (M : mapM item_dict (object_of driver <$> os)
              = Some ((fun o => as_obj <$> GcDns.obj_dict o) <$> os)).
  { apply mapM_Some. apply Forall2_fmap. apply Forall_Forall2_diag.
    apply Forall_forall. intros o _. destruct o as [z|r]; apply (O (_ _)). }
  rewrite M. cbn [mbind option_bind]. f_equal.
  rewrite map_fmap_singleton. cbn [as_obj]. f_equal. f_equal.
  rewrite <- !list_fmap_compose. reflexivity.
Qed.

End ToDictTheorems.

(** ** More facts about [gke] *)

Section GkeMoreFacts.
Import Gke GkeSpec GkeMore.
Context {St : Type} (gke : Client St).

Lemma set_if_lookup_eq (k : string) (v : pyval) (d : gmap string pyval) :
  set_if k v d !! k = if truthy v then Some v else d !! k.
Proof.
  unfold set_if. destruct (truthy v); [apply lookup_insert_eq | reflexivity].
Qed.

Lemma set_if_lookup_ne (k k' : string) (v : pyval) (d : gmap string pyval) :
  k <> k' -> set_if k v d !! k' = d !! k'.
Proof.
  intros H. unfold set_if.
  destruct (truthy v); [apply lookup_insert_ne; exact H | reflexivity].
Qed.

Lemma dom_insert_within (k : string) (v : pyval) (d : gmap string pyval)
    (X : gset string) :
  k ∈ X -> dom d ⊆ X -> dom (<[k := v]> d) ⊆ X.
Proof.
  intros Hk Hd. rewrite dom_insert. apply union_least; [|exact Hd].
  apply singleton_subseteq_l. exact Hk.
Qed.

Lemma dom_set_if_within (k : string) (v : pyval) (d : gmap string pyval)
    (X : gset string) :
  k ∈ X -> dom d ⊆ X -> dom (set_if k v d) ⊆ X.
Proof.
  intros Hk Hd. unfold set_if.
  destruct (truthy v); [apply dom_insert_within|]; assumption.
Qed.

(** While every fetch returns a cluster in a pending status, the create
    loop uses up any fuel, sleeping once per turn. *)
Lemma present_loop_stuck (p : params) :
  (forall s, exists c s', gke (fetch_of p) s = (inl c, s') /\ pending c) ->
  forall fuel w, w_polling w = true ->
  exists w',
    while OutOfFuel fuel w_polling (poll_present gke p) w = (Halt OutOfFuel, w')
    /\ sleeps (w_trace w') = sleeps (w_trace w) + fuel.
Proof.
  intros H. induction fuel as [|fuel IH]; intros w Hp.
  - exists w. cbn [while]. rewrite Hp. split; [reflexivity | lia].
  - rewrite while_turn by exact Hp. unfold bind.
    destruct (H (w_gke w)) as (c & s' & G & st & Hst & Hrun & Herr).
    rewrite (poll_present_fetched gke p w c s' G), Hst. cbv zeta.
    rewrite Hrun, Herr.
    destruct (IH (after_turn p w s' c (w_polling w)) Hp) as (w' & -> & Hs).
    exists w'. split; [reflexivity|]. rewrite Hs.
    cbn [after_turn w_trace]. rewrite sleeps_app. cbn. lia.
Qed.

(** While every fetch returns, the delete loop uses up any fuel. *)
Lemma absent_loop_stuck (p : params) :
  (forall s, exists c s', gke (fetch_of p) s = (inl c, s')) ->
  forall fuel w, w_polling w = true ->
  exists w',
    while OutOfFuel fuel w_polling (poll_absent gke p) w = (Halt OutOfFuel, w')
    /\ sleeps (w_trace w') = sleeps (w_trace w) + fuel.
Proof.
  intros H. induction fuel as [|fuel IH]; intros w Hp.
  - exists w. cbn [while]. rewrite Hp. split; [reflexivity | lia].
  - rewrite while_turn by exact Hp. unfold bind.
    destruct (H (w_gke w)) as (c & s' & G).
    rewrite (poll_absent_fetched gke p w c s' G).
    destruct (IH (after_turn p w s' c (w_polling w)) Hp) as (w' & -> & Hs).
    exists w'. split; [reflexivity|]. rewrite Hs.
    cbn [after_turn w_trace]. rewrite sleeps_app. cbn. lia.
Qed.

Lemma absent_loop_ends (p : params) (fuel : nat) : forall w,
  absent_loop_post (while OutOfFuel fuel w_polling (poll_absent gke p) w).
Proof.
  unfold absent_loop_post.
  induction fuel as [|fuel IH]; intros w; cbn [while];
    destruct (w_polling w) eqn:Hp; try exact I.
  unfold bind.
  destruct (gke (fetch_of p) (w_gke w)) as [[c|e] s'] eqn:G.
  - rewrite (poll_absent_fetched gke p w c s' G). apply IH.
  - rewrite (poll_absent_raised gke p w e s' G).
    destruct (gone e) eqn:Hg; [apply IH | exact Hg].
Qed.

End GkeMoreFacts.

(** ** Further properties of [gke] *)

Section GkeBody.
Import Gke GkeSpec GkeMore.
Context {St : Type} (gke : Client St).

(** X18. The request body holds one member, [cluster].  In it [name],
    [initialNodeCount], [nodeConfig] and [masterAuth] are always set, from
    the parameters as they are (also when one is [None]); [description],
    [loggingService], [monitoringService], [network], [clusterIpv4Cidr] and
    [zone] are set exactly when their parameter is true, as is [metadata]
    in [nodeConfig]; and there is no other member. *)
Theorem cluster_body_members (p : params) :
  exists cluster nodeConfig : gmap string pyval,
    _make_cluster_body p = VDict {[ "cluster" := VDict cluster ]}
    /\ cluster !! "name" = Some (VStr (p_name p))
    /\ cluster !! "initialNodeCount" = Some (p_node_count p)
    /\ cluster !! "nodeConfig" = Some (VDict nodeConfig)
    /\ cluster !! "masterAuth"
       = Some (VDict (<["username" := p_username p]> (
                      <["password" := p_password p]> ∅)))
    /\ Forall (fun kv => cluster !! kv.1
                         = if truthy kv.2 then Some kv.2 else None)
         (optional_members p)
    /\ dom cluster
       ⊆ {[ "name"; "initialNodeCount"; "nodeConfig"; "masterAuth" ]}
         ∪ list_to_set (fst <$> optional_members p)
    /\ nodeConfig !! "machineType" = Some (p_node_config_machine_type p)
    /\ nodeConfig !! "diskSizeGb" = Some (p_node_config_disksize p)
    /\ nodeConfig !! "oauthScopes" = Some (p_node_config_scopes p)
    /\ nodeConfig !! "metadata"
       = (if truthy (p_node_config_metadata p)
          then Some (p_node_config_metadata p) else None)
    /\ dom nodeConfig
       ⊆ {[ "machineType"; "diskSizeGb"; "oauthScopes"; "metadata" ]}.
Proof.
  unfold _make_cluster_body. cbv zeta. eexists. eexists.
  split; [reflexivity|].
  repeat match goal with |- _ /\ _ => split end;
    try (repeat first
           [ rewrite lookup_insert_eq
           | rewrite set_if_lookup_eq
           | rewrite lookup_insert_ne by discriminate
           | rewrite set_if_lookup_ne by discriminate ];
         reflexivity).
  - unfold optional_members. repeat constructor; cbn [fst snd];
      repeat first
        [ rewrite lookup_insert_eq
        | rewrite set_if_lookup_eq
        | rewrite lookup_insert_ne by discriminate
        | rewrite set_if_lookup_ne by discriminate ];
      reflexivity.
  - unfold optional_members. cbn [fmap list_fmap fst list_to_set].
    repeat (first [apply dom_insert_within | apply dom_set_if_within];
            [set_solver|]).
    set_solver.
  - repeat (first [apply dom_insert_within | apply dom_set_if_within];
            [set_solver|]).
    set_solver.
Qed.

End GkeBody.

Section GkeRequests.
Import Gke GkeSpec GkeMore.
Context {St : Type} (gke : Client St).

(** X19. The module does not look before it acts: whatever the provider holds,
    the first request of [state=present] is the create with the body made
    from the parameters, and the first request of [state=absent] is the
    delete. *)
Theorem first_request_unconditional (p : params) (fuel : nat) (s : St) :
  (p_state p = "present" ->
   exists r, w_trace (run gke fuel p s).2 !! 0%nat
             = Some (Called (create_of p) r))
  /\ (p_state p = "absent" ->
      exists r, w_trace (run gke fuel p s).2 !! 0%nat
                = Some (Called (delete_of p) r)).
Proof.
  split; intros Hs.
  - rewrite run_present by exact Hs. unfold present.
    set (loop := while OutOfFuel fuel w_polling (poll_present gke p)).
    gke_cases gke;
      try (eexists; reflexivity);
      match goal with
      | |- context [loop ?W] =>
          pose proof (while_framed _ (poll_present_framed gke p) fuel W) as F;
          unfold framed in F; fold loop in F; destruct F as (_ & [more F] & _)
      end;
      destruct (loop _) as [[[]|e|[c' r|k|]] [s2 tr2 ch2 po2 re2]];
      cbn [snd w_trace] in F; subst tr2; gke_unfold;
      try destruct re2; gke_unfold; eexists; reflexivity.
  - rewrite run_absent by exact Hs. unfold absent.
    set (loop := while OutOfFuel fuel w_polling (poll_absent gke p)).
    gke_cases gke;
      try (eexists; reflexivity);
      match goal with
      | |- context [loop ?W] =>
          pose proof (while_framed _ (poll_absent_framed gke p) fuel W) as F;
          unfold framed in F; fold loop in F; destruct F as (_ & [more F] & _)
      end;
      destruct (loop _) as [[[]|e|[c' r|k|]] [s2 tr2 ch2 po2 re2]];
      cbn [snd w_trace] in F; subst tr2; gke_unfold;
      try destruct re2; gke_unfold; eexists; reflexivity.
Qed.

(** X20. With [wait_for] false the module never sleeps and never fetches in a
    loop: the run ends after at most three requests, and is the same for
    every bound on the number of loop turns. *)
Theorem no_wait_never_polls (p : params) (fuel : nat) (s : St) :
  p_wait_for p = false ->
  run gke fuel p s = run gke 0 p s
  /\ (run gke fuel p s).1 <> None
  /\ sleeps (w_trace (run gke fuel p s).2) = 0
  /\ length (w_trace (run gke fuel p s).2) <= 3.
Proof.
  intros Hw.
  assert (E : run gke fuel p s = run gke 0 p s
              /\ (run gke 0 p s).1 <> None
              /\ sleeps (w_trace (run gke 0 p s).2) = 0
              /\ length (w_trace (run gke 0 p s).2) <= 3).
  { destruct (String.eqb_spec (p_state p) "present") as [Hs|Hs].
    - rewrite !run_present by exact Hs. unfold present, start. rewrite Hw.
      set (loop := while OutOfFuel fuel w_polling (poll_present gke p)).
      set (loop0 := while OutOfFuel 0 w_polling (poll_present gke p)).
      gke_cases gke; unfold loop, loop0;
        rewrite ?while_done by reflexivity; gke_unfold;
        (split; [reflexivity|]); (split; [discriminate|]);
        (split; [reflexivity | cbn; lia]).
    - destruct (String.eqb_spec (p_state p) "absent") as [Ha|Ha].
      + rewrite !run_absent by exact Ha. unfold absent, start. rewrite Hw.
        set (loop := while OutOfFuel fuel w_polling (poll_absent gke p)).
        set (loop0 := while OutOfFuel 0 w_polling (poll_absent gke p)).
        gke_cases gke; unfold loop, loop0;
          rewrite ?while_done by reflexivity; gke_unfold;
          (split; [reflexivity|]); (split; [discriminate|]);
          (split; [reflexivity | cbn; lia]).
      + rewrite !run_invalid by assumption.
        split; [reflexivity|]. split; [discriminate|].
        split; [reflexivity | cbn; lia]. }
  destruct E as (E & E1 & E2 & E3). rewrite E. auto.
Qed.

(** X21. Polling has no bound of its own.  While every fetch reports a status
    that is neither RUNNING nor an error, a create that waits is still
    polling after any number of turns; while every fetch returns at all,
    whatever it reports, so is a delete that waits. *)
Theorem polling_has_no_bound (p : params) (fuel : nat) (s s1 : St)
    (op : gmap string pyval) :
  p_wait_for p = true ->
  (p_state p = "present" ->
   (forall s', exists c s'', gke (fetch_of p) s' = (inl c, s'') /\ pending c) ->
   gke (create_of p) s = (inl op, s1) ->
   (run gke fuel p s).1 = None
   /\ sleeps (w_trace (run gke fuel p s).2) = fuel)
  /\ (p_state p = "absent" ->
      (forall s', exists c s'', gke (fetch_of p) s' = (inl c, s'')) ->
      gke (delete_of p) s = (inl op, s1) ->
      (run gke fuel p s).1 = None
      /\ sleeps (w_trace (run gke fuel p s).2) = fuel).
Proof.
  intros Hw. split; intros Hs H C.
  - rewrite run_present by exact Hs. unfold present, start. rewrite Hw.
    set (loop := while OutOfFuel fuel w_polling (poll_present gke p)).
    destruct (H s1) as (c & s2 & G & _).
    unfold create_of in C. unfold fetch_of in G.
    gke_unfold. rewrite C. gke_unfold. rewrite G. gke_unfold.
    match goal with
    | |- context [loop ?W] =>
        destruct (present_loop_stuck gke p H fuel W eq_refl) as (w' & L & Hsl)
    end.
    destruct w' as [s' tr' ch' po' re']. cbn [w_trace] in Hsl.
    unfold loop. rewrite L. gke_unfold. split; [reflexivity|].
    rewrite Hsl. reflexivity.
  - rewrite run_absent by exact Hs. unfold absent, start. rewrite Hw.
    set (loop := while OutOfFuel fuel w_polling (poll_absent gke p)).
    unfold delete_of in C.
    gke_unfold. rewrite C. gke_unfold.
    match goal with
    | |- context [loop ?W] =>
        destruct (absent_loop_stuck gke p H fuel W eq_refl) as (w' & L & Hsl)
    end.
    destruct w' as [s' tr' ch' po' re']. cbn [w_trace] in Hsl.
    unfold loop. rewrite L. gke_unfold. split; [reflexivity|].
    rewrite Hsl. reflexivity.
Qed.

End GkeRequests.

Section GkeFailures.
Import Gke GkeSpec GkeMore.
Context {St : Type} (gke : Client St).

(** X22. Once the create is accepted, an exception of a fetch is handled in
    one case only.  The fetch that follows the create, raising HTTP 409,
    is taken for a conflict: the cluster is fetched again and reported
    with [changed=False], without polling.  Any other exception of that
    fetch, and every exception of a fetch in the polling loop (a 404
    included), goes through uncaught; the loop is entered whatever the
    first fetch reported. *)
Theorem fetch_errors_during_create (p : params) (fuel : nat) (s s1 : St)
    (op : gmap string pyval) :
  p_state p = "present" ->
  gke (create_of p) s = (inl op, s1) ->
  (forall e s2,
     gke (fetch_of p) s1 = (inr e, s2) -> e <> HttpError 409 ->
     run gke fuel p s
     = (Some (Traceback e),
        mkWorld s2 [Called (create_of p) (Accepted op);
                    Called (fetch_of p) (Raised e)]
          false (p_wait_for p) None))
  /\ (forall s2 c s3,
        gke (fetch_of p) s1 = (inr (HttpError 409), s2) ->
        gke (fetch_of p) s2 = (inl c, s3) ->
        run gke fuel p s
        = (Some (Exit0 false c),
           mkWorld s3 [Called (create_of p) (Accepted op);
                       Called (fetch_of p) (Raised (HttpError 409));
                       Called (fetch_of p) (Fetched c)]
             false false (Some c)))
  /\ (forall c0 s2 e s3,
        p_wait_for p = true -> 1 <= fuel ->
        gke (fetch_of p) s1 = (inl c0, s2) ->
        gke (fetch_of p) s2 = (inr e, s3) ->
        run gke fuel p s
        = (Some (Traceback e),
           mkWorld s3 ([Called (create_of p) (Accepted op);
                        Called (fetch_of p) (Fetched c0)]
                       ++ failed_turn p e)%list
             true true (Some c0))).
Proof.
  intros Hs C. rewrite run_present by exact Hs. unfold present.
  set (loop := while OutOfFuel fuel w_polling (poll_present gke p)).
  unfold create_of in C. split; [|split].
  - intros e s2 G Hne. unfold fetch_of in G.
    gke_unfold. rewrite C. gke_unfold. rewrite G. gke_unfold.
    destruct e as [st| | |]; gke_unfold; try reflexivity.
    destruct (Z.eqb_spec st 409) as [->|]; [congruence | reflexivity].
  - intros s2 c s3 G1 G2. unfold fetch_of in G1, G2.
    gke_unfold. rewrite C. gke_unfold. rewrite G1. gke_unfold.
    change (409 =? 409)%Z with true. gke_unfold. rewrite G2. gke_unfold.
    unfold loop. rewrite while_done by reflexivity. reflexivity.
  - intros c0 s2 e s3 Hw Hf G1 G2. unfold fetch_of in G1.
    gke_unfold. rewrite C. gke_unfold. rewrite G1. gke_unfold.
    rewrite Hw. unfold loop. destruct fuel as [|fuel']; [lia|].
    rewrite while_turn by reflexivity. unfold bind.
    rewrite (poll_present_raised gke p _ e s3) by exact G2.
    reflexivity.
Qed.

(** X23. The polling loop of a create reads [status], and [statusMessage] on
    an error status, without checking that they are there: a fetched
    cluster without [status], or with an error status and no
    [statusMessage], ends the run with an uncaught [KeyError] instead of
    the failure message. *)
Theorem missing_status_members (p : params) (fuel : nat) (s s1 s2 s3 : St)
    (op : gmap string pyval) (c0 c : Cluster) :
  p_state p = "present" -> p_wait_for p = true -> 1 <= fuel ->
  gke (create_of p) s = (inl op, s1) ->
  gke (fetch_of p) s1 = (inl c0, s2) ->
  gke (fetch_of p) s2 = (inl c, s3) ->
  (status c = None ->
   (run gke fuel p s).1 = Some (Traceback (KeyError "status")))
  /\ (forall st, status c = Some st -> error_status st = true ->
      statusMessage c = None ->
      (run gke fuel p s).1 = Some (Traceback (KeyError "statusMessage"))).
Proof.
  intros Hs Hw Hf C G1 G2. rewrite run_present by exact Hs. unfold present.
  set (loop := while OutOfFuel fuel w_polling (poll_present gke p)).
  unfold create_of in C. unfold fetch_of in G1.
  gke_unfold. rewrite C. gke_unfold. rewrite G1. gke_unfold.
  rewrite Hw. unfold loop. destruct fuel as [|fuel']; [lia|].
  rewrite while_turn by reflexivity. unfold bind.
  rewrite (poll_present_fetched gke p _ c s3) by exact G2.
  split.
  - intros ->. reflexivity.
  - intros st -> -> ->. reflexivity.
Qed.

(** X24. A run with [state=absent] never fails through [fail_json]: it exits
    successfully, always with the same literal mapping (name, zone and
    the status text of the source) whatever the fetches returned, or it
    lets an exception through, which is never an HTTP 404. *)
Theorem absent_never_fails (p : params) (fuel : nat) (s : St) (o : outcome) :
  p_state p = "absent" ->
  (run gke fuel p s).1 = Some o ->
  (exists changed, o = Exit0 changed (not_found p))
  \/ (exists e, o = Traceback e /\ gone e = false).
Proof.
  intros Hs. rewrite run_absent by exact Hs. unfold absent.
  set (loop := while OutOfFuel fuel w_polling (poll_absent gke p)).
  gke_cases gke;
    try match goal with
        | |- context [loop ?W] =>
            pose proof (absent_loop_ends gke p fuel W) as F;
            unfold absent_loop_post in F; fold loop in F;
            destruct (loop W) as [[[]|e|[c' r|k|]] [s2 tr2 ch2 po2 re2]];
            cbn [fst] in F; gke_unfold
        end;
    try contradiction; try discriminate;
    intros [= <-];
    first [ left; eexists; reflexivity
          | right; eexists; split; [reflexivity|];
            first [exact F | cbn; assumption | reflexivity] ].
Qed.

(** X25. With [wait_for] false an accepted create is reported with
    [changed=True] and the cluster as the one fetch after it returned it,
    whatever its status, an error status included; an accepted delete is
    reported after that single request, without any fetch. *)
Theorem requests_without_wait (p : params) (fuel : nat) (s s1 : St)
    (op : gmap string pyval) :
  p_wait_for p = false ->
  (p_state p = "present" ->
   gke (create_of p) s = (inl op, s1) ->
   forall c s2,
     gke (fetch_of p) s1 = (inl c, s2) ->
     run gke fuel p s
     = (Some (Exit0 true c),
        mkWorld s2 [Called (create_of p) (Accepted op);
                    Called (fetch_of p) (Fetched c)]
          true false (Some c)))
  /\ (p_state p = "absent" ->
      gke (delete_of p) s = (inl op, s1) ->
      run gke fuel p s
      = (Some (Exit0 true (not_found p)),
         mkWorld s1 [Called (delete_of p) (Accepted op)]
           true false (Some (not_found p)))).
Proof.
  intros Hw. split; intros Hs C.
  - intros c s2 G. rewrite run_present by exact Hs. unfold present.
    set (loop := while OutOfFuel fuel w_polling (poll_present gke p)).
    unfold create_of in C. unfold fetch_of in G.
    gke_unfold. rewrite C. gke_unfold. rewrite G. gke_unfold. rewrite Hw.
    unfold loop. rewrite while_done by reflexivity. reflexivity.
  - rewrite run_absent by exact Hs. unfold absent.
    set (loop := while OutOfFuel fuel w_polling (poll_absent gke p)).
    unfold delete_of in C.
    gke_unfold. rewrite C. gke_unfold. rewrite Hw.
    unfold loop. rewrite while_done by reflexivity. reflexivity.
Qed.

End GkeFailures.

Section UnknownAction.

(** X3. A [command] of [gc_dns] other than its four, and a [state] of [gke]
    other than its two, end the run with a failure that names the value,
    before any request; the comparison is exact, so a value in another
    case is unknown. *)
Theorem unknown_action_is_rejected :
  (forall (St : Type) (conn : GcDns.Driver St) (p : GcDns.params) (s : St),
     DnsSpec.names_pass p ->
     GcDns.p_command p <> "list" -> GcDns.p_command p <> "get" ->
     GcDns.p_command p <> "create" -> GcDns.p_command p <> "delete" ->
     GcDns.run conn p s
     = (GcDns.Exit1
          (<["msg" := VStr ("Unknown command '" ++ GcDns.p_command p
                            ++ "', must be 'list', 'get', 'create', or 'delete'.")]>
             (<["changed" := VBool false]> ∅)),
        GcDns.mkWorld s [] ∅))
  /\ (forall (St : Type) (gke : Gke.Client St) (fuel : nat) (p : Gke.params)
             (s : St),
        Gke.p_state p <> "present" -> Gke.p_state p <> "absent" ->
        Gke.run gke fuel p s
        = (Some (Gke.Exit1
                   (<["msg" := VStr ("Invalid state: '" ++ Gke.p_state p ++ "'")]> ∅)),
           Gke.mkWorld s [] false (Gke.p_wait_for p) None)).
Proof.
  split.
  - intros St conn p s Hn H1 H2 H3 H4. rewrite run_dispatch by exact Hn.
    rewrite dispatch_unknown by assumption. reflexivity.
  - intros St gke fuel p s H1 H2. apply run_invalid; assumption.
Qed.

End UnknownAction.

(** ** The further properties at concrete inputs *)

Section MoreWitnesses.

(** A record create whose record name lacks its dot fails with the
    message of the record check. *)
Lemma record_name_checked_first_witness :
  GcDns.run FakeDns.driver
    (FakeDns.on_record "create" "my-example-zone" "foo.example.com")
    FakeDns.with_zone
  = (GcDns.Exit1 (DnsSpec.failure "Must specify a valid DNS record name"),
     GcDns.mkWorld FakeDns.with_zone [] ∅).
Proof.
  apply (proj1 (record_name_checked_first FakeDns.driver
                  (FakeDns.on_record "create" "my-example-zone" "foo.example.com")
                  FakeDns.with_zone)).
  exists "foo.example.com". split; [reflexivity|].
  split; [discriminate | simpl; discriminate].
Defined.

(** A delete without a name. *)
Lemma name_is_required_witness :
  GcDns.run FakeDns.driver
    (GcDns.mkParams "delete" None None None None VNone None None)
    FakeDns.with_zone
  = (GcDns.Exit1 (DnsSpec.failure "Missing required 'name'"),
     GcDns.mkWorld FakeDns.with_zone [] ∅).
Proof.
  apply (name_is_required FakeDns.driver
           (GcDns.mkParams "delete" None None None None VNone None None)
           FakeDns.with_zone).
  - split; reflexivity.
  - reflexivity.
  - right; right; reflexivity.
Defined.

(** Listing the records of the example zone. *)
Lemma list_and_get_only_read_witness :
  forallb DnsMore.is_read
    (GcDns.w_trace
       (GcDns.run FakeDns.driver (FakeDns.on_zone "list" "my-example-zone")
          FakeDns.with_record).2) = true.
Proof.
  apply (list_and_get_only_read FakeDns.driver
           (FakeDns.on_zone "list" "my-example-zone") FakeDns.with_record).
  left. reflexivity.
Defined.

Lemma list_outcomes_witness :
  (GcDns.run FakeDns.driver (FakeDns.on_zone "list" "my-example-zone")
     FakeDns.with_record).1
  = GcDns.Exit0
      (<["changed" := VBool false]> (
       <["command" := VStr "list"]> (
       <["items" := VList [VDict (GcDns.obj_dict
                                    (GcDns.ORecord FakeDns.example_record))]]> ∅))).
Proof.
  destruct (list_outcomes FakeDns.driver
              (FakeDns.on_zone "list" "my-example-zone") FakeDns.with_record
              (conj eq_refl eq_refl) eq_refl) as [H _].
  destruct (H eq_refl) as [H1 _].
  rewrite (H1 FakeDns.example_zone [FakeDns.example_record]
              FakeDns.with_record FakeDns.with_record).
  - reflexivity.
  - vm_compute. reflexivity.
  - vm_compute. reflexivity.
Defined.

Lemma get_outcomes_witness :
  (GcDns.run FakeDns.driver
     (FakeDns.on_record "get" "my-example-zone" "foo.example.com.")
     FakeDns.with_record).1
  = GcDns.Exit0
      (<["changed" := VBool false]> (
       <["command" := VStr "get"]> (
       GcDns.obj_dict (GcDns.ORecord FakeDns.example_record)))).
Proof.
  destruct (get_outcomes FakeDns.driver
              (FakeDns.on_record "get" "my-example-zone" "foo.example.com.")
              FakeDns.with_record (conj eq_refl eq_refl) eq_refl eq_refl)
    as [H _].
  destruct (H eq_refl) as [H1 _].
  rewrite (H1 FakeDns.example_record FakeDns.with_record).
  - reflexivity.
  - vm_compute. reflexivity.
Defined.

(** A zone create with neither description nor dns_name. *)
Lemma zone_create_request_witness :
  DnsMore.zone_description (FakeDns.on_zone "create" "my-example-zone")
  = "Managed zone: None".
Proof.
  destruct (zone_create_request FakeDns.driver
              (FakeDns.on_zone "create" "my-example-zone") FakeDns.empty
              (conj eq_refl eq_refl) eq_refl eq_refl eq_refl) as (_ & _ & H).
  destruct (H (or_introl eq_refl)) as [_ H']. apply H'. reflexivity.
Defined.

Lemma create_success_payload_witness :
  exists z,
    (GcDns.run FakeDns.driver (FakeDns.on_zone "create" "my-example-zone")
       FakeDns.empty).1
    = GcDns.Exit0
        (<["command" := VStr "create"]> (
         <["changed" := VBool true]> (GcDns.obj_dict (GcDns.OZone z)))).
Proof.
  destruct (create_success_payload FakeDns.driver
              (FakeDns.on_zone "create" "my-example-zone") FakeDns.empty
              (conj eq_refl eq_refl) eq_refl eq_refl) as [H _].
  eexists. rewrite (H eq_refl _ _ eq_refl). reflexivity.
Defined.

(** Deleting a zone the provider does not hold. *)
Lemma delete_absent_payload_witness :
  (GcDns.run FakeDns.driver (FakeDns.on_zone "delete" "my-example-zone")
     FakeDns.empty).1
  = GcDns.Exit0
      (<["changed" := VBool false]> (
       <["command" := VStr "delete"]> (
       <["name" := VStr "my-example-zone"]> ∅))).
Proof.
  destruct (delete_absent_payload FakeDns.driver
              (FakeDns.on_zone "delete" "my-example-zone") FakeDns.empty
              (conj eq_refl eq_refl) eq_refl eq_refl) as [H _].
  destruct (H eq_refl (GcDns.ZoneDoesNotExistError "my-example-zone")
              FakeDns.empty eq_refl) as [H1 _].
  rewrite (H1 "my-example-zone" eq_refl). reflexivity.
Defined.

(** A delete on a provider that cannot be reached: the exception has no
    [http_code]. *)
Lemma uncaught_exceptions_witness :
  (GcDns.run (DownDns.driver (GcDns.PlainError "connection refused"))
     (FakeDns.on_zone "delete" "my-example-zone") tt).1
  = GcDns.Traceback (GcDns.AttributeError "http_code")
  /\ (GcDns.p_command (FakeDns.on_zone "delete" "my-example-zone") = "create"
      \/ GcDns.p_command (FakeDns.on_zone "delete" "my-example-zone") = "delete").
Proof.
  assert (H : (GcDns.run
                 (DownDns.driver (GcDns.PlainError "connection refused"))
                 (FakeDns.on_zone "delete" "my-example-zone") tt).1
              = GcDns.Traceback (GcDns.AttributeError "http_code"))
    by (vm_compute; reflexivity).
  split; [exact H|].
  exact (proj1 (uncaught_exceptions
                  (DownDns.driver (GcDns.PlainError "connection refused"))
                  (FakeDns.on_zone "delete" "my-example-zone") tt
                  (GcDns.AttributeError "http_code") H)).
Defined.

(** Listing on a provider that answers with a server error. *)
Lemma provider_errors_are_reported_witness :
  (GcDns.run (DownDns.driver (GcDns.ProviderError 503 "backendError"))
     (FakeDns.on_zone "list" "my-example-zone") tt).1
  = GcDns.Exit1 (DnsSpec.failure "Unexpected error: backendError").
Proof.
  apply (proj1 (provider_errors_are_reported
                  (DownDns.driver (GcDns.ProviderError 503 "backendError"))
                  (FakeDns.on_zone "list" "my-example-zone") tt)
           (GcDns.get_zone "my-example-zone") 503%Z "backendError").
  - vm_compute. reflexivity.
  - discriminate.
  - discriminate.
Defined.

(** A value with an empty piece in the middle. *)
Lemma rrdatas_count_witness :
  length (GcDns.record_rrdatas
            (GcDns.mkParams "create" None None (Some "z") (Some "r.") VNone
               None (Some "a,,b"))) = 3.
Proof.
  apply (proj1 (rrdatas_count
                  (GcDns.mkParams "create" None None (Some "z") (Some "r.")
                     VNone None (Some "a,,b")))).
  reflexivity.
Defined.

(** The example record, with its zone and some driver. *)
Lemma to_dict_strips_driver_witness :
  ToDict.stripped
    (ToDict.as_obj <$> GcDns.obj_dict (GcDns.ORecord FakeDns.example_record)).
Proof.
  destruct (to_dict_strips_driver
              (ToDict.record_object (ToDict.OStr "driver") FakeDns.example_record)
              (ToDict.as_obj
                 <$> GcDns.obj_dict (GcDns.ORecord FakeDns.example_record)))
    as (_ & H & _).
  - vm_compute. reflexivity.
  - exact (H _ eq_refl).
Defined.

Lemma to_dict_keeps_attributes_witness :
  (ToDict.as_obj <$> GcDns.obj_dict (GcDns.ORecord FakeDns.example_record))
    !! "name" = Some (ToDict.OStr "foo.example.com.").
Proof.
  destruct (to_dict_keeps_attributes
              (<["name" := ToDict.OStr "foo.example.com."]> (
               <["driver" := ToDict.OStr "driver"]> (
               <["zone" := ToDict.zone_object (ToDict.OStr "driver")
                             FakeDns.example_zone]> ∅)))
              (<["name" := ToDict.OStr "foo.example.com."]> (
               <["zone" := ToDict.ODict
                             (ToDict.as_obj
                                <$> GcDns.zone_dict FakeDns.example_zone)]> ∅)))
    as (H & _).
  - vm_compute. reflexivity.
  - vm_compute. reflexivity.
Defined.

(** An object whose zone is a number. *)
Lemma to_dict_raises_witness :
  ToDict.to_dict (ToDict.OInst (<["zone" := ToDict.OInt 5]> ∅)) = None.
Proof.
  destruct to_dict_raises as (_ & _ & H & _).
  apply (H (<["zone" := ToDict.OInt 5]> ∅) (ToDict.OInt 5));
    reflexivity.
Defined.

Lemma to_dict_of_list_witness :
  exists ds,
    Forall2 (fun item e => ToDict.item_dict item = Some e)
      [ToDict.zone_object (ToDict.OStr "driver") FakeDns.example_zone] ds
    /\ ToDict.as_obj <$> GcDns.to_dict (GcDns.Many [GcDns.OZone FakeDns.example_zone])
       = {[ "items" := ToDict.OList (ToDict.ODict <$> ds) ]}.
Proof.
  apply (proj1 (proj1 (to_dict_of_list
                         [ToDict.zone_object (ToDict.OStr "driver")
                            FakeDns.example_zone]
                         (ToDict.as_obj
                            <$> GcDns.to_dict
                                  (GcDns.Many [GcDns.OZone FakeDns.example_zone]))))).
  vm_compute. reflexivity.
Defined.

(** A create on the empty provider. *)
Lemma first_request_unconditional_witness :
  exists r,
    Gke.w_trace (Gke.run FakeGke.client 1 (FakeGke.example "present" true) ∅).2
      !! 0%nat
    = Some (Gke.Called (GkeSpec.create_of (FakeGke.example "present" true)) r).
Proof.
  apply (proj1 (first_request_unconditional FakeGke.client
                  (FakeGke.example "present" true) 1 ∅)).
  reflexivity.
Defined.

Lemma no_wait_never_polls_witness :
  Gke.sleeps
    (Gke.w_trace
       (Gke.run FakeGke.client 7 (FakeGke.example "present" false) ∅).2) = 0.
Proof.
  destruct (no_wait_never_polls FakeGke.client
              (FakeGke.example "present" false) 7 ∅ eq_refl) as (_ & _ & H & _).
  exact H.
Defined.

(** A create on the provider that stays in PROVISIONING: five turns
    allowed, five sleeps made, and no end. *)
Lemma polling_has_no_bound_witness :
  (Gke.run (StuckGke.client "PROVISIONING") 5
     (FakeGke.example "present" true) tt).1 = None
  /\ Gke.sleeps
       (Gke.w_trace
          (Gke.run (StuckGke.client "PROVISIONING") 5
             (FakeGke.example "present" true) tt).2) = 5.
Proof.
  destruct (polling_has_no_bound (StuckGke.client "PROVISIONING")
              (FakeGke.example "present" true) 5 tt tt ∅ eq_refl) as [H _].
  apply H.
  - reflexivity.
  - intros []. exists (Gke.mkCluster (Some "PROVISIONING") None ∅), tt.
    split; [reflexivity|]. exists "PROVISIONING". repeat split; reflexivity.
  - reflexivity.
Defined.

(** A create whose cluster is gone at the first poll. *)
Lemma fetch_errors_during_create_witness :
  (Gke.run ScriptedGke.client 1 (FakeGke.example "present" true)
     [inl (ScriptedGke.in_status "PROVISIONING"); inr (Gke.HttpError 404)]).1
  = Some (Gke.Traceback (Gke.HttpError 404)).
Proof.
  destruct (fetch_errors_during_create ScriptedGke.client
              (FakeGke.example "present" true) 1
              [inl (ScriptedGke.in_status "PROVISIONING"); inr (Gke.HttpError 404)]
              [inl (ScriptedGke.in_status "PROVISIONING"); inr (Gke.HttpError 404)]
              ∅ eq_refl eq_refl) as (_ & _ & H).
  rewrite (H (ScriptedGke.in_status "PROVISIONING")
             [inr (Gke.HttpError 404)] (Gke.HttpError 404) []
             eq_refl (le_n 1) eq_refl eq_refl).
  reflexivity.
Defined.

(** A polled cluster without a status. *)
Lemma missing_status_members_witness :
  (Gke.run ScriptedGke.client 1 (FakeGke.example "present" true)
     [inl (ScriptedGke.in_status "PROVISIONING");
      inl (Gke.mkCluster None None ∅)]).1
  = Some (Gke.Traceback (Gke.KeyError "status")).
Proof.
  destruct (missing_status_members ScriptedGke.client
              (FakeGke.example "present" true) 1
              [inl (ScriptedGke.in_status "PROVISIONING");
               inl (Gke.mkCluster None None ∅)]
              [inl (ScriptedGke.in_status "PROVISIONING");
               inl (Gke.mkCluster None None ∅)]
              [inl (Gke.mkCluster None None ∅)] [] ∅
              (ScriptedGke.in_status "PROVISIONING") (Gke.mkCluster None None ∅)
              eq_refl eq_refl (le_n 1) eq_refl eq_refl eq_refl) as [H _].
  exact (H eq_refl).
Defined.

(** Deleting the cluster the provider holds, without waiting. *)
Lemma absent_never_fails_witness :
  (Gke.run FakeGke.client 0 (FakeGke.example "absent" false)
     FakeGke.with_cluster).1
  = Some (Gke.Exit0 true (Gke.not_found (FakeGke.example "absent" false)))
  /\ ((exists changed,
         Gke.Exit0 true (Gke.not_found (FakeGke.example "absent" false))
         = Gke.Exit0 changed (Gke.not_found (FakeGke.example "absent" false)))
      \/ (exists e,
            Gke.Exit0 true (Gke.not_found (FakeGke.example "absent" false))
            = Gke.Traceback e /\ GkeSpec.gone e = false)).
Proof.
  assert (H : (Gke.run FakeGke.client 0 (FakeGke.example "absent" false)
                 FakeGke.with_cluster).1
              = Some (Gke.Exit0 true
                        (Gke.not_found (FakeGke.example "absent" false))))
    by (vm_compute; reflexivity).
  split; [exact H|].
  exact (absent_never_fails FakeGke.client (FakeGke.example "absent" false) 0
           FakeGke.with_cluster _ eq_refl H).
Defined.

(** A create without waiting whose cluster is in an error status. *)
Lemma requests_without_wait_witness :
  (Gke.run ScriptedGke.client 0 (FakeGke.example "present" false)
     [inl (ScriptedGke.failed "ERROR" "quota exceeded")]).1
  = Some (Gke.Exit0 true (ScriptedGke.failed "ERROR" "quota exceeded")).
Proof.
  destruct (requests_without_wait ScriptedGke.client
              (FakeGke.example "present" false) 0
              [inl (ScriptedGke.failed "ERROR" "quota exceeded")]
              [inl (ScriptedGke.failed "ERROR" "quota exceeded")]
              ∅ eq_refl) as [H _].
  rewrite (H eq_refl eq_refl (ScriptedGke.failed "ERROR" "quota exceeded") []
             eq_refl).
  reflexivity.
Defined.

(** A state in capitals. *)
Lemma unknown_action_is_rejected_witness :
  Gke.run FakeGke.client 3 (FakeGke.example "PRESENT" true) ∅
  = (Some (Gke.Exit1 (<["msg" := VStr "Invalid state: 'PRESENT'"]> ∅)),
     Gke.mkWorld ∅ [] false true None).
Proof.
  destruct unknown_action_is_rejected as [_ H].
  apply (H _ FakeGke.client 3 (FakeGke.example "PRESENT" true) ∅);
    discriminate.
Defined.

End MoreWitnesses.
